(** * acloud: instance discovery and the local-instance life cycle

    A shallow embedding of
      - [list/instance.py]                       (modules [re], [instance]),
      - [create/local_image_local_instance.py]   (module [local_image_local_instance]),
      - [delete/delete.py] as exercised by [delete/delete_test.py] (module [delete]),
    followed by the properties established about them. *)

From Stdlib Require Import List Ascii String ZArith Lia Bool Arith PeanoNat.
From Stdlib Require Import DecimalString DecimalPos.
Import ListNotations.

Set Implicit Arguments.
Set Warnings "-register-all".

(** Python 2 [str] values are byte strings: lists of characters. *)
Definition text := list ascii.

(** [t "abc"] is the text of a string literal. *)
Definition t (s : string) : text := list_ascii_of_string s.
Arguments t s%_string.

Abbreviation len := (@List.length ascii).

Fixpoint text_eqb (a b : text) : bool :=
  match a, b with
  | [], [] => true
  | x :: a', y :: b' => Ascii.eqb x y && text_eqb a' b'
  | _, _ => false
  end.

(* ================================================================= *)
(** ** The fragment of Python's [re] used by the two patterns *)

Module re.

(** Character tests of the [sre] engine for byte patterns without flags. *)
Definition is_digit (a : ascii) : bool :=
  let n := nat_of_ascii a in (48 <=? n) && (n <=? 57).

(** [\s] is [ \t\n\r\f\v]. *)
Definition is_space (a : ascii) : bool :=
  let n := nat_of_ascii a in (n =? 32) || ((9 <=? n) && (n <=? 13)).

Definition newline : ascii := ascii_of_nat 10.

(** One-character items of a pattern. *)
Inductive cls : Type :=
| Chr (c : ascii)      (* a literal character *)
| Dot                  (* [.]  : anything but a newline *)
| Space                (* [\s] *)
| Digit                (* [\d] *)
| NotChr (c : ascii).  (* [[^c]] *)

Definition accepts (k : cls) (a : ascii) : bool :=
  match k with
  | Chr c => Ascii.eqb a c
  | Dot => negb (Ascii.eqb a newline)
  | Space => is_space a
  | Digit => is_digit a
  | NotChr c => negb (Ascii.eqb a c)
  end.

(** Patterns.  Unnamed parentheses only group, so they are the tree
    structure itself; a named group [(?P<n>r)] is [Grp n r]. *)
Inductive regex : Type :=
| Eps                          (* the empty pattern *)
| One (k : cls)
| Bol                          (* [^] *)
| Seq (r1 r2 : regex)
| Star (r : regex)             (* [r*], greedy *)
| Plus (r : regex)             (* [r+], greedy *)
| Opt (r : regex)              (* [r?], greedy *)
| Grp (name : string) (r : regex).

(** A run of literal characters. *)
Fixpoint Lit (s : text) : regex :=
  match s with
  | [] => Eps
  | c :: s' => Seq (One (Chr c)) (Lit s')
  end.

(** Text spliced into a pattern with [%s] is read as pattern source.  For
    texts made of letters, digits, [:], [-], [_] and [.], every character
    stands for itself except [.], which is the wildcard. *)
Fixpoint Src (s : text) : regex :=
  match s with
  | [] => Eps
  | c :: s' =>
      Seq (One (if Ascii.eqb c "."%char then Dot else Chr c)) (Src s')
  end.

(** The texts for which this reading is the one of [re.compile]: letters,
    digits, [:], [-], [_] and [.] only.  Any other character may be an
    operator of the pattern language, and a text that holds one is not
    covered by [Src]. *)
Definition is_letter (a : ascii) : bool :=
  let n := nat_of_ascii a in
  ((65 <=? n) && (n <=? 90)) || ((97 <=? n) && (n <=? 122)).

Definition is_src_char (a : ascii) : bool :=
  is_letter a || is_digit a || Ascii.eqb a ":"%char || Ascii.eqb a "-"%char ||
  Ascii.eqb a "_"%char || Ascii.eqb a "."%char.

Definition src_plain (s : text) : bool := forallb is_src_char s.

(** Bindings of the named groups, most recent first. *)
Definition groups := list (string * text).

Fixpoint group (m : groups) (name : string) : option text :=
  match m with
  | [] => None
  | (n, v) :: m' => if String.eqb n name then Some v else group m' name
  end.

(** The matcher is a backtracking search in continuation-passing style:
    [k] is what remains to be matched after the current item.  [pos] is
    the offset of [s] in the subject, [g] the bindings made so far. *)
Definition cont := nat -> text -> groups -> option groups.

(** Ordered choice: the second alternative is explored only when the
    first one has failed. *)
Notation "a 'orelse' b" :=
  (match a with Some x => Some x | None => b end)
  (at level 60, right associativity, only parsing).

(** Greedy iteration: try one more round of [body] (which has to consume
    something), and only when that leads nowhere, leave the loop. *)
Fixpoint star_loop (body : nat -> text -> groups -> cont -> option groups)
    (n : nat) (pos : nat) (s : text) (g : groups) (k : cont) : option groups :=
  match n with
  | O => k pos s g
  | S n' =>
      body pos s g
        (fun pos' s' g' =>
           if len s' <? len s
           then star_loop body n' pos' s' g' k
           else None)
      orelse k pos s g
  end.

Fixpoint rmatch (r : regex) : nat -> text -> groups -> cont -> option groups :=
  match r with
  | Eps => fun pos s g k => k pos s g
  | One c => fun pos s g k =>
      match s with
      | a :: s' => if accepts c a then k (S pos) s' g else None
      | [] => None
      end
  | Bol => fun pos s g k => if pos =? 0 then k pos s g else None
  | Seq r1 r2 => fun pos s g k =>
      rmatch r1 pos s g (fun pos' s' g' => rmatch r2 pos' s' g' k)
  | Star r1 => fun pos s g k => star_loop (rmatch r1) (len s) pos s g k
  | Plus r1 => fun pos s g k =>
      rmatch r1 pos s g
        (fun pos' s' g' => star_loop (rmatch r1) (len s') pos' s' g' k)
  | Opt r1 => fun pos s g k => rmatch r1 pos s g k orelse k pos s g
  | Grp name r1 => fun pos s g k =>
      rmatch r1 pos s g
        (fun pos' s' g' => k pos' s' ((name, firstn (pos' - pos) s) :: g'))
  end.

(** [pattern.match(line)]: anchored at the start of [line], free at its
    end; the result is the match object's named groups. *)
Definition re_match (r : regex) (line : text) : option groups :=
  rmatch r 0 line [] (fun _ _ g => Some g).

End re.

Import re.

(* ================================================================= *)
(** ** Constants of [acloud.internal.constants] *)

Module constants.

(** Modelled from the spec: [constants.DEFAULT_VNC_PORT], the fixed default
    VNC remote port (P3: default VNC=6444). *)
Definition DEFAULT_VNC_PORT : Z := 6444.

(** Modelled from the spec: [constants.DEFAULT_ADB_PORT], the fixed default
    ADB remote port (P3: default ADB=6520). *)
Definition DEFAULT_ADB_PORT : Z := 6520.

(** Modelled from the spec: [constants.LOCAL_INS_NAME], the fixed name of
    the local instance. *)
Definition LOCAL_INS_NAME : text := t "local-instance".

(** Modelled from the spec: [constants.INS_STATUS_RUNNING]. *)
Definition INS_STATUS_RUNNING : text := t "RUNNING".

(** Modelled from the spec: [constants.CMD_LAUNCH_CVD] and
    [constants.CMD_STOP_CVD], the names of the launch and stop commands. *)
Definition CMD_LAUNCH_CVD : text := t "launch_cvd".
Definition CMD_STOP_CVD : text := t "stop_cvd".

End constants.

(* ================================================================= *)
(** ** Python values and formatting *)

(** [int(s)] for a text of decimal digits. *)
Definition int_of_digits (s : text) : Z :=
  fold_left (fun acc c => (10 * acc + (Z.of_nat (nat_of_ascii c) - 48))%Z) s 0%Z.

(** ["%d" % n]. *)
Definition fmt_d (n : Z) : text := t (NilZero.string_of_int (Z.to_int n)).

(** ["%s" % v] where [v] is a [str] or [None]. *)
Definition fmt_s (v : option text) : text :=
  match v with
  | Some s => s
  | None => t "None"
  end.

(** Truth value of a [str]-or-[None] and of an [int]-or-[None]. *)
Definition truthy_str (v : option text) : bool :=
  match v with
  | Some (_ :: _) => true
  | _ => false
  end.

Definition truthy_int (v : option Z) : bool :=
  match v with
  | Some n => negb (Z.eqb n 0)
  | None => false
  end.

(** [str.strip()]: whitespace removed at both ends. *)
Fixpoint lstrip (s : text) : text :=
  match s with
  | c :: s' => if is_space c then lstrip s' else s
  | [] => []
  end.

Definition strip (s : text) : text := rev (lstrip (rev (lstrip s))).

(** [str.splitlines()] on a byte string: lines end at [\n], [\r] or
    [\r\n]; the terminators are dropped. *)
Definition cr : ascii := ascii_of_nat 13.

Fixpoint splitlines_from (cur : text) (s : text) : list text :=
  match s with
  | [] => match cur with [] => [] | _ => [rev cur] end
  | c :: s' =>
      if Ascii.eqb c newline then rev cur :: splitlines_from [] s'
      else if Ascii.eqb c cr then
        match s' with
        | d :: s'' =>
            if Ascii.eqb d newline then rev cur :: splitlines_from [] s''
            else rev cur :: splitlines_from [] s'
        | [] => [rev cur]
        end
      else splitlines_from (c :: cur) s'
  end.

Definition splitlines (s : text) : list text := splitlines_from [] s.

(* ================================================================= *)
(** ** [list/instance.py] *)

Module instance.

Import constants.

Notation "a >> b" := (Seq a b) (at level 61, right associativity).

Definition _RE_GROUP_ADB : string := "local_adb_port".
Definition _RE_GROUP_VNC : string := "local_vnc_port".

(** One forwarding clause of the tunnel pattern,
    [((.*\s*-L\s)(?P<%s>\d+):127.0.0.1:%s)]. *)
Definition forward_clause (grp : string) (remote_port : text) : regex :=
  (Star (One Dot) >> Star (One Space) >> Lit (t "-L") >> One Space) >>
  Grp grp (Plus (One Digit)) >>
  Src (t ":127.0.0.1:") >> Src remote_port.

(** [_RE_SSH_TUNNEL_PATTERN % (g1, p1, g2, p2, ip)]:
    [((.*\s*-L\s)(?P<g1>\d+):127.0.0.1:p1)]
    [((.*\s*-L\s)(?P<g2>\d+):127.0.0.1:p2)]
    [(.+ip)]. *)
Definition _RE_SSH_TUNNEL_PATTERN
    (g1 : string) (p1 : text) (g2 : string) (p2 : text) (ip : text) : regex :=
  forward_clause g1 p1 >>
  forward_clause g2 p2 >>
  (Plus (One Dot) >> Src ip).

(** One optional flag of the launch pattern, [((.*\s*-flag\s)(?P<g>\d+))?]. *)
Definition flag_clause (flag : text) (grp : string) : regex :=
  Opt ((Star (One Dot) >> Star (One Space) >> Lit flag >> One Space) >>
       Grp grp (Plus (One Digit))).

(** [_RE_LAUNCH_CVD]:
    [(?P<date_str>^[^/]+)(.*launch_cvd --daemon )+]
    [((.*\s*-cpus\s)(?P<cpu>\d+))?]
    [((.*\s*-x_res\s)(?P<x_res>\d+))?]
    [((.*\s*-y_res\s)(?P<y_res>\d+))?]
    [((.*\s*-dpi\s)(?P<dpi>\d+))?]
    [((.*\s*-memory_mb\s)(?P<memory>\d+))?]
    [((.*\s*-blank_data_image_mb\s)(?P<disk>\d+))?]. *)
Definition _RE_LAUNCH_CVD : regex :=
  Grp "date_str" (Bol >> Plus (One (NotChr "/"))) >>
  Plus (Star (One Dot) >> Lit (t "launch_cvd --daemon ")) >>
  flag_clause (t "-cpus") "cpu" >>
  flag_clause (t "-x_res") "x_res" >>
  flag_clause (t "-y_res") "y_res" >>
  flag_clause (t "-dpi") "dpi" >>
  flag_clause (t "-memory_mb") "memory" >>
  flag_clause (t "-blank_data_image_mb") "disk".

(** [_FULL_NAME_STRING % {"device_serial": d, "instance_name": n}]. *)
Definition _FULL_NAME_STRING (device_serial : text) (instance_name : option text)
  : text :=
  t "device serial: " ++ device_serial ++ t " (" ++ fmt_s instance_name ++ t ")".

(** [ForwardedPorts], the named tuple [(vnc_port, adb_port)]. *)
Record ForwardedPorts : Type := mkForwardedPorts {
  vnc_port : option Z;
  adb_port : option Z
}.

(** The attributes of [class Instance]; [None] is Python's [None]. *)
Record Instance : Type := mkInstance {
  _name : option text;
  _fullname : option text;
  _status : option text;
  _display : option text;
  _ip : option text;
  _adb_port : option Z;
  _vnc_port : option Z;
  _ssh_tunnel_is_connected : option bool;
  _createtime : option text;
  _avd_type : option text;
  _avd_flavor : option text;
  _is_local : option bool
}.

(** [Instance.__init__]: every attribute is [None]. *)
Definition Instance__init__ : Instance :=
  mkInstance None None None None None None None None None None None None.

(** Attribute assignments [self._x = v]. *)
Definition set_name v (i : Instance) : Instance :=
  mkInstance v (_fullname i) (_status i) (_display i) (_ip i) (_adb_port i)
    (_vnc_port i) (_ssh_tunnel_is_connected i) (_createtime i) (_avd_type i)
    (_avd_flavor i) (_is_local i).
Definition set_fullname v (i : Instance) : Instance :=
  mkInstance (_name i) v (_status i) (_display i) (_ip i) (_adb_port i)
    (_vnc_port i) (_ssh_tunnel_is_connected i) (_createtime i) (_avd_type i)
    (_avd_flavor i) (_is_local i).
Definition set_status v (i : Instance) : Instance :=
  mkInstance (_name i) (_fullname i) v (_display i) (_ip i) (_adb_port i)
    (_vnc_port i) (_ssh_tunnel_is_connected i) (_createtime i) (_avd_type i)
    (_avd_flavor i) (_is_local i).
Definition set_display v (i : Instance) : Instance :=
  mkInstance (_name i) (_fullname i) (_status i) v (_ip i) (_adb_port i)
    (_vnc_port i) (_ssh_tunnel_is_connected i) (_createtime i) (_avd_type i)
    (_avd_flavor i) (_is_local i).
Definition set_ip v (i : Instance) : Instance :=
  mkInstance (_name i) (_fullname i) (_status i) (_display i) v (_adb_port i)
    (_vnc_port i) (_ssh_tunnel_is_connected i) (_createtime i) (_avd_type i)
    (_avd_flavor i) (_is_local i).
Definition set_adb_port v (i : Instance) : Instance :=
  mkInstance (_name i) (_fullname i) (_status i) (_display i) (_ip i) v
    (_vnc_port i) (_ssh_tunnel_is_connected i) (_createtime i) (_avd_type i)
    (_avd_flavor i) (_is_local i).
Definition set_vnc_port v (i : Instance) : Instance :=
  mkInstance (_name i) (_fullname i) (_status i) (_display i) (_ip i)
    (_adb_port i) v (_ssh_tunnel_is_connected i) (_createtime i) (_avd_type i)
    (_avd_flavor i) (_is_local i).
Definition set_ssh_tunnel_is_connected v (i : Instance) : Instance :=
  mkInstance (_name i) (_fullname i) (_status i) (_display i) (_ip i)
    (_adb_port i) (_vnc_port i) v (_createtime i) (_avd_type i)
    (_avd_flavor i) (_is_local i).
Definition set_createtime v (i : Instance) : Instance :=
  mkInstance (_name i) (_fullname i) (_status i) (_display i) (_ip i)
    (_adb_port i) (_vnc_port i) (_ssh_tunnel_is_connected i) v (_avd_type i)
    (_avd_flavor i) (_is_local i).
Definition set_avd_type v (i : Instance) : Instance :=
  mkInstance (_name i) (_fullname i) (_status i) (_display i) (_ip i)
    (_adb_port i) (_vnc_port i) (_ssh_tunnel_is_connected i) (_createtime i) v
    (_avd_flavor i) (_is_local i).
Definition set_avd_flavor v (i : Instance) : Instance :=
  mkInstance (_name i) (_fullname i) (_status i) (_display i) (_ip i)
    (_adb_port i) (_vnc_port i) (_ssh_tunnel_is_connected i) (_createtime i)
    (_avd_type i) v (_is_local i).
Definition set_is_local v (i : Instance) : Instance :=
  mkInstance (_name i) (_fullname i) (_status i) (_display i) (_ip i)
    (_adb_port i) (_vnc_port i) (_ssh_tunnel_is_connected i) (_createtime i)
    (_avd_type i) (_avd_flavor i) v.

(** Statements in sequence: [i |> f |> g] applies [f], then [g]. *)
Notation "i |> f" := (f i) (at level 62, left associativity, only parsing).

Section WithConstants.

(** [constants.TYPE_CF], the device type of a local instance; its value is
    not fixed by the sources at hand. *)
Variable TYPE_CF : text.

(** [LocalInstance.__new__], from the result of [utils.IsSupportedPlatform()]
    and the output of [ps -eo lstart,cmd]. *)
Definition local_instance_of_match (m : groups) : Instance :=
  let local_instance := Instance__init__ in
  let x_res := group m "x_res" in
  let y_res := group m "y_res" in
  let dpi := group m "dpi" in
  let date_str := option_map strip (group m "date_str") in
  local_instance
  |> set_name (Some LOCAL_INS_NAME)
  |> set_fullname
       (Some (_FULL_NAME_STRING (t "127.0.0.1:" ++ fmt_d DEFAULT_ADB_PORT)
                                (Some LOCAL_INS_NAME)))
  |> set_createtime date_str
  |> set_avd_type (Some TYPE_CF)
  |> set_ip (Some (t "127.0.0.1"))
  |> set_status (Some INS_STATUS_RUNNING)
  |> set_adb_port (Some DEFAULT_ADB_PORT)
  |> set_vnc_port (Some DEFAULT_VNC_PORT)
  |> set_display
       (Some (fmt_s x_res ++ t "x" ++ fmt_s y_res ++
              t " (" ++ fmt_s dpi ++ t ")"))
  |> set_is_local (Some true)
  |> set_ssh_tunnel_is_connected (Some true).

Fixpoint LocalInstance_scan (lines : list text) : option Instance :=
  match lines with
  | [] => None
  | line :: rest =>
      match re_match _RE_LAUNCH_CVD line with
      | Some m => Some (local_instance_of_match m)
      | None => LocalInstance_scan rest
      end
  end.

Definition LocalInstance (supported : bool) (process_output : text)
  : option Instance :=
  if negb supported then None
  else LocalInstance_scan (splitlines process_output).

(** The instance description returned by the compute API, as far as it is
    read here.  A field is [None] when the key is missing (which is what
    [dict.get] returns) or holds [null].  The metadata is taken to be
    well formed, a list of items that each carry a key and a value (an
    absent [metadata] or [items] being the empty list); a description
    whose [metadata] or [items] is [null], or with an item that lacks its
    key or its value, makes the metadata loop raise and has no counterpart
    here. *)
Record access_config : Type := mkAccessConfig {
  natIP : option text
}.

Record network_interface : Type := mkNetworkInterface {
  accessConfigs : option (list access_config)
}.

Record gce_instance : Type := mkGceInstance {
  gce_name : option text;
  gce_creationTimestamp : option text;
  gce_status : option text;
  networkInterfaces : option (list network_interface);
  metadata_items : list (text * text)   (* [.get("metadata", {}).get("items", [])] *)
}.

(** Iterating over [None] raises [TypeError]. *)
Inductive raised (A : Type) : Type :=
| Ok (a : A)
| TypeError.
Arguments Ok {A} a.
Arguments TypeError {A}.

(** The inner loop: [for access_config in ...: ip = access_config.get("natIP")]. *)
Fixpoint scan_access_configs (ip : option text) (cfgs : list access_config)
  : option text :=
  match cfgs with
  | [] => ip
  | cfg :: rest => scan_access_configs (natIP cfg) rest
  end.

(** The outer loop over [gce_instance.get("networkInterfaces")]. *)
Fixpoint scan_interfaces (ip : option text) (nis : list network_interface)
  : raised (option text) :=
  match nis with
  | [] => Ok ip
  | ni :: rest =>
      match accessConfigs ni with
      | None => TypeError
      | Some cfgs => scan_interfaces (scan_access_configs ip cfgs) rest
      end
  end.

Definition extract_ip (gce : gce_instance) : raised (option text) :=
  match networkInterfaces gce with
  | None => TypeError
  | Some nis => scan_interfaces None nis
  end.

(** [RemoteInstance.GetAdbVncPortFromSSHTunnel], from the output of
    [constants.COMMAND_PS] and the address.  The loop stops at the first
    matching line; the call of [logger.debug] has no part in the result. *)
Fixpoint first_tunnel (re_pattern : regex) (lines : list text) : ForwardedPorts :=
  match lines with
  | [] => mkForwardedPorts None None
  | line :: rest =>
      match re_match re_pattern line with
      | Some m =>
          let adb := option_map int_of_digits (group m _RE_GROUP_ADB) in
          let vnc := option_map int_of_digits (group m _RE_GROUP_VNC) in
          mkForwardedPorts vnc adb
      | None => first_tunnel re_pattern rest
      end
  end.

Definition tunnel_pattern (ip : text) : regex :=
  _RE_SSH_TUNNEL_PATTERN _RE_GROUP_VNC (fmt_d DEFAULT_VNC_PORT)
                         _RE_GROUP_ADB (fmt_d DEFAULT_ADB_PORT) ip.

Definition GetAdbVncPortFromSSHTunnel (process_output : text) (ip : text)
  : ForwardedPorts :=
  first_tunnel (tunnel_pattern ip) (splitlines process_output).

(** The metadata keys [constants.INS_KEY_DISPLAY], [INS_KEY_AVD_TYPE] and
    [INS_KEY_AVD_FLAVOR]; their values are not fixed by the sources at hand. *)
Variables INS_KEY_DISPLAY INS_KEY_AVD_TYPE INS_KEY_AVD_FLAVOR : text.

Definition set_metadata (self : Instance) (item : text * text) : Instance :=
  let (key, value) := item in
  if text_eqb key INS_KEY_DISPLAY then self |> set_display (Some value)
  else if text_eqb key INS_KEY_AVD_TYPE then self |> set_avd_type (Some value)
  else if text_eqb key INS_KEY_AVD_FLAVOR then
    self |> set_avd_flavor (Some value)
  else self.

(** The value held by a variable known not to be [None]. *)
Definition the {A : Type} (d : A) (v : option A) : A :=
  match v with
  | Some a => a
  | None => d
  end.

(** The branch [if ip: ...] of [_ProcessGceInstance]. *)
Definition find_tunnel (process_output : text) (ip : option text)
    (self : Instance) : Instance :=
  if truthy_str ip then
    let forwarded_ports :=
      GetAdbVncPortFromSSHTunnel process_output (the [] ip) in
    let self :=
      self
      |> set_ip ip
      |> set_adb_port (adb_port forwarded_ports)
      |> set_vnc_port (vnc_port forwarded_ports) in
    if truthy_int (_adb_port self) then
      self
      |> set_ssh_tunnel_is_connected (Some true)
      |> set_fullname
           (Some (_FULL_NAME_STRING
                    (t "127.0.0.1:" ++ fmt_d (the 0%Z (_adb_port self)))
                    (_name self)))
    else
      self
      |> set_ssh_tunnel_is_connected (Some false)
      |> set_fullname
           (Some (_FULL_NAME_STRING (t "not connected") (_name self)))
  else self.

(** [RemoteInstance._ProcessGceInstance]. *)
Definition _ProcessGceInstance (process_output : text) (gce : gce_instance)
    (self : Instance) : raised Instance :=
  let self :=
    self
    |> set_name (gce_name gce)
    |> set_createtime (gce_creationTimestamp gce)
    |> set_status (gce_status gce) in
  match extract_ip gce with
  | TypeError => TypeError
  | Ok ip =>
      let self := find_tunnel process_output ip self in
      Ok (fold_left set_metadata (metadata_items gce) self)
  end.

(** [RemoteInstance.__init__]. *)
Definition RemoteInstance (process_output : text) (gce : gce_instance)
  : raised Instance :=
  match _ProcessGceInstance process_output gce Instance__init__ with
  | TypeError => TypeError
  | Ok self => Ok (self |> set_is_local (Some false))
  end.

End WithConstants.

End instance.

(* ================================================================= *)
(** ** Commands that talk to the operating system *)

Module proc.

(** Exceptions that leave the functions below. *)
Inductive exn : Type :=
| GetLocalImageError (message : text)
| GetCvdLocalHostPackageError (message : text)
| LaunchCVDFail (message : text)
| CalledProcessError (cmd : text) (returncode : Z)
| AttributeError                    (* [os.path.join(None, ...)] *)
| SystemExit (code : option Z).     (* [sys.exit()] carries [None] *)

(** The status with which the interpreter ends on an uncaught [SystemExit];
    [None] is success. *)
Definition exit_status (code : option Z) : Z :=
  match code with
  | None => 0
  | Some n => n
  end.

(** What the program does to the outside, in the order it does it. *)
Inductive event : Type :=
| Printed (message : text)                   (* [print], [utils.PrintColorString] *)
| LoggedError (message : text)               (* [logger.error] *)
| IsCommandRunning (command : text)          (* [utils.IsCommandRunning]: a process scan *)
| Asked (question : text)                    (* [utils.GetUserAnswerYes] *)
| CheckCall (cmd : text) (devnull : bool)    (* [subprocess.check_call(cmd, shell=True)] *)
| CheckOutput (cmd : text)                   (* [subprocess.check_output(cmd, shell=True)] *)
| LaunchVNC.                                 (* [utils.LaunchVNCFromReport] *)

(** An event that starts a subprocess. *)
Definition is_subprocess (e : event) : bool :=
  match e with
  | IsCommandRunning _ | CheckCall _ _ | CheckOutput _ => true
  | _ => false
  end.

(** How the outside answers. *)
Record world : Type := mkWorld {
  verify_local_image : text -> option text;
    (* [create_common.VerifyLocalImageArtifactsExist(dir)]: [Some m] when it
       raises [GetLocalImageError(m)] *)
  environ_get : text -> option text;         (* [os.environ.get] *)
  path_exists : text -> bool;                (* [os.path.exists] *)
  command_running : text -> bool;
  answer_yes : text -> bool;
  returncode : text -> Z;                    (* exit status of a shell command *)
  error_message : text -> text;              (* [CalledProcessError.message] *)
  stop_cvd_path : text                       (* result of [delete._GetStopCvd()] *)
}.

Inductive result (A : Type) : Type :=
| Return (a : A)
| Raise (e : exn).
Arguments Return {A} a.
Arguments Raise {A} e.

(** Computations: read the world, extend the trace, return or raise. *)
Definition M (A : Type) : Type := world -> list event -> result A * list event.

Definition ret {A : Type} (a : A) : M A := fun _ tr => (Return a, tr).

Definition raise {A : Type} (e : exn) : M A := fun _ tr => (Raise e, tr).

Definition bind {A B : Type} (c : M A) (f : A -> M B) : M B :=
  fun w tr =>
    match c w tr with
    | (Return a, tr') => f a w tr'
    | (Raise e, tr') => (Raise e, tr')
    end.

Definition emit (e : event) : M unit := fun _ tr => (Return tt, tr ++ [e]).

Definition ask {A : Type} (f : world -> A) : M A := fun w tr => (Return (f w), tr).

Notation "x <- c ;; k" := (bind c (fun x => k))
  (at level 100, c at next level, right associativity).
Notation "c ;;; k" := (bind c (fun _ => k))
  (at level 100, right associativity).

Definition run {A : Type} (c : M A) (w : world) : result A * list event :=
  c w [].

(** [subprocess.check_call(cmd, stdout=devnull, stderr=devnull, shell=True)]
    and [subprocess.check_call(cmd, shell=True)]. *)
Definition check_call (cmd : text) (devnull : bool) : M unit :=
  emit (CheckCall cmd devnull) ;;;
  rc <- ask (fun w => returncode w cmd) ;;
  if Z.eqb rc 0 then ret tt else raise (CalledProcessError cmd rc).

(** [os.path.join(a, b)]. *)
Definition slash : ascii := "/"%char.

Definition starts_with_slash (s : text) : bool :=
  match s with
  | c :: _ => Ascii.eqb c slash
  | [] => false
  end.

Definition path_join (a b : text) : text :=
  if starts_with_slash b then b
  else if match a with [] => true | _ => starts_with_slash (rev a) end
       then a ++ b
       else a ++ slash :: b.

Fixpoint drop_to_slash (s : text) : text :=
  match s with
  | [] => []
  | c :: s' => if Ascii.eqb c slash then s else drop_to_slash s'
  end.

Fixpoint drop_slashes (s : text) : text :=
  match s with
  | c :: s' => if Ascii.eqb c slash then drop_slashes s' else s
  | [] => []
  end.

(** [os.path.dirname(p)]. *)
Definition dirname (p : text) : text :=
  let head := rev (drop_to_slash (rev p)) in
  if forallb (fun c => Ascii.eqb c slash) head then head
  else rev (drop_slashes (rev head)).

(** Values of a report's [data] mapping. *)
Inductive value : Type :=
| VStr (s : text)
| VInt (n : Z)
| VList (l : list value)
| VDict (d : list (text * value)).

(** Modelled from the spec: the report of [acloud.public.report], a
    structured result with a [status], a [command] name and a free-form
    [data] mapping. *)
Record Report : Type := mkReport {
  command : text;
  status : text;
  data : list (text * value)
}.

End proc.

(* ================================================================= *)
(** ** [create/local_image_local_instance.py] *)

Module local_image_local_instance.

Import constants proc.

Definition dquote : text := [ascii_of_nat 34].

Definition _CONFIRM_RELAUNCH : text :=
  newline :: t "Cuttlefish AVD is already running. " ++ newline ::
  t "Enter 'y' to terminate current instance and launch a new instance, enter anything else to exit out [y]: ".

Definition _ENV_ANDROID_HOST_OUT : text := t "ANDROID_HOST_OUT".

(** The hardware properties read by [PrepareLaunchCVDCmd], already as text. *)
Record hw_property : Type := mkHw {
  hw_cpu : text;
  hw_x_res : text;
  hw_y_res : text;
  hw_dpi : text;
  hw_memory : text;
  hw_disk : text
}.

(** The attributes of [AVDSpec] read here. *)
Record AVDSpec : Type := mkAVDSpec {
  local_image_dir : text;
  avd_hw_property : hw_property;
  autoconnect : bool
}.

(** [_CMD_LAUNCH_CVD_ARGS % (cpu, x_res, y_res, dpi, memory, disk, dir, port)]. *)
Definition _CMD_LAUNCH_CVD_ARGS
    (cpu x_res y_res dpi memory disk system_image_dir vnc_port : text) : text :=
  t " --daemon --cpus " ++ cpu ++ t " --x_res " ++ x_res ++
  t " --y_res " ++ y_res ++ t " --dpi " ++ dpi ++
  t " --memory_mb " ++ memory ++ t " --blank_data_image_mb " ++ disk ++
  t " --data_policy always_create" ++
  t " --system_image_dir " ++ system_image_dir ++
  t " --vnc_server_port " ++ vnc_port.

Section WithUtils.

(** [utils.AddUserGroupsToCmd(cmd, constants.LIST_CF_USER_GROUPS)], which
    wraps a command so that it runs with the required groups; it is not
    among the sources at hand. *)
Variable AddUserGroupsToCmd : text -> text.

(** [PrintDisclaimer]. *)
Definition PrintDisclaimer : M unit :=
  emit (Printed
          (t "(Disclaimer: Local cuttlefish instance is not a fully supported" ++
           newline ::
           t "runtime configuration, fixing breakages is on a best effort SLO.)" ++
           [newline])).

(** [GetImageArtifactsPath]. *)
Definition GetImageArtifactsPath (avd_spec : AVDSpec) : M (text * text) :=
  verdict <- ask (fun w => verify_local_image w (local_image_dir avd_spec)) ;;
  match verdict with
  | Some message =>
      emit (LoggedError message) ;;;
      raise (GetLocalImageError message)
  | None =>
      host_out <- ask (fun w => environ_get w _ENV_ANDROID_HOST_OUT) ;;
      match host_out with
      | None => raise AttributeError
      | Some dir =>
          let launch_cvd_path :=
            path_join (path_join dir (t "bin")) CMD_LAUNCH_CVD in
          present <- ask (fun w => path_exists w launch_cvd_path) ;;
          if negb present then
            raise (GetCvdLocalHostPackageError
                     (t "No launch_cvd found. Please run " ++ dquote ++
                      t "m launch_cvd" ++ dquote ++ t " first"))
          else ret (local_image_dir avd_spec, launch_cvd_path)
      end
  end.

(** [PrepareLaunchCVDCmd]. *)
Definition PrepareLaunchCVDCmd (launch_cvd_path : text) (hw : hw_property)
    (system_image_dir : text) : text :=
  let launch_cvd_w_args :=
    launch_cvd_path ++
    _CMD_LAUNCH_CVD_ARGS (hw_cpu hw) (hw_x_res hw) (hw_y_res hw) (hw_dpi hw)
      (hw_memory hw) (hw_disk hw) system_image_dir (fmt_d DEFAULT_VNC_PORT) in
  AddUserGroupsToCmd launch_cvd_w_args.

(** [CheckLaunchCVD].  The decorator [utils.TimeExecute] reports the time
    spent and hands results and exceptions on unchanged. *)
Definition CheckLaunchCVD (cmd : text) (host_pack_dir : text) : M unit :=
  emit (IsCommandRunning CMD_LAUNCH_CVD) ;;;
  running <- ask (fun w => command_running w CMD_LAUNCH_CVD) ;;
  (if running then
     emit (Asked _CONFIRM_RELAUNCH) ;;;
     yes <- ask (fun w => answer_yes w _CONFIRM_RELAUNCH) ;;
     if yes then
       let stop_cvd_cmd := path_join host_pack_dir CMD_STOP_CVD in
       check_call (AddUserGroupsToCmd stop_cvd_cmd) true
     else
       emit (Printed (t "Exiting out")) ;;;
       raise (SystemExit None)
   else ret tt) ;;;
  emit (CheckOutput cmd) ;;;
  rc <- ask (fun w => returncode w cmd) ;;
  if Z.eqb rc 0 then ret tt
  else
    message <- ask (fun w => error_message w cmd) ;;
    raise (LaunchCVDFail
             (t "Can't launch cuttlefish AVD." ++ message ++ t ". " ++
              newline :: t "For more detail: ~/cuttlefish_runtime/launcher.log")).

(** [_CreateAVD]. *)
Definition _CreateAVD (avd_spec : AVDSpec) : M Report :=
  PrintDisclaimer ;;;
  paths <- GetImageArtifactsPath avd_spec ;;
  let (local_image_path, launch_cvd_path) := paths in
  let cmd :=
    PrepareLaunchCVDCmd launch_cvd_path (avd_hw_property avd_spec)
      local_image_path in
  CheckLaunchCVD cmd (dirname launch_cvd_path) ;;;
  let result_report :=
    {| command := LOCAL_INS_NAME;
       status := t "SUCCESS";
       data := [(t "devices",
                 VDict [(t "adb_port", VInt DEFAULT_ADB_PORT);
                        (t "vnc_port", VInt DEFAULT_VNC_PORT)])] |} in
  (if autoconnect avd_spec then emit LaunchVNC else ret tt) ;;;
  ret result_report.

End WithUtils.

End local_image_local_instance.

(* ================================================================= *)
(** ** [delete/delete.py], as exercised by [delete/delete_test.py] *)

Module delete.

Import constants proc.

Section WithUtils.

Variable AddUserGroupsToCmd : text -> text.

(** Modelled from the spec: [delete._GetStopCvd], the stop-path resolution.
    [delete/delete.py] is not among the sources; the path it resolves from
    the running launch process is an answer of the outside world, and may
    be empty. *)
Definition _GetStopCvd : M text := ask stop_cvd_path.

(** Modelled from the spec: [delete.DeleteLocalInstance], missing with
    [delete/delete.py].  It locates the stop command through [_GetStopCvd],
    builds the stop command from that path, executes it, and reports the
    deletion of exactly one item named [local-instance] of type [instance];
    a failure of the stop command propagates to the caller. *)
Definition DeleteLocalInstance : M Report :=
  stop_cvd <- _GetStopCvd ;;
  check_call (AddUserGroupsToCmd stop_cvd) true ;;;
  ret {| command := t "delete";
         status := t "SUCCESS";
         data := [(t "deleted",
                   VList [VDict [(t "type", VStr (t "instance"));
                                 (t "name", VStr LOCAL_INS_NAME)]])] |}.

End WithUtils.

End delete.

(* ================================================================= *)
(** ** What a successful match says about the subject *)

Module re_spec.

(** [matches r pos s g pos' s' g']: starting at offset [pos] with [s] still
    to read and bindings [g], the pattern [r] can read a prefix of [s],
    leaving [s'] at offset [pos'] with bindings [g']. *)
Inductive matches : regex -> nat -> text -> groups -> nat -> text -> groups -> Prop :=
| M_Eps pos s g : matches Eps pos s g pos s g
| M_One c a pos s g :
    accepts c a = true -> matches (One c) pos (a :: s) g (S pos) s g
| M_Bol s g : matches Bol 0 s g 0 s g
| M_Seq r1 r2 pos s g p1 s1 g1 p2 s2 g2 :
    matches r1 pos s g p1 s1 g1 ->
    matches r2 p1 s1 g1 p2 s2 g2 ->
    matches (Seq r1 r2) pos s g p2 s2 g2
| M_Star_stop r pos s g : matches (Star r) pos s g pos s g
| M_Star_step r pos s g p1 s1 g1 p2 s2 g2 :
    matches r pos s g p1 s1 g1 ->
    len s1 < len s ->
    matches (Star r) p1 s1 g1 p2 s2 g2 ->
    matches (Star r) pos s g p2 s2 g2
| M_Plus r pos s g p1 s1 g1 p2 s2 g2 :
    matches r pos s g p1 s1 g1 ->
    matches (Star r) p1 s1 g1 p2 s2 g2 ->
    matches (Plus r) pos s g p2 s2 g2
| M_Opt_skip r pos s g : matches (Opt r) pos s g pos s g
| M_Opt_take r pos s g p1 s1 g1 :
    matches r pos s g p1 s1 g1 ->
    matches (Opt r) pos s g p1 s1 g1
| M_Grp name r pos s g p1 s1 g1 :
    matches r pos s g p1 s1 g1 ->
    matches (Grp name r) pos s g p1 s1 ((name, firstn (p1 - pos) s) :: g1).

(** A text occurs inside another one. *)
Definition Contains (x s : text) : Prop :=
  exists pre post, s = pre ++ x ++ post.

(** A sequence of one-character items, read at the head of a text. *)
Fixpoint starts (p : list cls) (s : text) : bool :=
  match p with
  | [] => true
  | k :: p' =>
      match s with
      | a :: s' => accepts k a && starts p' s'
      | [] => false
      end
  end.

(** ... and read somewhere in a text. *)
Fixpoint occurs (p : list cls) (s : text) : bool :=
  match s with
  | [] => starts p []
  | _ :: s' => starts p s || occurs p s'
  end.

(** Spliced pattern text reads a text of the same length that agrees with
    it away from the dots. *)
Fixpoint src_reads (l y : text) : bool :=
  match l, y with
  | [], [] => true
  | c :: l', a :: y' =>
      (if Ascii.eqb c "."%char then negb (Ascii.eqb a newline) else Ascii.eqb a c)
      && src_reads l' y'
  | _, _ => false
  end.

(** The items that every text read by [\s*flag\s\d+] contains. *)
Definition flag_items (flag : text) : list cls :=
  map Chr flag ++ [Space; Digit].

(** The head of a text is not accepted by a class. *)
Definition stops (c : cls) (w : text) : Prop :=
  match w with
  | [] => True
  | x :: _ => accepts c x = false
  end.

End re_spec.

Import re_spec.

(* ================================================================= *)
(** ** The specification's reading of the address extraction, and sample data *)

Module scenario.

Import instance.

(** The address extraction in the words of the specification: iterate all
    interfaces and their access configs and overwrite the address with each
    non-null [natIP] seen, so that the last non-null one wins. *)
Definition last_non_null_natIP (cfgss : list (list access_config)) : option text :=
  fold_left
    (fun ip cfg => match natIP cfg with Some a => Some a | None => ip end)
    (List.concat cfgss) None.

(** Interfaces that all carry a list of access configs. *)
Definition interfaces_of (cfgss : list (list access_config))
  : list network_interface :=
  map (fun cfgs => mkNetworkInterface (Some cfgs)) cfgss.

(** An instance description with the given access configs. *)
Definition gce_example (cfgss : list (list access_config)) : gce_instance :=
  {| gce_name := Some (t "ins-1234-cf");
     gce_creationTimestamp := Some (t "2018-12-01T10:00:00.000-07:00");
     gce_status := Some (t "RUNNING");
     networkInterfaces := Some (interfaces_of cfgss);
     metadata_items := [] |}.

Definition gce_with_ip (ip : string) : gce_instance :=
  gce_example [[mkAccessConfig (Some (t ip))]].

(** Remote-instance construction with sample metadata keys. *)
Definition RemoteInstance_example (out : text) (gce : gce_instance) :=
  RemoteInstance (t "display") (t "avd_type") (t "flavor") out gce.

(** The output of [ps]: a header, then one process per line. *)
Definition ps_header : text := t "                 STARTED CMD".

Definition ps_output (lines : list text) : text :=
  List.concat (map (fun l => l ++ [newline]) lines).

(** The line of an SSH tunnel forwarding local ports [vnc] and [adb] to the
    default remote ports of the host [ip]. *)
Definition ps_line_tunnel (vnc adb ip : string) : text :=
  t "Mon Jan  1 00:00:00 2024 ssh -i /home/u/.ssh/acloud_rsa -q -o UserKnownHostsFile=/dev/null -o StrictHostKeyChecking=no -L " ++
  t vnc ++ t ":127.0.0.1:6444 -L " ++ t adb ++
  t ":127.0.0.1:6520 -N -f -l vsoc-01 " ++ t ip.

(** The two characters of the forwarding option. *)
Definition dashL : list cls := [Chr "-"; Chr "L"].

(** The forwarding clauses as [ssh] shows them: local port, loopback
    address, default remote port. *)
Definition adb_clause (local_port : text) : text :=
  t "-L" ++ " "%char :: local_port ++ t ":127.0.0.1:6520".

Definition vnc_clause (local_port : text) : text :=
  t "-L" ++ " "%char :: local_port ++ t ":127.0.0.1:6444".

(** The part of a flag clause inside the question mark. *)
Definition flag_body (flag : text) (grp : string) : regex :=
  (Star (One Dot) >> Star (One Space) >> Lit flag >> One Space) >>
  Grp grp (Plus (One Digit)).

(** The mandatory token of the launch pattern. *)
Definition launch_token : text := t "launch_cvd --daemon ".

(** A flag with its value on a command line, as
    [_CMD_LAUNCH_CVD_ARGS] writes it; nothing when the flag is omitted. *)
Definition flag_arg (name : text) (v : option text) : text :=
  match v with
  | Some d => "-"%char :: "-"%char :: name ++ " "%char :: d ++ [" "%char]
  | None => []
  end.

(** A value, when given, is a non-empty run of digits. *)
Definition value_ok (v : option text) : bool :=
  match v with
  | Some [] => false
  | Some d => forallb is_digit d
  | None => true
  end.

(** The names of the six optional flags, in the order of the pattern. *)
Definition launch_flags : list text :=
  [t "cpus"; t "x_res"; t "y_res"; t "dpi"; t "memory_mb";
   t "blank_data_image_mb"].

(** The rest of a command line repeats neither the launch token nor any of
    the six flags. *)
Definition tail_ok (tail : text) : bool :=
  negb (occurs (map Chr launch_token) tail) &&
  forallb (fun name => negb (occurs (flag_items ("-"%char :: name)) tail))
    launch_flags.

(** A command line of the launch command: start time, path of the host
    package, launch token, the flags that are given, and the rest. *)
Definition launch_line (date path : text)
    (cpu x_res y_res dpi memory disk : option text) (tail : text) : text :=
  date ++ path ++ launch_token ++
  flag_arg (t "cpus") cpu ++ flag_arg (t "x_res") x_res ++
  flag_arg (t "y_res") y_res ++ flag_arg (t "dpi") dpi ++
  flag_arg (t "memory_mb") memory ++
  flag_arg (t "blank_data_image_mb") disk ++ tail.

(** The blank that a flag leaves behind, and the binding it makes. *)
Definition blank_if (b : bool) : text := if b then [" "%char] else [].

Definition given (v : option text) : bool :=
  match v with
  | Some _ => true
  | None => false
  end.

Definition bound (grp : string) (v : option text) (g : groups) : groups :=
  match v with
  | Some d => (grp, d) :: g
  | None => g
  end.

Definition no_dash (s : text) : bool :=
  forallb (fun x => negb (Ascii.eqb x "-"%char)) s.

End scenario.

Import scenario.

Module create_scenario.

Import constants proc local_image_local_instance.

(** The event of [PrintDisclaimer]. *)
Definition disclaimer : event :=
  Printed
    (t "(Disclaimer: Local cuttlefish instance is not a fully supported" ++
     newline ::
     t "runtime configuration, fixing breakages is on a best effort SLO.)" ++
     [newline]).

(** The path at which [GetImageArtifactsPath] expects the launch command. *)
Definition launch_cvd_path_in (host_out : text) : text :=
  path_join (path_join host_out (t "bin")) CMD_LAUNCH_CVD.

(** The stop and launch commands that creation runs for a host package
    directory. *)
Definition stop_cmd_for (AddUserGroupsToCmd : text -> text) (host_out : text)
  : text :=
  AddUserGroupsToCmd
    (path_join (dirname (launch_cvd_path_in host_out)) CMD_STOP_CVD).

Definition launch_cmd_for (AddUserGroupsToCmd : text -> text) (host_out : text)
    (avd_spec : AVDSpec) : text :=
  PrepareLaunchCVDCmd AddUserGroupsToCmd (launch_cvd_path_in host_out)
    (avd_hw_property avd_spec) (local_image_dir avd_spec).

(** The message of the error raised when the launch command is missing. *)
Definition no_launch_cvd_message : text :=
  t "No launch_cvd found. Please run " ++ dquote ++ t "m launch_cvd" ++
  dquote ++ t " first".

(** Modelled from the spec: [MissingArtifactsError], the specification's
    name for the errors of [acloud.errors] raised when the local image or
    the host package is absent. *)
Definition is_MissingArtifactsError (e : exn) : bool :=
  match e with
  | GetLocalImageError _ | GetCvdLocalHostPackageError _ => true
  | _ => false
  end.

Definition no_subprocess (tr : list event) : bool :=
  forallb (fun e => negb (is_subprocess e)) tr.

(** The report expected by [DeleteTest.testDeleteLocalInstance]. *)
Definition deleted_report : Report :=
  {| command := t "delete";
     status := t "SUCCESS";
     data := [(t "deleted",
               VList [VDict [(t "type", VStr (t "instance"));
                             (t "name", VStr (t "local-instance"))]])] |}.

(** A host on which commands need no group wrapper. *)
Definition no_groups (cmd : text) : text := cmd.

(** A sample world: the host package lives in [/out/host], every command
    exits with [rc]. *)
Definition sample_world (image_error : option text)
    (launch_present running yes : bool) (rc : Z) : world :=
  {| verify_local_image := fun _ => image_error;
     environ_get := fun _ => Some (t "/out/host");
     path_exists := fun _ => launch_present;
     command_running := fun _ => running;
     answer_yes := fun _ => yes;
     returncode := fun _ => rc;
     error_message := fun _ => [];
     stop_cvd_path := [] |}.

Definition sample_spec : AVDSpec :=
  {| local_image_dir := t "/out/target/product/vsoc_x86";
     avd_hw_property :=
       mkHw (t "2") (t "720") (t "1280") (t "320") (t "2048") (t "4096");
     autoconnect := false |}.

(** The line that [ps -eo lstart,cmd] shows for the launch command of
    creation, started at the given time. *)
Definition ps_line_launch (lstart : string) : text :=
  t lstart ++ " "%char ::
  launch_cmd_for no_groups (t "/out/host")
    sample_spec.

End create_scenario.

Import create_scenario.

(* ================================================================= *)
(** ** Texts: the lines of a listing, and decimal digits *)

Module listing.

(** A character that ends no line. *)
Definition in_line (c : ascii) : bool :=
  negb (Ascii.eqb c newline) && negb (Ascii.eqb c cr).

(** One step of [int_of_digits]. *)
Definition step (acc : Z) (c : ascii) : Z :=
  (10 * acc + (Z.of_nat (nat_of_ascii c) - 48))%Z.

End listing.

Import listing.

(* ================================================================= *)
(** ** [list/instance.py]: how an instance is printed *)

Module instance_print.

Import instance.

(** ["%s" % v] where [v] is an [int] or [None]. *)
Definition fmt_s_int (v : option Z) : text :=
  match v with
  | Some n => fmt_d n
  | None => t "None"
  end.

(** [sep.join(parts)]. *)
Fixpoint join (sep : text) (parts : list text) : text :=
  match parts with
  | [] => []
  | [p] => p
  | p :: rest => p ++ sep ++ join sep rest
  end.

(** [Instance.__repr__]. *)
Definition __repr__ (self : Instance) : option text := _fullname self.

(** [repr(instance)]: the interpreter raises [TypeError] when [__repr__]
    returns something that is not a string. *)
Definition repr (self : Instance) : raised text :=
  match __repr__ self with
  | Some s => Ok s
  | None => TypeError _
  end.

(** [Instance.Summary]. *)
Definition Summary (self : Instance) : text :=
  let indent := repeat " "%char 3 in
  let representation := [] in
  let representation :=
    representation ++ [t " name: " ++ fmt_s (_name self)] in
  let representation :=
    representation ++ [indent ++ t " IP: " ++ fmt_s (_ip self)] in
  let representation :=
    representation ++ [indent ++ t " create time: " ++ fmt_s (_createtime self)] in
  let representation :=
    representation ++ [indent ++ t " status: " ++ fmt_s (_status self)] in
  let representation :=
    representation ++ [indent ++ t " avd type: " ++ fmt_s (_avd_type self)] in
  let representation :=
    representation ++ [indent ++ t " display: " ++ fmt_s (_display self)] in
  let representation :=
    representation ++
    [indent ++ t " vnc: 127.0.0.1:" ++ fmt_s_int (_vnc_port self)] in
  let representation :=
    if truthy_int (_adb_port self) then
      representation ++
      [indent ++ t " adb serial: 127.0.0.1:" ++ fmt_s_int (_adb_port self)]
    else
      representation ++ [indent ++ t " adb serial: disconnected"] in
  join [newline] representation.

End instance_print.

(* ================================================================= *)
(** ** Views of a run of creation *)

Module create_views.

Import constants proc local_image_local_instance create_scenario.

(** The report of a successful creation. *)
Definition created_report : Report :=
  {| command := LOCAL_INS_NAME;
     status := t "SUCCESS";
     data := [(t "devices",
               VDict [(t "adb_port", VInt DEFAULT_ADB_PORT);
                      (t "vnc_port", VInt DEFAULT_VNC_PORT)])] |}.

(** The message of [LaunchCVDFail] for the text of the process error. *)
Definition launch_fail_message (error : text) : text :=
  t "Can't launch cuttlefish AVD." ++ error ++ t ". " ++
  newline :: t "For more detail: ~/cuttlefish_runtime/launcher.log".

(** Kinds of events.  Creation runs the launch command, and nothing else,
    through [check_output]; it runs the stop command, and nothing else,
    through [check_call]. *)
Definition is_launch (e : event) : bool :=
  match e with
  | CheckOutput _ => true
  | _ => false
  end.

Definition is_stop (e : event) : bool :=
  match e with
  | CheckCall _ _ => true
  | _ => false
  end.

Definition is_vnc (e : event) : bool :=
  match e with
  | LaunchVNC => true
  | _ => false
  end.

Definition is_prompt (e : event) : bool :=
  match e with
  | Asked _ => true
  | _ => false
  end.

(** How many events of a kind a trace holds. *)
Definition count (f : event -> bool) (tr : list event) : nat :=
  List.length (filter f tr).

(** A host without a host package: [ANDROID_HOST_OUT] is not set and no
    path exists; the image verifies and nothing is running. *)
Definition host_without_package : world :=
  {| verify_local_image := fun _ => None;
     environ_get := fun _ => None;
     path_exists := fun _ => false;
     command_running := fun _ => false;
     answer_yes := fun _ => false;
     returncode := fun _ => 0%Z;
     error_message := fun _ => [];
     stop_cvd_path := [] |}.

(** A world in which [ANDROID_HOST_OUT] is not set. *)
Definition sample_world_no_env : world :=
  {| verify_local_image := fun _ => None;
     environ_get := fun _ => None;
     path_exists := fun _ => true;
     command_running := fun _ => true;
     answer_yes := fun _ => true;
     returncode := fun _ => 0%Z;
     error_message := fun _ => [];
     stop_cvd_path := [] |}.

End create_views.

(* ================================================================= *)
(** ** Further sample data *)

Module remote_scenario.

Import instance.

(** An instance description with two display entries in its metadata. *)
Definition gce_with_metadata : gce_instance :=
  {| gce_name := Some (t "ins-1234-cf");
     gce_creationTimestamp := Some (t "2018-12-01T10:00:00.000-07:00");
     gce_status := Some (t "RUNNING");
     networkInterfaces := Some (interfaces_of [[mkAccessConfig (Some (t "35.1.2.3"))]]);
     metadata_items :=
       [(t "display", t "1080x1920 (240)");
        (t "avd_type", t "cuttlefish");
        (t "cvd_01_launch", t "1");
        (t "display", t "720x1280 (320)")] |}.

End remote_scenario.

Import remote_scenario.

(* ================================================================= *)
(** ** Properties of the matcher *)

Create HintDb re.

Ltac inv H := inversion H; subst; clear H.

Section MatcherFacts.

Local Hint Constructors matches : re.

Local Ltac reached := do 3 eexists; split; [eauto with re|eauto].

Lemma star_loop_sound (body : nat -> text -> groups -> cont -> option groups)
    (r : regex) :
  (forall pos s g k a,
      body pos s g k = Some a ->
      exists p1 s1 g1, matches r pos s g p1 s1 g1 /\ k p1 s1 g1 = Some a) ->
  forall n pos s g k a,
    star_loop body n pos s g k = Some a ->
    exists p1 s1 g1, matches (Star r) pos s g p1 s1 g1 /\ k p1 s1 g1 = Some a.
Proof.
  intros Hbody n.
  induction n as [|n IH]; intros pos s g k a H; simpl in H.
  - reached.
  - destruct (body pos s g _) as [x|] eqn:E.
    + inversion H; subst x; clear H.
      apply Hbody in E.
      destruct E as (p1 & s1 & g1 & Hm & Hk).
      destruct (len s1 <? len s) eqn:Hlt; [|discriminate].
      apply Nat.ltb_lt in Hlt.
      apply IH in Hk.
      destruct Hk as (p2 & s2 & g2 & Hm2 & Hk2).
      exists p2, s2, g2; split; [eapply M_Star_step; eassumption|exact Hk2].
    + exists pos, s, g; split; [apply M_Star_stop|exact H].
Qed.

(** Soundness: whatever the search returns was reached through a match of
    the pattern followed by a success of the continuation. *)
Lemma rmatch_sound (r : regex) :
  forall pos s g k a,
    rmatch r pos s g k = Some a ->
    exists p1 s1 g1, matches r pos s g p1 s1 g1 /\ k p1 s1 g1 = Some a.
Proof.
  induction r as [|c| |r1 IH1 r2 IH2|r IH|r IH|r IH|name r IH];
    intros pos s g k a H; simpl in H.
  - reached.
  - destruct s as [|x s]; [discriminate|].
    destruct (accepts c x) eqn:E; [|discriminate].
    reached.
  - destruct (pos =? 0) eqn:E; [|discriminate].
    apply Nat.eqb_eq in E; subst pos.
    reached.
  - apply IH1 in H.
    destruct H as (p1 & s1 & g1 & Hm1 & H).
    apply IH2 in H.
    destruct H as (p2 & s2 & g2 & Hm2 & H).
    exists p2, s2, g2; split; [eapply M_Seq; eassumption|exact H].
  - eapply star_loop_sound in H; eauto.
  - apply IH in H.
    destruct H as (p1 & s1 & g1 & Hm1 & H).
    eapply star_loop_sound in H; eauto.
    destruct H as (p2 & s2 & g2 & Hm2 & H).
    exists p2, s2, g2; split; [eapply M_Plus; eassumption|exact H].
  - destruct (rmatch r pos s g k) as [x|] eqn:E.
    + inversion H; subst x.
      apply IH in E.
      destruct E as (p1 & s1 & g1 & Hm1 & E).
      exists p1, s1, g1; split; [apply M_Opt_take; assumption|exact E].
    + exists pos, s, g; split; [apply M_Opt_skip|exact H].
  - apply IH in H.
    destruct H as (p1 & s1 & g1 & Hm1 & H).
    do 3 eexists; split; [apply M_Grp; eassumption|exact H].
Qed.

(** A match reads a prefix of the text and advances the offset by its length. *)
Lemma matches_prefix r pos s g p1 s1 g1 :
  matches r pos s g p1 s1 g1 ->
  exists u, s = u ++ s1 /\ p1 = pos + len u.
Proof.
  induction 1.
  - exists []; auto.
  - exists [a]; split; simpl; auto; lia.
  - exists []; auto.
  - destruct IHmatches1 as (u1 & -> & ->), IHmatches2 as (u2 & -> & ->).
    exists (u1 ++ u2); rewrite <- app_assoc, length_app; split; auto; lia.
  - exists []; auto.
  - destruct IHmatches1 as (u1 & -> & ->), IHmatches2 as (u2 & -> & ->).
    exists (u1 ++ u2); rewrite <- app_assoc, length_app; split; auto; lia.
  - destruct IHmatches1 as (u1 & -> & ->), IHmatches2 as (u2 & -> & ->).
    exists (u1 ++ u2); rewrite <- app_assoc, length_app; split; auto; lia.
  - exists []; auto.
  - auto.
  - auto.
Qed.

(** Inversion of the derived forms. *)

Lemma matches_one c pos s g p1 s1 g1 :
  matches (One c) pos s g p1 s1 g1 ->
  exists a, s = a :: s1 /\ accepts c a = true /\ g1 = g.
Proof. intros H; inv H; eauto. Qed.

Lemma matches_star_one c pos s g p1 s1 g1 :
  matches (Star (One c)) pos s g p1 s1 g1 ->
  exists u, s = u ++ s1 /\ forallb (accepts c) u = true /\ g1 = g.
Proof.
  remember (Star (One c)) as r eqn:Er.
  induction 1; inversion Er; subst.
  - exists []; auto.
  - destruct (IHmatches2 eq_refl) as (u & -> & Hu & ->).
    match goal with
    | Hm : matches (One _) _ _ _ _ _ _ |- _ =>
        apply matches_one in Hm; destruct Hm as (a & -> & Ha & ->)
    end.
    exists (a :: u); simpl.
    rewrite Ha, Hu; auto.
Qed.

Lemma matches_plus_one c pos s g p1 s1 g1 :
  matches (Plus (One c)) pos s g p1 s1 g1 ->
  exists a u, s = a :: u ++ s1 /\ forallb (accepts c) (a :: u) = true /\ g1 = g.
Proof.
  intros H; inv H.
  repeat match goal with
  | Hm : matches (One _) _ _ _ _ _ _ |- _ =>
      apply matches_one in Hm; destruct Hm as (a & -> & Ha & ->)
  | Hm : matches (Star (One _)) _ _ _ _ _ _ |- _ =>
      apply matches_star_one in Hm; destruct Hm as (u & -> & Hu & ->)
  end.
  exists a, u; simpl.
  rewrite Ha, Hu; auto.
Qed.

Lemma matches_lit l pos s g p1 s1 g1 :
  matches (Lit l) pos s g p1 s1 g1 -> s = l ++ s1 /\ g1 = g.
Proof.
  revert pos s.
  induction l as [|c l IH]; simpl; intros pos s H.
  - inv H; auto.
  - inv H.
    match goal with
    | Hm : matches (One _) _ _ _ _ _ _ |- _ =>
        apply matches_one in Hm; destruct Hm as (a & -> & Ha & ->)
    end.
    match goal with
    | Hm : matches (Lit _) _ _ _ _ _ _ |- _ =>
        apply IH in Hm; destruct Hm as [-> ->]
    end.
    simpl in Ha.
    apply Ascii.eqb_eq in Ha; subst; auto.
Qed.

Lemma matches_src l pos s g p1 s1 g1 :
  matches (Src l) pos s g p1 s1 g1 ->
  exists y, s = y ++ s1 /\ src_reads l y = true /\ g1 = g.
Proof.
  revert pos s.
  induction l as [|c l IH]; simpl; intros pos s H.
  - inv H; exists []; auto.
  - inv H.
    match goal with
    | Hm : matches (One _) _ _ _ _ _ _ |- _ =>
        apply matches_one in Hm; destruct Hm as (a & -> & Ha & ->)
    end.
    match goal with
    | Hm : matches (Src _) _ _ _ _ _ _ |- _ =>
        apply IH in Hm; destruct Hm as (y & -> & Hy & ->)
    end.
    exists (a :: y); simpl.
    rewrite Hy.
    destruct (Ascii.eqb c "."); simpl in Ha; rewrite Ha; auto.
Qed.

End MatcherFacts.

(** The search depends on its continuation only through the answers the
    continuation gives. *)
Lemma star_loop_ext (body : nat -> text -> groups -> cont -> option groups) :
  (forall pos s g k1 k2,
      (forall p s' g', k1 p s' g' = k2 p s' g') ->
      body pos s g k1 = body pos s g k2) ->
  forall n pos s g k1 k2,
    (forall p s' g', k1 p s' g' = k2 p s' g') ->
    star_loop body n pos s g k1 = star_loop body n pos s g k2.
Proof.
  intros Hbody n.
  induction n as [|n IH]; intros pos s g k1 k2 Hk; simpl.
  - apply Hk.
  - rewrite (Hk pos s g).
    erewrite Hbody; [reflexivity|].
    intros p s' g'; cbv beta.
    destruct (len s' <? len s); auto.
Qed.

Lemma rmatch_ext r : forall pos s g k1 k2,
  (forall p s' g', k1 p s' g' = k2 p s' g') ->
  rmatch r pos s g k1 = rmatch r pos s g k2.
Proof.
  induction r as [|c| |r1 IH1 r2 IH2|r IH|r IH|r IH|name r IH];
    intros pos s g k1 k2 Hk; simpl.
  - apply Hk.
  - destruct s as [|x s]; auto.
    destruct (accepts c x); auto.
  - destruct (pos =? 0); auto.
  - apply IH1; intros p s' g'; apply IH2; exact Hk.
  - apply star_loop_ext; auto.
  - apply IH; intros p s' g'; apply star_loop_ext; auto.
  - rewrite (IH pos s g k1 k2 Hk), (Hk pos s g); reflexivity.
  - apply IH; intros p s' g'; apply Hk.
Qed.

(** The bound on the rounds of an iteration never cuts the search short:
    any bound of at least the length of the text gives the same result. *)
Lemma star_loop_bound r n : forall m pos s g k,
  len s <= n -> len s <= m ->
  star_loop (rmatch r) n pos s g k = star_loop (rmatch r) m pos s g k.
Proof.
  assert (Hstuck : forall pos s g,
             rmatch r pos s g (fun _ _ _ => None) = None).
  { intros pos s g.
    destruct (rmatch r pos s g (fun _ _ _ => None)) as [a|] eqn:E; auto.
    apply rmatch_sound in E.
    destruct E as (p1 & s1 & g1 & _ & E); discriminate. }
  induction n as [|n IH]; intros m pos s g k Hn Hm.
  - destruct m as [|m]; simpl; auto.
    erewrite rmatch_ext; [rewrite Hstuck; reflexivity|].
    intros p s' g'; cbv beta.
    replace (len s' <? len s) with false; auto.
    symmetry; apply Nat.ltb_ge; lia.
  - destruct m as [|m]; simpl.
    + erewrite rmatch_ext; [rewrite Hstuck; reflexivity|].
      intros p s' g'; cbv beta.
      replace (len s' <? len s) with false; auto.
      symmetry; apply Nat.ltb_ge; lia.
    + erewrite rmatch_ext; [reflexivity|].
      intros p s' g'; cbv beta.
      destruct (len s' <? len s) eqn:E; auto.
      apply Nat.ltb_lt in E.
      apply IH; lia.
Qed.

(** Completeness: when the pattern can read a prefix after which the
    continuation succeeds, the search succeeds (possibly elsewhere: it
    returns the first success in its order of preference). *)
Lemma rmatch_complete r pos s g p1 s1 g1 :
  matches r pos s g p1 s1 g1 ->
  forall (k : cont) a,
    k p1 s1 g1 = Some a ->
    exists b, rmatch r pos s g k = Some b.
Proof.
  induction 1 as
    [pos s g
    |c x pos s g Hx
    |s g
    |r1 r2 pos s g p1 s1 g1 p2 s2 g2 _ IH1 _ IH2
    |r pos s g
    |r pos s g p1 s1 g1 p2 s2 g2 _ IH1 Hlt _ IH2
    |r pos s g p1 s1 g1 p2 s2 g2 _ IH1 _ IH2
    |r pos s g
    |r pos s g p1 s1 g1 _ IH
    |name r pos s g p1 s1 g1 _ IH];
    intros k a Hk.
  - exists a; exact Hk.
  - exists a; simpl; rewrite Hx; exact Hk.
  - exists a; exact Hk.
  - destruct (IH2 k a Hk) as (b & Hb).
    apply (IH1 (fun p' s' g' => rmatch r2 p' s' g' k) b Hb).
  - simpl.
    destruct (len s) as [|n]; simpl; [eauto|].
    destruct (rmatch r pos s g _); eauto.
  - destruct (IH2 k a Hk) as (b & Hb).
    change (rmatch (Star r) p1 s1 g1 k)
      with (star_loop (rmatch r) (len s1) p1 s1 g1 k) in Hb.
    change (rmatch (Star r) pos s g k)
      with (star_loop (rmatch r) (len s) pos s g k).
    assert (En : exists n, len s = S n)
      by (exists (pred (len s)); lia).
    destruct En as (n & En).
    replace (star_loop (rmatch r) (len s) pos s g k)
      with (star_loop (rmatch r) (S n) pos s g k)
      by (rewrite En; reflexivity).
    cbn [star_loop].
    match goal with
    | |- exists _, match rmatch r pos s g ?K with _ => _ end = Some _ =>
        destruct (IH1 K b) as (b' & Hb')
    end.
    + replace (len s1 <? len s) with true
        by (symmetry; apply Nat.ltb_lt; exact Hlt).
      rewrite <- Hb; apply star_loop_bound; lia.
    + rewrite Hb'; eauto.
  - destruct (IH2 k a Hk) as (b & Hb).
    apply (IH1 (fun p' s' g' => star_loop (rmatch r) (len s') p' s' g' k) b Hb).
  - simpl; destruct (rmatch r pos s g k); eauto.
  - destruct (IH k a Hk) as (b & Hb).
    exists b; simpl; rewrite Hb; reflexivity.
  - apply (IH (fun p' s' g' => k p' s' ((name, firstn (p' - pos) s) :: g')) a Hk).
Qed.

Lemma matches_grp name r pos s g p1 s1 g1 :
  matches (Grp name r) pos s g p1 s1 g1 ->
  exists u g0, s = u ++ s1 /\ matches r pos s g p1 s1 g0 /\ g1 = (name, u) :: g0.
Proof.
  intros H; inv H.
  match goal with
  | Hm : matches r _ _ _ _ _ _ |- _ =>
      destruct (matches_prefix Hm) as (u & -> & ->)
  end.
  exists u, g2.
  replace (pos + len u - pos) with (len u + 0) by lia.
  rewrite firstn_app_2, app_nil_r; auto.
Qed.

Lemma matches_eps pos s g p1 s1 g1 :
  matches Eps pos s g p1 s1 g1 -> s1 = s /\ g1 = g.
Proof. intros H; inv H; auto. Qed.

Lemma matches_seq r1 r2 pos s g p2 s2 g2 :
  matches (Seq r1 r2) pos s g p2 s2 g2 ->
  exists p1 s1 g1, matches r1 pos s g p1 s1 g1 /\ matches r2 p1 s1 g1 p2 s2 g2.
Proof. intros H; inv H; eauto. Qed.

Lemma matches_opt r pos s g p1 s1 g1 :
  matches (Opt r) pos s g p1 s1 g1 ->
  (s1 = s /\ g1 = g) \/ matches r pos s g p1 s1 g1.
Proof. intros H; inv H; auto. Qed.

(** Step-by-step reading of what a match of a composed pattern consists of. *)
Ltac unmatch :=
  repeat match goal with
  | H : matches Eps _ _ _ _ _ _ |- _ =>
      apply matches_eps in H; destruct H as (? & ?); subst
  | H : matches (Lit _) _ _ _ _ _ _ |- _ =>
      apply matches_lit in H; destruct H as (? & ?); subst
  | H : matches (Src _) _ _ _ _ _ _ |- _ =>
      apply matches_src in H; destruct H as (? & ? & ? & ?); subst
  | H : matches (One _) _ _ _ _ _ _ |- _ =>
      apply matches_one in H; destruct H as (? & ? & ? & ?); subst
  | H : matches (Star (One _)) _ _ _ _ _ _ |- _ =>
      apply matches_star_one in H; destruct H as (? & ? & ? & ?); subst
  | H : matches (Plus (One _)) _ _ _ _ _ _ |- _ =>
      apply matches_plus_one in H; destruct H as (? & ? & ? & ? & ?); subst
  | H : matches (Grp _ _) _ _ _ _ _ _ |- _ =>
      apply matches_grp in H; destruct H as (? & ? & ? & ? & ?); subst
  | H : matches (Seq _ _) _ _ _ _ _ _ |- _ =>
      apply matches_seq in H; destruct H as (? & ? & ? & ? & ?)
  | H : ?u ++ ?s = _ :: _ ++ ?s |- _ =>
      rewrite app_comm_cons in H; apply app_inv_tail in H; subst
  end.

(* ================================================================= *)
(** ** The tunnel pattern *)

Import instance constants.

Lemma matches_forward_clause grp port pos s g p1 s1 g1 :
  matches (forward_clause grp port) pos s g p1 s1 g1 ->
  exists x sp d y1 y2,
    s = x ++ t "-L" ++ sp :: d ++ y1 ++ y2 ++ s1 /\
    d <> [] /\ forallb is_digit d = true /\
    src_reads (t ":127.0.0.1:") y1 = true /\
    src_reads port y2 = true /\
    g1 = (grp, d) :: g.
Proof.
  unfold forward_clause; intros H.
  unmatch.
  exists (x11 ++ x14), x12, (x0 :: x4), x7, x9.
  rewrite <- app_assoc.
  repeat split; auto; discriminate.
Qed.

Lemma tunnel_match_binds_ports ip line m :
  re_match (tunnel_pattern ip) line = Some m ->
  exists vnc adb,
    vnc <> [] /\ adb <> [] /\
    m = [(_RE_GROUP_ADB, adb); (_RE_GROUP_VNC, vnc)].
Proof.
  unfold re_match; intros H.
  apply rmatch_sound in H.
  destruct H as (p1 & s1 & g1 & Hm & H).
  inv H.
  unfold tunnel_pattern, _RE_SSH_TUNNEL_PATTERN in Hm.
  apply matches_seq in Hm; destruct Hm as (pa & sa & ga & Ha & Hm).
  apply matches_seq in Hm; destruct Hm as (pb & sb & gb & Hb & Hm).
  apply matches_forward_clause in Ha, Hb.
  destruct Ha as (x1 & sp1 & d1 & y1 & z1 & _ & Hd1 & _ & _ & _ & ->).
  destruct Hb as (x2 & sp2 & d2 & y2 & z2 & _ & Hd2 & _ & _ & _ & ->).
  unmatch.
  exists d1, d2; auto.
Qed.

(* ================================================================= *)
(** ** Occurrences of items in a text *)

Lemma occurs_cons_false p c s :
  occurs p (c :: s) = false -> starts p (c :: s) = false /\ occurs p s = false.
Proof. simpl; intros H; apply orb_false_elim in H; exact H. Qed.

Lemma occurs_here p s : starts p s = true -> occurs p s = true.
Proof.
  destruct s as [|c s]; simpl; auto.
  intros ->; reflexivity.
Qed.

Lemma occurs_later p u w : occurs p w = true -> occurs p (u ++ w) = true.
Proof.
  induction u as [|c u IH]; simpl; auto.
  intros H; rewrite (IH H); apply orb_true_r.
Qed.

Lemma starts_lit l q s : starts (map Chr l ++ q) (l ++ s) = starts q s.
Proof.
  induction l as [|c l IH]; simpl; auto.
  rewrite Ascii.eqb_refl; auto.
Qed.

(** A run of digits hides no item sequence that starts with a character
    other than a digit. *)
Lemma occurs_skip_digits c p d s :
  is_digit c = false ->
  forallb is_digit d = true ->
  occurs (Chr c :: p) (d ++ s) = occurs (Chr c :: p) s.
Proof.
  intros Hc.
  induction d as [|a d IH]; simpl; auto.
  intros H; apply andb_prop in H; destruct H as [Ha Hd].
  rewrite (IH Hd).
  destruct (Ascii.eqb_spec a c) as [->|_]; [congruence|reflexivity].
Qed.

(** Where the first [-L] of a text is. *)
Lemma dashL_unique pre : forall x r R,
  occurs dashL pre = false ->
  x ++ t "-L" ++ r = pre ++ t "-L" ++ R ->
  (x = pre /\ r = R) \/ (exists z, x = pre ++ t "-L" ++ z /\ R = z ++ t "-L" ++ r).
Proof.
  induction pre as [|c pre IH]; intros x r R Hno E.
  - destruct x as [|a x]; simpl in E.
    + inv E; auto.
    + inv E.
      destruct x as [|b x]; simpl in H1; inv H1.
      right; exists x; auto.
  - destruct x as [|a x]; simpl in E.
    + inv E.
      destruct pre as [|b pre]; simpl in H1; inv H1.
      simpl in Hno; discriminate.
    + inv E.
      apply occurs_cons_false in Hno; destruct Hno as [_ Hno].
      destruct (IH _ _ _ Hno H1) as [[-> ->]|(z & -> & ->)]; auto.
      right; exists z; auto.
Qed.

(** A run of digits ends where the first other character stands. *)
Lemma digits_end_unique d1 : forall d2 c1 c2 r1 r2,
  forallb is_digit d1 = true -> forallb is_digit d2 = true ->
  is_digit c1 = false -> is_digit c2 = false ->
  d1 ++ c1 :: r1 = d2 ++ c2 :: r2 ->
  d1 = d2 /\ c1 = c2 /\ r1 = r2.
Proof.
  induction d1 as [|a d1 IH]; intros [|b d2] c1 c2 r1 r2 H1 H2 Hc1 Hc2 E;
    simpl in *.
  - inv E; auto.
  - inv E. apply andb_prop in H2; destruct H2; congruence.
  - inv E. apply andb_prop in H1; destruct H1; congruence.
  - inv E.
    apply andb_prop in H1, H2; destruct H1, H2.
    destruct (IH d2 c1 c2 r1 r2) as (-> & -> & ->); auto.
Qed.

Lemma fmt_d_vnc : fmt_d DEFAULT_VNC_PORT = t "6444".
Proof. reflexivity. Qed.

Lemma fmt_d_adb : fmt_d DEFAULT_ADB_PORT = t "6520".
Proof. reflexivity. Qed.

Lemma src_reads_length l : forall y, src_reads l y = true -> len y = len l.
Proof.
  induction l as [|c l IH]; intros [|a y] H; simpl in H; try discriminate; auto.
  apply andb_prop in H; destruct H as [_ H].
  simpl; f_equal; auto.
Qed.

(** What [:127.0.0.1:] followed by a port reads. *)
Lemma src_reads_loopback y z port rest :
  src_reads (t ":127.0.0.1:") y = true ->
  src_reads port z = true ->
  (forall c, In c port -> c <> "."%char) ->
  exists c1 c2 c3,
    y ++ z ++ rest =
    t ":127" ++ c1 :: "0"%char :: c2 :: "0"%char :: c3 :: t "1:" ++ port ++ rest.
Proof.
  intros Hy Hz Hp.
  assert (z = port) as ->.
  { revert z Hz; induction port as [|c port IH]; intros [|a z] Hz;
      simpl in Hz; try discriminate; auto.
    destruct (Ascii.eqb_spec c ".") as [->|_].
    - exfalso; apply (Hp "."%char); simpl; auto.
    - apply andb_prop in Hz; destruct Hz as [Ha Hz].
      apply Ascii.eqb_eq in Ha; subst a.
      f_equal; apply IH; auto.
      intros c' Hc'; apply Hp; simpl; auto. }
  pose proof (src_reads_length _ _ Hy) as Hlen.
  do 11 (destruct y as [|? y]; [discriminate|]).
  destruct y; [|discriminate].
  simpl in Hy.
  repeat match goal with
  | H : _ && _ = true |- _ => apply andb_prop in H; destruct H
  | H : Ascii.eqb _ _ = true |- _ => apply Ascii.eqb_eq in H; subst
  end.
  eexists _, _, _; reflexivity.
Qed.

Lemma no_dot_in_port port :
  forallb is_digit port = true -> forall c, In c port -> c <> "."%char.
Proof.
  intros H c Hc ->.
  rewrite forallb_forall in H; specialize (H _ Hc); discriminate.
Qed.

(** C10: the tunnel pattern wants the clause of the default VNC port before
    the clause of the default ADB port.  A line whose two forwarding
    options are the ADB clause followed by the VNC clause ([-L] occurring
    nowhere else) is not matched, whatever the address (a text of letters,
    digits, [:], [-], [_] and [.], which the pattern reads as [Src] does),
    so the lookup on it yields no ports. *)
Theorem tunnel_needs_vnc_clause_first ip pre a mid v post :
  src_plain ip = true ->
  forallb is_digit a = true ->
  forallb is_digit v = true ->
  occurs dashL pre = false ->
  occurs dashL mid = false ->
  occurs dashL post = false ->
  let line := pre ++ adb_clause a ++ mid ++ vnc_clause v ++ post in
  re_match (tunnel_pattern ip) line = None /\
  first_tunnel (tunnel_pattern ip) [line] = mkForwardedPorts None None.
Proof.
  intros _ Ha Hv Hpre Hmid Hpost line.
  assert (Hnone : re_match (tunnel_pattern ip) line = None).
  { destruct (re_match (tunnel_pattern ip) line) as [m|] eqn:E; auto.
    exfalso.
    unfold re_match in E.
    apply rmatch_sound in E.
    destruct E as (p & s & g & Hm & _).
    unfold tunnel_pattern, _RE_SSH_TUNNEL_PATTERN in Hm.
    apply matches_seq in Hm; destruct Hm as (pa & sa & ga & HA & Hm).
    apply matches_seq in Hm; destruct Hm as (pb & sb & gb & HB & _).
    apply matches_forward_clause in HA, HB.
    destruct HA as (x1 & sp1 & d1 & y1 & z1 & E1 & _ & Hd1 & Hy1 & Hz1 & _).
    destruct HB as (x2 & sp2 & d2 & y2 & z2 & E2 & _).
    rewrite fmt_d_vnc in Hz1.
    destruct (@src_reads_loopback y1 z1 (t "6444") sa Hy1 Hz1
                (@no_dot_in_port (t "6444") eq_refl))
      as (c1 & c2 & c3 & Ey).
    rewrite Ey in E1; clear Ey Hy1 Hz1 y1 z1.
    (* the subject, read from its first forwarding option on *)
    set (R2 := " "%char :: v ++ t ":127.0.0.1:6444" ++ post).
    set (A1 := " "%char :: a ++ t ":127.0.0.1:6520" ++ mid).
    assert (Eline : line = pre ++ t "-L" ++ A1 ++ t "-L" ++ R2).
    { unfold line, adb_clause, vnc_clause, A1, R2.
      repeat (rewrite <- app_assoc || rewrite <- app_comm_cons).
      reflexivity. }
    assert (HA1 : occurs dashL A1 = false).
    { unfold A1. change (" "%char :: a ++ ?r) with ([" "%char] ++ a ++ r).
      simpl. unfold dashL. rewrite occurs_skip_digits by auto. exact Hmid. }
    assert (HR2 : occurs dashL R2 = false).
    { unfold R2; simpl. unfold dashL. rewrite occurs_skip_digits by auto.
      exact Hpost. }
    assert (Hocc : forall x r,
               occurs dashL (x ++ "-"%char :: "L"%char :: r) = true).
    { intros x r; apply occurs_later, occurs_here; reflexivity. }
    rewrite Eline in E1; symmetry in E1.
    apply dashL_unique in E1; [|exact Hpre].
    destruct E1 as [[_ E1]|(z & _ & E1)].
    - (* the VNC clause of the pattern read at the ADB clause of the line *)
      unfold A1 in E1.
      repeat (rewrite <- app_assoc in E1 || rewrite <- app_comm_cons in E1).
      simpl in E1.
      inv E1.
      apply (@digits_end_unique d1 a ":"%char ":"%char) in H1; auto.
      destruct H1 as (_ & _ & E1).
      inv E1.
    - symmetry in E1.
      apply dashL_unique in E1; [|exact HA1].
      destruct E1 as [[_ E1]|(z' & _ & E1)].
      + (* read at the VNC clause of the line: no option is left for ADB *)
        unfold R2 in E1; simpl in E1.
        inv E1.
        apply (@digits_end_unique d1 v ":"%char ":"%char) in H1; auto.
        destruct H1 as (_ & _ & E1).
        inv E1.
        rewrite Hocc in Hpost; discriminate.
      + simpl in E1; rewrite E1, Hocc in HR2; discriminate. }
  split; [exact Hnone|].
  simpl; rewrite Hnone; reflexivity.
Qed.

(** The tunnel line of 35.1.2.3 with its two clauses exchanged. *)
Lemma tunnel_needs_vnc_clause_first_witness :
  let line :=
    t "Mon Jan  1 00:00:00 2024 ssh -i /home/u/.ssh/acloud_rsa -q " ++
    adb_clause (t "6520") ++ t " " ++ vnc_clause (t "6444") ++
    t " -N -f -l vsoc-01 35.1.2.3" in
  re_match (tunnel_pattern (t "35.1.2.3")) line = None /\
  first_tunnel (tunnel_pattern (t "35.1.2.3")) [line] = mkForwardedPorts None None.
Proof.
  exact (@tunnel_needs_vnc_clause_first (t "35.1.2.3")
           (t "Mon Jan  1 00:00:00 2024 ssh -i /home/u/.ssh/acloud_rsa -q ")
           (t "6520") (t " ") (t "6444") (t " -N -f -l vsoc-01 35.1.2.3")
           eq_refl eq_refl eq_refl eq_refl eq_refl eq_refl).
Defined.

(* ================================================================= *)
(** ** Where the greedy search succeeds first *)

(** One round of a loop over a single class. *)
Lemma star_loop_one_cons c n pos x s g (k : cont) :
  star_loop (rmatch (One c)) (S n) pos (x :: s) g k =
  match (if accepts c x then star_loop (rmatch (One c)) n (S pos) s g k
         else None) with
  | Some a => Some a
  | None => k pos (x :: s) g
  end.
Proof.
  simpl.
  replace (len s <? S (len s)) with true
    by (symmetry; apply Nat.ltb_lt; lia).
  reflexivity.
Qed.

Lemma star_loop_one_nil c n pos g (k : cont) :
  star_loop (rmatch (One c)) n pos [] g k = k pos [] g.
Proof. destruct n; reflexivity. Qed.

(** A greedy run over one class reads as far as the class holds, when the
    continuation succeeds there. *)
Lemma star_one_greedy c u : forall n pos w g (k : cont) a,
  forallb (accepts c) u = true ->
  stops c w ->
  len (u ++ w) <= n ->
  k (pos + len u) w g = Some a ->
  star_loop (rmatch (One c)) n pos (u ++ w) g k = Some a.
Proof.
  induction u as [|x u IH]; intros n pos w g k a Hu Hw Hn Hk.
  - rewrite Nat.add_0_r in Hk; rewrite app_nil_l.
    destruct n as [|n]; [exact Hk|].
    destruct w as [|y w]; [rewrite star_loop_one_nil; exact Hk|].
    rewrite star_loop_one_cons.
    unfold stops in Hw; rewrite Hw; exact Hk.
  - cbn [forallb] in Hu.
    apply andb_prop in Hu; destruct Hu as [Hx Hu].
    destruct n as [|n]; [simpl in Hn; lia|].
    rewrite <- app_comm_cons, star_loop_one_cons, Hx.
    rewrite (IH n (S pos) w g k a); auto.
    + simpl in Hn; lia.
    + rewrite <- Hk; f_equal; simpl; lia.
Qed.

Lemma plus_one_greedy c x u pos w g (k : cont) a :
  forallb (accepts c) (x :: u) = true ->
  stops c w ->
  k (pos + len (x :: u)) w g = Some a ->
  rmatch (Plus (One c)) pos ((x :: u) ++ w) g k = Some a.
Proof.
  intros Hu Hw Hk.
  cbn [forallb] in Hu.
  apply andb_prop in Hu; destruct Hu as [Hx Hu].
  cbn [rmatch app]; rewrite Hx.
  apply star_one_greedy; auto.
  rewrite <- Hk; f_equal; simpl; lia.
Qed.

(** A literal reads itself. *)
Lemma rmatch_lit l : forall pos s g (k : cont),
  rmatch (Lit l) pos (l ++ s) g k = k (pos + len l) s g.
Proof.
  induction l as [|c l IH]; intros pos s g k; simpl.
  - f_equal; lia.
  - rewrite Ascii.eqb_refl, IH; f_equal; lia.
Qed.

(** [.*] followed by something that fails everywhere fails. *)
Lemma star_dot_none n : forall pos w g (k : cont),
  (forall x w' p, w = x ++ w' -> k p w' g = None) ->
  star_loop (rmatch (One Dot)) n pos w g k = None.
Proof.
  induction n as [|n IH]; intros pos w g k H.
  - apply (H [] w pos eq_refl).
  - destruct w as [|c w]; [rewrite star_loop_one_nil; apply (H [] []); auto|].
    rewrite star_loop_one_cons, (H [] (c :: w) pos eq_refl).
    rewrite IH; [destruct (accepts Dot c); reflexivity|].
    intros x w' p ->; apply (H (c :: x)); reflexivity.
Qed.

(** [.*] gives the continuation the last place at which it succeeds. *)
Lemma star_dot_last u : forall n pos w g (k : cont) a,
  forallb (accepts Dot) u = true ->
  len (u ++ w) <= n ->
  k (pos + len u) w g = Some a ->
  (forall x w' p, x <> [] -> w = x ++ w' -> k p w' g = None) ->
  star_loop (rmatch (One Dot)) n pos (u ++ w) g k = Some a.
Proof.
  induction u as [|c u IH]; intros n pos w g k a Hu Hn Hk Hdeep.
  - rewrite Nat.add_0_r in Hk; rewrite app_nil_l.
    destruct n as [|n]; [exact Hk|].
    destruct w as [|c w]; [rewrite star_loop_one_nil; exact Hk|].
    rewrite star_loop_one_cons, star_dot_none, Hk;
      [destruct (accepts Dot c); reflexivity|].
    intros x w' p ->; apply (Hdeep (c :: x)); [discriminate|reflexivity].
  - cbn [forallb] in Hu.
    apply andb_prop in Hu; destruct Hu as [Hc Hu].
    destruct n as [|n]; [simpl in Hn; lia|].
    rewrite <- app_comm_cons, star_loop_one_cons, Hc.
    rewrite (IH n (S pos) w g k a); auto.
    + simpl in Hn; lia.
    + rewrite <- Hk; f_equal; simpl; lia.
Qed.

(** An iteration whose body cannot match is left at once. *)
Lemma star_loop_skip body n pos s g (k : cont) :
  (forall k', body pos s g k' = None) ->
  star_loop body n pos s g k = k pos s g.
Proof.
  intros H; destruct n as [|n]; simpl; auto.
  rewrite H; reflexivity.
Qed.

(** Unfolding equations of the search. *)
Lemma rmatch_seq r1 r2 pos s g (k : cont) :
  rmatch (Seq r1 r2) pos s g k =
  rmatch r1 pos s g (fun pos' s' g' => rmatch r2 pos' s' g' k).
Proof. reflexivity. Qed.

Lemma rmatch_star r pos s g (k : cont) :
  rmatch (Star r) pos s g k = star_loop (rmatch r) (len s) pos s g k.
Proof. reflexivity. Qed.

Lemma rmatch_opt_take r pos s g (k : cont) a :
  rmatch r pos s g k = Some a -> rmatch (Opt r) pos s g k = Some a.
Proof. intros H; simpl; rewrite H; reflexivity. Qed.

Lemma rmatch_opt_skip r pos s g (k : cont) :
  rmatch r pos s g k = None -> rmatch (Opt r) pos s g k = k pos s g.
Proof. intros H; simpl; rewrite H; reflexivity. Qed.

Lemma rmatch_one c x pos s g (k : cont) :
  accepts c x = true -> rmatch (One c) pos (x :: s) g k = k (S pos) s g.
Proof. intros H; simpl; rewrite H; reflexivity. Qed.

(* ================================================================= *)
(** ** The optional flags of the launch pattern *)

Lemma stops_app c u w : u <> [] -> stops c u -> stops c (u ++ w).
Proof. destruct u; simpl; auto; contradiction. Qed.

(** Whatever [\s*flag\s\d+] reads holds the flag, a blank and a digit. *)
Lemma flag_read_occurs flag grp pos s g (k : cont) a :
  rmatch ((Star (One Space) >> Lit flag >> One Space) >>
          Grp grp (Plus (One Digit))) pos s g k = Some a ->
  occurs (flag_items flag) s = true.
Proof.
  intros H.
  apply rmatch_sound in H.
  destruct H as (p1 & s1 & g1 & Hm & _).
  unmatch.
  apply occurs_later, occurs_here.
  unfold flag_items; rewrite starts_lit.
  match goal with
  | Hs : accepts Space ?x = true,
    Hd : forallb (accepts Digit) (?y :: _) = true
    |- starts _ (?x :: (?y :: _) ++ _) = true =>
      cbn [forallb] in Hd; apply andb_prop in Hd; destruct Hd as [Hd _];
      cbn [starts app]; rewrite Hs, Hd; reflexivity
  end.
Qed.

Lemma flag_body_occurs flag grp pos s g (k : cont) a :
  rmatch (flag_body flag grp) pos s g k = Some a ->
  occurs (flag_items flag) s = true.
Proof.
  intros H.
  apply rmatch_sound in H.
  destruct H as (p1 & s1 & g1 & Hm & _).
  unfold flag_body in Hm.
  unmatch.
  apply occurs_later, occurs_later, occurs_here.
  unfold flag_items; rewrite starts_lit.
  match goal with
  | Hs : accepts Space ?x = true,
    Hd : forallb (accepts Digit) (?y :: _) = true
    |- starts _ (?x :: (?y :: _) ++ _) = true =>
      cbn [forallb] in Hd; apply andb_prop in Hd; destruct Hd as [Hd _];
      cbn [starts app]; rewrite Hs, Hd; reflexivity
  end.
Qed.

(** A flag that does not occur leaves its clause unmatched. *)
Lemma flag_clause_absent flag grp pos s g (k : cont) :
  occurs (flag_items flag) s = false ->
  rmatch (flag_clause flag grp) pos s g k = k pos s g.
Proof.
  intros Hno.
  apply rmatch_opt_skip.
  destruct (rmatch _ pos s g k) as [a|] eqn:E; auto.
  apply (@flag_body_occurs flag grp) in E; congruence.
Qed.

Lemma rmatch_grp name r pos s g (k : cont) :
  rmatch (Grp name r) pos s g k =
  rmatch r pos s g
    (fun pos' s' g' => k pos' s' ((name, firstn (pos' - pos) s) :: g')).
Proof. reflexivity. Qed.

Lemma firstn_read (u s : text) pos :
  firstn (pos + len u - pos) (u ++ s) = u.
Proof.
  replace (pos + len u - pos) with (len u + 0) by lia.
  rewrite firstn_app_2, app_nil_r; reflexivity.
Qed.

(** A flag that occurs, and does not occur again further on, is read with
    its whole value. *)
Lemma flag_clause_present flag grp u sp d rest pos g (k : cont) a :
  forallb (accepts Dot) u = true ->
  flag <> [] -> stops Space flag ->
  accepts Space sp = true ->
  d <> [] -> forallb (accepts Digit) d = true -> stops Digit rest ->
  occurs (flag_items flag) (tl (flag ++ sp :: d ++ rest)) = false ->
  k (pos + len u + len flag + 1 + len d) rest ((grp, d) :: g) = Some a ->
  rmatch (flag_clause flag grp) pos (u ++ flag ++ sp :: d ++ rest) g k = Some a.
Proof.
  intros Hu Hf Hfs Hsp Hd Hds Hrest Hno Hk.
  apply rmatch_opt_take.
  rewrite rmatch_seq, rmatch_seq, rmatch_star.
  apply star_dot_last; auto.
  - (* at the flag *)
    rewrite rmatch_seq, rmatch_star.
    apply (@star_one_greedy Space [] (len (flag ++ sp :: d ++ rest))
             (pos + len u) (flag ++ sp :: d ++ rest)); auto.
    + apply stops_app; auto.
    + rewrite rmatch_seq, rmatch_lit, rmatch_one, rmatch_grp by auto.
      destruct d as [|x d]; [contradiction|].
      apply plus_one_greedy; auto.
      rewrite firstn_read.
      rewrite <- Hk; f_equal; simpl; lia.
  - (* and nowhere after it *)
    intros x w' p Hx E.
    match goal with
    | |- ?lhs = None => destruct lhs as [b|] eqn:Eb; auto
    end.
    apply (@flag_read_occurs flag grp) in Eb.
    destruct x as [|c x]; [contradiction|].
    rewrite E in Hno; cbn [app tl] in Hno.
    rewrite (occurs_later _ x _ Eb) in Hno; discriminate.
Qed.

Lemma occurs_skip_without c p u s :
  forallb (fun x => negb (Ascii.eqb x c)) u = true ->
  occurs (Chr c :: p) (u ++ s) = occurs (Chr c :: p) s.
Proof.
  induction u as [|a u IH]; simpl; auto.
  intros H; apply andb_prop in H; destruct H as [Ha Hu].
  rewrite (IH Hu).
  apply negb_true_iff in Ha; rewrite Ha; reflexivity.
Qed.

Lemma digits_no_dash d : forallb is_digit d = true -> no_dash d = true.
Proof.
  unfold no_dash; induction d as [|a d IH]; simpl; auto.
  intros H; apply andb_prop in H; destruct H as [Ha Hd].
  rewrite (IH Hd), andb_true_r.
  destruct (Ascii.eqb_spec a "-") as [->|_]; [discriminate|reflexivity].
Qed.

Lemma value_ok_some d :
  value_ok (Some d) = true -> d <> [] /\ forallb is_digit d = true.
Proof. destruct d; simpl; [discriminate|]; split; [discriminate|auto]. Qed.

(** One flag clause on a command line: the clause reads the flag when it
    is given and is skipped when it is not. *)
Lemma flag_step name grp blank v REST pos g (k : cont) a :
  no_dash name = true ->
  value_ok v = true ->
  occurs (flag_items ("-"%char :: name)) REST = false ->
  (forall p, k p (blank_if (blank || given v) ++ REST) (bound grp v g) = Some a) ->
  rmatch (flag_clause ("-"%char :: name) grp) pos
    (blank_if blank ++ flag_arg name v ++ REST) g k = Some a.
Proof.
  intros Hname Hv Hno Hk.
  destruct v as [d|]; cbn [flag_arg given bound] in *.
  - apply value_ok_some in Hv; destruct Hv as [Hne Hd].
    rewrite orb_true_r in Hk; cbn [blank_if app] in Hk.
    replace (blank_if blank ++
             ("-"%char :: "-"%char :: name ++ " "%char :: d ++ [" "%char]) ++ REST)
      with ((blank_if blank ++ ["-"%char]) ++
            ("-"%char :: name) ++ " "%char :: d ++ " "%char :: REST).
    2:{ repeat (rewrite <- app_assoc || rewrite <- app_comm_cons).
        reflexivity. }
    apply flag_clause_present;
      [destruct blank; reflexivity | discriminate | reflexivity | reflexivity
      | exact Hne | exact Hd | reflexivity | | apply Hk].
    cbn [app tl].
    unfold flag_items; cbn [map app].
    rewrite occurs_skip_without by exact Hname.
    change (" "%char :: d ++ " "%char :: REST)
      with ([" "%char] ++ d ++ [" "%char] ++ REST).
    rewrite occurs_skip_without by reflexivity.
    rewrite occurs_skip_without by (apply digits_no_dash; exact Hd).
    rewrite occurs_skip_without by reflexivity.
    exact Hno.
  - rewrite orb_false_r in Hk; rewrite app_nil_l.
    rewrite flag_clause_absent; [apply Hk|].
    unfold flag_items; cbn [map app].
    rewrite occurs_skip_without by (destruct blank; reflexivity).
    exact Hno.
Qed.

(** A given or omitted flag hides no item sequence that its text, a blank
    and a run of digits cannot start. *)
Lemma occurs_skip_arg c p name v s :
  is_digit c = false ->
  value_ok v = true ->
  (forall z, occurs (Chr c :: p) (("-"%char :: "-"%char :: name) ++ " "%char :: z)
             = occurs (Chr c :: p) z) ->
  (forall z, occurs (Chr c :: p) (" "%char :: z) = occurs (Chr c :: p) z) ->
  occurs (Chr c :: p) (flag_arg name v ++ s) = occurs (Chr c :: p) s.
Proof.
  intros Hc Hv Hname Hblank.
  destruct v as [d|]; [|reflexivity].
  apply value_ok_some in Hv; destruct Hv as [_ Hd].
  cbn [flag_arg].
  replace (("-"%char :: "-"%char :: name ++ " "%char :: d ++ [" "%char]) ++ s)
    with (("-"%char :: "-"%char :: name) ++ " "%char :: d ++ " "%char :: s).
  2:{ repeat (rewrite <- app_assoc || rewrite <- app_comm_cons).
      reflexivity. }
  rewrite Hname, occurs_skip_digits, Hblank by assumption.
  reflexivity.
Qed.

Lemma rmatch_plus r pos s g (k : cont) :
  rmatch (Plus r) pos s g k =
  rmatch r pos s g
    (fun pos' s' g' => star_loop (rmatch r) (len s') pos' s' g' k).
Proof. reflexivity. Qed.

Lemma rmatch_bol s g (k : cont) : rmatch Bol 0 s g k = k 0 s g.
Proof. reflexivity. Qed.

(** Whatever [.*token] reads holds the token. *)
Lemma token_read_occurs token pos s g (k : cont) a :
  rmatch (Star (One Dot) >> Lit token) pos s g k = Some a ->
  occurs (map Chr token) s = true.
Proof.
  intros H.
  apply rmatch_sound in H.
  destruct H as (p1 & s1 & g1 & Hm & _).
  unmatch.
  apply occurs_later, occurs_here.
  rewrite <- (app_nil_r (map Chr token)), starts_lit; reflexivity.
Qed.

Lemma lit_read_occurs token pos s g (k : cont) a :
  rmatch (Lit token) pos s g k = Some a ->
  occurs (map Chr token) s = true.
Proof.
  intros H.
  apply rmatch_sound in H.
  destruct H as (p1 & s1 & g1 & Hm & _).
  unmatch.
  apply occurs_here.
  rewrite <- (app_nil_r (map Chr token)), starts_lit; reflexivity.
Qed.

(** The start of the launch pattern: the text before the first slash is
    the date, and the last launch token of the line is the one read. *)
Lemma launch_head_read date path args r (k : cont) a :
  date <> [] ->
  forallb (accepts (NotChr "/")) date = true ->
  forallb (accepts Dot) ("/"%char :: path) = true ->
  occurs (map Chr launch_token) args = false ->
  (forall p,
      rmatch r p (blank_if false ++ args) [("date_str"%string, date)] k
      = Some a) ->
  rmatch (Grp "date_str" (Bol >> Plus (One (NotChr "/")))) 0
    (date ++ ("/"%char :: path) ++ launch_token ++ args) []
    (fun p s g =>
       rmatch (Plus (Star (One Dot) >> Lit launch_token) >> r) p s g k)
  = Some a.
Proof.
  intros Hne Hdate Hpath Hargs Hk.
  rewrite rmatch_grp, rmatch_seq, rmatch_bol.
  destruct date as [|x date]; [contradiction|].
  apply plus_one_greedy; [exact Hdate|reflexivity|].
  rewrite firstn_read.
  rewrite rmatch_seq, rmatch_plus, rmatch_seq, rmatch_star.
  apply star_dot_last; [exact Hpath|apply Nat.le_refl| |].
  - rewrite rmatch_lit, star_loop_skip; [apply Hk|].
    intros k'.
    match goal with
    | |- ?lhs = None => destruct lhs as [b|] eqn:Eb; auto
    end.
    apply token_read_occurs in Eb; congruence.
  - intros z w' p Hz E.
    match goal with
    | |- ?lhs = None => destruct lhs as [b|] eqn:Eb; auto
    end.
    apply lit_read_occurs in Eb.
    destruct z as [|c z]; [contradiction|].
    assert (Hno : occurs (map Chr launch_token) (tl (launch_token ++ args)) = false)
      by exact Hargs.
    rewrite E in Hno; cbn [app tl] in Hno.
    rewrite (occurs_later _ z _ Eb) in Hno; discriminate.
Qed.

Lemma tail_ok_facts tail :
  tail_ok tail = true ->
  occurs (map Chr launch_token) tail = false /\
  forall name, In name launch_flags ->
               occurs (flag_items ("-"%char :: name)) tail = false.
Proof.
  unfold tail_ok; intros H.
  apply andb_prop in H; destruct H as [H1 H2].
  split; [apply negb_true_iff; exact H1|].
  intros name Hin.
  rewrite forallb_forall in H2.
  apply negb_true_iff, H2, Hin.
Qed.

(** Items that later arguments of the command line cannot hold. *)
Ltac skip_args :=
  match goal with
  | |- occurs ?P _ = false =>
      let P' := eval cbv in P in
      change P with P';
      repeat (rewrite occurs_skip_arg
                by first [reflexivity | assumption | intros; reflexivity])
  end.

(** The next flag clause of the pattern against the next argument. *)
Ltac flag_next name grp Hv :=
  try rewrite rmatch_seq;
  apply (@flag_step name grp);
  [ reflexivity
  | exact Hv
  | skip_args;
    match goal with
    | Hflags : forall f, In f launch_flags -> _ |- _ =>
        apply (Hflags name); simpl; tauto
    end
  | intros ?; cbv beta ].



(* ================================================================= *)
(** ** Discovery of the local instance *)

Lemma LocalInstance_scan_skip ty before rest :
  (forall l, In l before -> re_match _RE_LAUNCH_CVD l = None) ->
  LocalInstance_scan ty (before ++ rest) = LocalInstance_scan ty rest.
Proof.
  induction before as [|l before IH]; intros H; simpl; auto.
  rewrite (H l) by (simpl; auto).
  apply IH; intros l' Hl'; apply H; simpl; auto.
Qed.

Lemma ps_line_launch_e2e :
  ps_line_launch "Mon Jan 1 00:00:00 2024" =
  t "Mon Jan 1 00:00:00 2024 /out/host/bin/launch_cvd --daemon --cpus 2 --x_res 720 --y_res 1280 --dpi 320 --memory_mb 2048 --blank_data_image_mb 4096 --data_policy always_create --system_image_dir /out/target/product/vsoc_x86 --vnc_server_port 6444".
Proof. reflexivity. Qed.

(** C5: when the first line of the process table that matches the launch
    pattern is the launch command with cpu 2, resolution 720x1280, dpi
    320, memory 2048 and disk 4096, started at [Mon Jan 1 00:00:00 2024],
    discovery returns the instance with display [720x1280 (320)], that
    start time without surrounding blanks, the fixed name, the loopback
    address, the default ports, status RUNNING, local and connected.  When
    no line matches, discovery returns nothing. *)
Theorem local_discovery_e2e ty out :
  (forall before after,
      splitlines out = before ++ ps_line_launch "Mon Jan 1 00:00:00 2024" :: after ->
      (forall l, In l before -> re_match _RE_LAUNCH_CVD l = None) ->
      LocalInstance ty true out =
      Some {| _name := Some LOCAL_INS_NAME;
              _fullname := Some (t "device serial: 127.0.0.1:6520 (local-instance)");
              _status := Some INS_STATUS_RUNNING;
              _display := Some (t "720x1280 (320)");
              _ip := Some (t "127.0.0.1");
              _adb_port := Some DEFAULT_ADB_PORT;
              _vnc_port := Some DEFAULT_VNC_PORT;
              _ssh_tunnel_is_connected := Some true;
              _createtime := Some (t "Mon Jan 1 00:00:00 2024");
              _avd_type := Some ty;
              _avd_flavor := None;
              _is_local := Some true |}) /\
  ((forall l, In l (splitlines out) -> re_match _RE_LAUNCH_CVD l = None) ->
   forall supported, LocalInstance ty supported out = None).
Proof.
  split.
  - intros before after Hout Hbefore.
    unfold LocalInstance; simpl negb; cbv iota.
    rewrite Hout, LocalInstance_scan_skip by assumption.
    cbn [LocalInstance_scan].
    replace (re_match _RE_LAUNCH_CVD (ps_line_launch "Mon Jan 1 00:00:00 2024"))
      with (Some [("disk"%string, t "4096"); ("memory"%string, t "2048");
                  ("dpi"%string, t "320"); ("y_res"%string, t "1280");
                  ("x_res"%string, t "720"); ("cpu"%string, t "2");
                  ("date_str"%string, t "Mon Jan 1 00:00:00 2024 ")])
      by (vm_compute; reflexivity).
    reflexivity.
  - intros Hnone supported.
    unfold LocalInstance.
    destruct (negb supported); auto.
    rewrite <- (app_nil_r (splitlines out)).
    rewrite LocalInstance_scan_skip by assumption.
    reflexivity.
Qed.

(** A process table with the launch line between two other lines, and one
    without it. *)
Lemma local_discovery_e2e_witness :
  LocalInstance (t "cuttlefish") true
    (ps_output [ps_header;
                t "Mon Jan 1 00:00:00 2024 /usr/sbin/sshd -D";
                ps_line_launch "Mon Jan 1 00:00:00 2024";
                t "Mon Jan 1 00:00:09 2024 ps -eo lstart,cmd"])
  = Some {| _name := Some (t "local-instance");
            _fullname := Some (t "device serial: 127.0.0.1:6520 (local-instance)");
            _status := Some (t "RUNNING");
            _display := Some (t "720x1280 (320)");
            _ip := Some (t "127.0.0.1");
            _adb_port := Some 6520%Z;
            _vnc_port := Some 6444%Z;
            _ssh_tunnel_is_connected := Some true;
            _createtime := Some (t "Mon Jan 1 00:00:00 2024");
            _avd_type := Some (t "cuttlefish");
            _avd_flavor := None;
            _is_local := Some true |} /\
  LocalInstance (t "cuttlefish") true
    (ps_output [ps_header; t "Mon Jan 1 00:00:09 2024 ps -eo lstart,cmd"])
  = None.
Proof.
  split.
  - apply (proj1 (local_discovery_e2e (t "cuttlefish") _)
             [ps_header; t "Mon Jan 1 00:00:00 2024 /usr/sbin/sshd -D"]
             [t "Mon Jan 1 00:00:09 2024 ps -eo lstart,cmd"]).
    + vm_compute; reflexivity.
    + intros l [<-|[<-|[]]]; vm_compute; reflexivity.
  - apply (proj2 (local_discovery_e2e (t "cuttlefish") _)).
    intros l [<-|[<-|[]]]; vm_compute; reflexivity.
Defined.

(* ================================================================= *)
(** ** The tunnel lookup on sample process tables *)

(** The example of P3. *)
Lemma tunnel_lookup_p3 :
  GetAdbVncPortFromSSHTunnel
    (ps_output [ps_header; ps_line_tunnel "6444" "6520" "35.1.2.3"])
    (t "35.1.2.3")
  = mkForwardedPorts (Some 6444%Z) (Some 6520%Z) /\
  GetAdbVncPortFromSSHTunnel
    (ps_output [ps_header; ps_line_tunnel "6444" "6520" "35.1.2.3"])
    (t "35.1.2.4")
  = mkForwardedPorts None None.
Proof. split; vm_compute; reflexivity. Qed.

(** No matching line, no ports. *)
Lemma tunnel_lookup_none out ip :
  (forall l, In l (splitlines out) -> re_match (tunnel_pattern ip) l = None) ->
  GetAdbVncPortFromSSHTunnel out ip = mkForwardedPorts None None.
Proof.
  unfold GetAdbVncPortFromSSHTunnel.
  induction (splitlines out) as [|l ls IH]; intros H; simpl; auto.
  rewrite (H l) by (simpl; auto).
  apply IH; intros l' Hl'; apply H; simpl; auto.
Qed.

(** C1: the tunnel lookup for the address 35.1.2.3 returns the ports of
    tunnels that belong to other hosts.  The address is spliced into the
    pattern as pattern text and nothing delimits it, so the lines of the
    tunnels to 35.1.2.30, 135.1.2.3 and 35.192.3.4 all match; likewise a
    remote port that only begins with a default port is taken for it. *)
Theorem tunnel_lookup_takes_other_address :
  GetAdbVncPortFromSSHTunnel
    (ps_output [ps_header; ps_line_tunnel "6444" "6520" "35.1.2.30"])
    (t "35.1.2.3")
  = mkForwardedPorts (Some 6444%Z) (Some 6520%Z) /\
  GetAdbVncPortFromSSHTunnel
    (ps_output [ps_header; ps_line_tunnel "6444" "6520" "135.1.2.3"])
    (t "35.1.2.3")
  = mkForwardedPorts (Some 6444%Z) (Some 6520%Z) /\
  GetAdbVncPortFromSSHTunnel
    (ps_output [ps_header; ps_line_tunnel "6444" "6520" "35.192.3.4"])
    (t "35.1.2.3")
  = mkForwardedPorts (Some 6444%Z) (Some 6520%Z) /\
  GetAdbVncPortFromSSHTunnel
    (ps_output
       [ps_header;
        t "Mon Jan  1 00:00:00 2024 ssh -L 5901:127.0.0.1:64449 -L 5555:127.0.0.1:65201 -N -f -l vsoc-01 35.1.2.3"])
    (t "35.1.2.3")
  = mkForwardedPorts (Some 5901%Z) (Some 5555%Z).
Proof. repeat split; vm_compute; reflexivity. Qed.

(* ================================================================= *)
(** ** Remote instances *)

Section RemoteFacts.

Variables INS_KEY_DISPLAY INS_KEY_AVD_TYPE INS_KEY_AVD_FLAVOR : text.

Let set_md := set_metadata INS_KEY_DISPLAY INS_KEY_AVD_TYPE INS_KEY_AVD_FLAVOR.

(** The metadata loop touches the display, the type and the flavor only. *)
Lemma set_metadata_keeps self item :
  let self' := set_md self item in
  _name self' = _name self /\ _fullname self' = _fullname self /\
  _ip self' = _ip self /\ _adb_port self' = _adb_port self /\
  _vnc_port self' = _vnc_port self /\
  _ssh_tunnel_is_connected self' = _ssh_tunnel_is_connected self.
Proof.
  destruct item as [key value]; unfold set_md, set_metadata; simpl.
  destruct (text_eqb key INS_KEY_DISPLAY); [simpl; tauto|].
  destruct (text_eqb key INS_KEY_AVD_TYPE); [simpl; tauto|].
  destruct (text_eqb key INS_KEY_AVD_FLAVOR); simpl; tauto.
Qed.

Lemma metadata_loop_keeps items : forall self,
  let self' := fold_left set_md items self in
  _name self' = _name self /\ _fullname self' = _fullname self /\
  _ip self' = _ip self /\ _adb_port self' = _adb_port self /\
  _vnc_port self' = _vnc_port self /\
  _ssh_tunnel_is_connected self' = _ssh_tunnel_is_connected self.
Proof.
  induction items as [|item items IH]; intros self; simpl.
  - tauto.
  - specialize (IH (set_md self item)); simpl in IH.
    pose proof (set_metadata_keeps self item) as K; simpl in K.
    intuition congruence.
Qed.

(** The two loops leave the [natIP] of the last access config visited. *)
Lemma scan_access_configs_last cfgs : forall ip,
  scan_access_configs ip cfgs = last (map natIP cfgs) ip.
Proof.
  induction cfgs as [|cfg cfgs IH]; intros ip; simpl; auto.
  rewrite IH.
  destruct cfgs; simpl; auto.
  clear; generalize (natIP a); revert ip.
  induction (map natIP cfgs) as [|x l IHl]; simpl; auto.
Qed.

Lemma last_app_default {A} (l1 l2 : list A) d :
  last (l1 ++ l2) d = last l2 (last l1 d).
Proof.
  revert d; induction l1 as [|a l1 IH]; intros d; simpl; auto.
  destruct l1 as [|b l1]; simpl.
  - destruct l2; simpl; auto.
    clear. revert a d a0. induction l2; simpl; auto.
  - simpl in IH. rewrite IH. auto.
Qed.

Lemma scan_interfaces_last cfgss : forall ip,
  scan_interfaces ip (map (fun cfgs => mkNetworkInterface (Some cfgs)) cfgss)
  = Ok (last (map natIP (List.concat cfgss)) ip).
Proof.
  induction cfgss as [|cfgs cfgss IH]; intros ip; simpl; auto.
  rewrite IH, scan_access_configs_last, map_app, last_app_default; auto.
Qed.

Lemma first_tunnel_both re_pattern lines :
  (forall line m, re_match re_pattern line = Some m ->
     exists vnc adb, m = [(_RE_GROUP_ADB, adb); (_RE_GROUP_VNC, vnc)]) ->
  let fp := first_tunnel re_pattern lines in
  (adb_port fp = None /\ vnc_port fp = None) \/
  (exists a v, adb_port fp = Some a /\ vnc_port fp = Some v).
Proof.
  intros Hm; induction lines as [|line lines IH]; simpl; auto.
  destruct (re_match re_pattern line) as [m|] eqn:E; auto.
  destruct (Hm _ _ E) as (vnc & adb & ->).
  right; simpl; eauto.
Qed.

Lemma tunnel_ports_both out ip :
  let fp := GetAdbVncPortFromSSHTunnel out ip in
  (adb_port fp = None /\ vnc_port fp = None) \/
  (exists a v, adb_port fp = Some a /\ vnc_port fp = Some v).
Proof.
  apply first_tunnel_both.
  intros line m H.
  apply tunnel_match_binds_ports in H.
  destruct H as (vnc & adb & _ & _ & ->); eauto.
Qed.

(** The attributes of a remote instance that concern the connection, in
    terms of the address found and of the tunnel lookup. *)
Lemma RemoteInstance_connection out gce ip :
  extract_ip gce = Ok ip ->
  exists i,
    RemoteInstance INS_KEY_DISPLAY INS_KEY_AVD_TYPE INS_KEY_AVD_FLAVOR out gce
    = Ok i /\
    let fp := GetAdbVncPortFromSSHTunnel out (the [] ip) in
    if truthy_str ip then
      _ip i = ip /\ _adb_port i = adb_port fp /\ _vnc_port i = vnc_port fp /\
      if truthy_int (adb_port fp) then
        _ssh_tunnel_is_connected i = Some true /\
        _fullname i =
          Some (_FULL_NAME_STRING
                  (t "127.0.0.1:" ++ fmt_d (the 0%Z (adb_port fp)))
                  (gce_name gce))
      else
        _ssh_tunnel_is_connected i = Some false /\
        _fullname i =
          Some (_FULL_NAME_STRING (t "not connected") (gce_name gce))
    else
      _ip i = None /\ _adb_port i = None /\ _vnc_port i = None /\
      _ssh_tunnel_is_connected i = None /\ _fullname i = None.
Proof.
  intros Hip.
  unfold RemoteInstance, _ProcessGceInstance.
  rewrite Hip.
  eexists; split; [reflexivity|].
  match goal with
  | |- context [fold_left ?f ?items ?self] =>
      pose proof (metadata_loop_keeps items self) as K
  end.
  unfold set_md in K; simpl in K.
  destruct K as (Kn & Kf & Ki & Ka & Kv & Kc).
  simpl.
  rewrite Kf, Ki, Ka, Kv, Kc.
  unfold find_tunnel.
  destruct (truthy_str ip); simpl; auto.
  destruct (truthy_int _); simpl; auto.
Qed.

End RemoteFacts.

(** C3, amended: the address of a remote instance is the [natIP] of the
    last access config visited, over all interfaces in order, whether or
    not earlier ones were set: a later config without [natIP] erases an
    address found before.  The instance carries that address when it is a
    non-empty text and none otherwise. *)
Theorem remote_ip_is_last_natIP kd kt kf out gce cfgss :
  networkInterfaces gce = Some (interfaces_of cfgss) ->
  exists i,
    RemoteInstance kd kt kf out gce = Ok i /\
    _ip i = (let ip := last (map natIP (List.concat cfgss)) None in
             if truthy_str ip then ip else None).
Proof.
  intros Hn.
  assert (Hip : extract_ip gce = Ok (last (map natIP (List.concat cfgss)) None)).
  { unfold extract_ip; rewrite Hn; apply scan_interfaces_last. }
  destruct (RemoteInstance_connection kd kt kf out gce Hip) as (i & Hi & H).
  exists i; split; auto.
  simpl in *.
  destruct (truthy_str _); tauto.
Qed.

(** Two interfaces, the last access config of the last one carries the
    address. *)
Lemma remote_ip_is_last_natIP_witness :
  exists i,
    RemoteInstance_example []
      (gce_example [[mkAccessConfig (Some (t "10.0.0.7"))];
                    [mkAccessConfig None; mkAccessConfig (Some (t "35.1.2.3"))]])
    = Ok i /\
    _ip i = Some (t "35.1.2.3").
Proof.
  exact (remote_ip_is_last_natIP (t "display") (t "avd_type") (t "flavor") []
           (gce_example [[mkAccessConfig (Some (t "10.0.0.7"))];
                         [mkAccessConfig None;
                          mkAccessConfig (Some (t "35.1.2.3"))]])
           [[mkAccessConfig (Some (t "10.0.0.7"))];
            [mkAccessConfig None; mkAccessConfig (Some (t "35.1.2.3"))]]
           eq_refl).
Defined.

(** An access config without [natIP] after one with it: the last non-null
    address is 35.1.2.3, the instance has none. *)
Lemma later_null_natIP_erases_ip :
  let cfgss := [[mkAccessConfig (Some (t "35.1.2.3")); mkAccessConfig None]] in
  last_non_null_natIP cfgss = Some (t "35.1.2.3") /\
  extract_ip (gce_example cfgss) = Ok None /\
  exists i,
    RemoteInstance_example [] (gce_example cfgss) = Ok i /\
    _ip i = None /\ _ip i <> last_non_null_natIP cfgss.
Proof.
  simpl; repeat split.
  eexists; repeat split; discriminate.
Qed.

(** C2, amended: a remote instance is connected if and only if both ports
    are present and the ADB port is not zero (the code tests the truth
    value of the port); in particular it is not connected when the lookup
    found no ports.  A local instance always has both default ports and
    is connected. *)
Theorem connected_iff_ports_nonzero :
  (forall kd kt kf out gce i,
      RemoteInstance kd kt kf out gce = Ok i ->
      (_ssh_tunnel_is_connected i = Some true <->
       exists a v,
         _adb_port i = Some a /\ _vnc_port i = Some v /\ a <> 0%Z) /\
      (_adb_port i = None -> _ssh_tunnel_is_connected i <> Some true)) /\
  (forall ty supported out i,
      LocalInstance ty supported out = Some i ->
      _ssh_tunnel_is_connected i = Some true /\
      _adb_port i = Some DEFAULT_ADB_PORT /\
      _vnc_port i = Some DEFAULT_VNC_PORT /\
      DEFAULT_ADB_PORT <> 0%Z).
Proof.
  split.
  - intros kd kt kf out gce i Hi.
    match goal with
    | |- ?P /\ _ =>
        assert (Hiff : P); [|split; [exact Hiff|];
          intros Hnone Hc; apply Hiff in Hc;
          destruct Hc as (a & v & Ha & _); congruence]
    end.
    destruct (extract_ip gce) as [ip|] eqn:Hip.
    2:{ unfold RemoteInstance, _ProcessGceInstance in Hi.
        rewrite Hip in Hi; discriminate. }
    destruct (RemoteInstance_connection kd kt kf out gce Hip) as (j & Hj & H).
    rewrite Hi in Hj; inv Hj.
    simpl in H.
    pose proof (tunnel_ports_both out (the [] ip)) as B; simpl in B.
    destruct (truthy_str ip).
    + destruct H as (_ & Ha & Hv & H).
      rewrite Ha, Hv.
      destruct B as [[Ea Ev]|(a & v & Ea & Ev)]; rewrite Ea, Ev in *; simpl in H.
      * destruct H as [-> _].
        split; [discriminate|intros (a & v & Ha' & _); discriminate].
      * destruct (Z.eqb_spec a 0) as [->|Hne]; simpl in H; destruct H as [-> _].
        -- split; [discriminate|].
           intros (a & v' & Ha' & _ & Hn); inv Ha'; congruence.
        -- split; eauto.
    + destruct H as (_ & -> & _ & -> & _).
      split; [discriminate|intros (a & v & Ha' & _); discriminate].
  - intros ty supported out i.
    unfold LocalInstance.
    destruct (negb supported); [discriminate|].
    induction (splitlines out) as [|line lines IH]; simpl; [discriminate|].
    destruct (re_match _RE_LAUNCH_CVD line); auto.
    intros H; inv H; simpl.
    repeat split; discriminate.
Qed.

(** A remote instance with a tunnel on ports 5901 and 5555, and a local
    instance. *)
Lemma connected_iff_ports_nonzero_witness :
  (exists i,
     RemoteInstance_example
       (ps_output [ps_header; ps_line_tunnel "5901" "5555" "35.1.2.3"])
       (gce_with_ip "35.1.2.3") = Ok i /\
     (_ssh_tunnel_is_connected i = Some true <->
      exists a v,
        _adb_port i = Some a /\ _vnc_port i = Some v /\ a <> 0%Z)) /\
  (exists i,
     LocalInstance (t "cuttlefish") true
       (ps_output
          [ps_header;
           t "Mon Jan  1 00:00:00 2024 /out/host/bin/launch_cvd --daemon --cpus 2"])
     = Some i /\
     _ssh_tunnel_is_connected i = Some true /\
     _adb_port i = Some DEFAULT_ADB_PORT /\
     _vnc_port i = Some DEFAULT_VNC_PORT /\
     DEFAULT_ADB_PORT <> 0%Z).
Proof.
  split; eexists; split.
  - vm_compute; reflexivity.
  - apply (proj1 connected_iff_ports_nonzero (t "display") (t "avd_type")
             (t "flavor")
             (ps_output [ps_header; ps_line_tunnel "5901" "5555" "35.1.2.3"])
             (gce_with_ip "35.1.2.3")).
    vm_compute; reflexivity.
  - vm_compute; reflexivity.
  - apply (proj2 connected_iff_ports_nonzero (t "cuttlefish") true
             (ps_output
                [ps_header;
                 t "Mon Jan  1 00:00:00 2024 /out/host/bin/launch_cvd --daemon --cpus 2"])).
    vm_compute; reflexivity.
Defined.

(** With local port 0 in the ADB clause both ports are set and the
    instance is not connected. *)
Lemma adb_port_zero_not_connected :
  exists i,
    RemoteInstance_example
      (ps_output [ps_header; ps_line_tunnel "5901" "0" "35.1.2.3"])
      (gce_with_ip "35.1.2.3") = Ok i /\
    _adb_port i = Some 0%Z /\ _vnc_port i = Some 5901%Z /\
    _ssh_tunnel_is_connected i = Some false /\
    ~ (_ssh_tunnel_is_connected i = Some true <->
       _adb_port i <> None /\ _vnc_port i <> None).
Proof.
  eexists; split; [vm_compute; reflexivity|].
  simpl; repeat split.
  intros [_ H].
  assert (E : Some false = Some true) by (apply H; split; discriminate).
  discriminate.
Qed.




(* ================================================================= *)
(** ** Creation and deletion of the local instance *)

Module lifecycle_facts.

Import constants proc local_image_local_instance delete create_scenario.

Section WithUtils.

Variable AddUserGroupsToCmd : text -> text.

(** C6: creation that finds the launch command already running prompts the
    user.  On a yes, the stop command of the host package directory runs
    with its output discarded, and the launch command runs only after it
    (and not at all when stopping fails).  On any other answer the
    operation ends with [sys.exit()], whose status is 0, and the launch
    command is never run. *)
Theorem relaunch_conflict w avd_spec host_out :
  verify_local_image w (local_image_dir avd_spec) = None ->
  environ_get w _ENV_ANDROID_HOST_OUT = Some host_out ->
  path_exists w (launch_cvd_path_in host_out) = true ->
  command_running w CMD_LAUNCH_CVD = true ->
  let res := fst (run (_CreateAVD AddUserGroupsToCmd avd_spec) w) in
  let tr := snd (run (_CreateAVD AddUserGroupsToCmd avd_spec) w) in
  let stop_cmd := stop_cmd_for AddUserGroupsToCmd host_out in
  let launch := CheckOutput (launch_cmd_for AddUserGroupsToCmd host_out avd_spec) in
  firstn 3 tr = [disclaimer; IsCommandRunning CMD_LAUNCH_CVD;
                 Asked _CONFIRM_RELAUNCH] /\
  (answer_yes w _CONFIRM_RELAUNCH = true ->
   exists after,
     tr = [disclaimer; IsCommandRunning CMD_LAUNCH_CVD;
           Asked _CONFIRM_RELAUNCH; CheckCall stop_cmd true] ++ after /\
     (returncode w stop_cmd = 0%Z -> exists after', after = launch :: after') /\
     (returncode w stop_cmd <> 0%Z ->
      after = [] /\
      res = Raise (CalledProcessError stop_cmd (returncode w stop_cmd)))) /\
  (answer_yes w _CONFIRM_RELAUNCH = false ->
   res = Raise (SystemExit None) /\ exit_status None = 0%Z /\
   tr = [disclaimer; IsCommandRunning CMD_LAUNCH_CVD;
         Asked _CONFIRM_RELAUNCH; Printed (t "Exiting out")] /\
   ~ In launch tr).
Proof.
  intros Hv He Hp Hr.
  cbv [run _CreateAVD GetImageArtifactsPath CheckLaunchCVD check_call
         PrintDisclaimer bind ask emit ret raise].
  rewrite Hv, He.
  fold (launch_cvd_path_in host_out).
  rewrite Hp; cbv beta iota delta [negb].
  rewrite Hr; cbv beta iota.
  fold (stop_cmd_for AddUserGroupsToCmd host_out)
       (launch_cmd_for AddUserGroupsToCmd host_out avd_spec).
  destruct (answer_yes w _CONFIRM_RELAUNCH); cbv beta iota zeta.
  - destruct (Z.eqb_spec (returncode w (stop_cmd_for AddUserGroupsToCmd host_out)) 0)
      as [E|E]; cbv beta iota.
    + destruct (Z.eqb (returncode w
                         (launch_cmd_for AddUserGroupsToCmd host_out avd_spec)) 0);
        cbv beta iota.
      * destruct (autoconnect avd_spec); simpl;
          (split; [reflexivity|]); (split; [|discriminate]); intros _;
          eexists; (split; [reflexivity|]); split; eauto; contradiction.
      * simpl; (split; [reflexivity|]); (split; [|discriminate]); intros _;
          eexists; (split; [reflexivity|]); split; eauto; contradiction.
    + simpl; (split; [reflexivity|]); (split; [|discriminate]); intros _.
      exists []; split; [reflexivity|]; split; [contradiction|auto].
  - simpl; (split; [reflexivity|]); (split; [discriminate|]); intros _.
    repeat split.
    intros [H|[H|[H|[H|[]]]]]; discriminate.
Qed.

End WithUtils.

(** The launch command is running; the user answers yes in the first
    world and no in the second. *)
Lemma relaunch_conflict_witness :
  (exists after,
     snd (run (_CreateAVD no_groups sample_spec)
            (sample_world None true true true 0))
     = [disclaimer; IsCommandRunning CMD_LAUNCH_CVD; Asked _CONFIRM_RELAUNCH;
        CheckCall (t "/out/host/bin/stop_cvd") true] ++ after) /\
  fst (run (_CreateAVD no_groups sample_spec)
         (sample_world None true true false 0))
  = Raise (SystemExit None).
Proof.
  split.
  - destruct (@relaunch_conflict no_groups (sample_world None true true true 0)
                sample_spec (t "/out/host") eq_refl eq_refl eq_refl eq_refl)
      as (_ & Hyes & _).
    destruct (Hyes eq_refl) as (after & E & _).
    exists after; exact E.
  - destruct (@relaunch_conflict no_groups (sample_world None true true false 0)
                sample_spec (t "/out/host") eq_refl eq_refl eq_refl eq_refl)
      as (_ & _ & Hno).
    destruct (Hno eq_refl) as (E & _).
    exact E.
Defined.

Section WithUtils.

Variable AddUserGroupsToCmd : text -> text.

(** The artifact checks where they work.  When the local image is
    rejected, or [ANDROID_HOST_OUT] is set and the launch command is not
    in the host package, creation raises the corresponding error (the
    image error as it was raised, the host-package error naming
    [launch_cvd] and the build command to run), and up to that point no
    subprocess has been started. *)
Theorem missing_artifacts_fail_first w avd_spec :
  (forall message,
      verify_local_image w (local_image_dir avd_spec) = Some message ->
      exists tr,
        run (_CreateAVD AddUserGroupsToCmd avd_spec) w
        = (Raise (GetLocalImageError message), tr) /\
        is_MissingArtifactsError (GetLocalImageError message) = true /\
        no_subprocess tr = true) /\
  (forall host_out,
      verify_local_image w (local_image_dir avd_spec) = None ->
      environ_get w _ENV_ANDROID_HOST_OUT = Some host_out ->
      path_exists w (launch_cvd_path_in host_out) = false ->
      exists tr,
        run (_CreateAVD AddUserGroupsToCmd avd_spec) w
        = (Raise (GetCvdLocalHostPackageError no_launch_cvd_message), tr) /\
        is_MissingArtifactsError
          (GetCvdLocalHostPackageError no_launch_cvd_message) = true /\
        Contains CMD_LAUNCH_CVD no_launch_cvd_message /\
        Contains (t "Please run " ++ dquote ++ t "m launch_cvd" ++ dquote)
          no_launch_cvd_message /\
        no_subprocess tr = true).
Proof.
  split.
  - intros message Hv.
    cbv [run _CreateAVD GetImageArtifactsPath PrintDisclaimer bind ask emit
           ret raise].
    rewrite Hv; cbv beta iota.
    eexists; split; [reflexivity|]; split; reflexivity.
  - intros host_out Hv He Hp.
    cbv [run _CreateAVD GetImageArtifactsPath PrintDisclaimer bind ask emit
           ret raise].
    rewrite Hv, He.
    fold (launch_cvd_path_in host_out).
    rewrite Hp; cbv beta iota delta [negb].
    eexists; split; [reflexivity|]; split; [reflexivity|].
    split; [|split; [|reflexivity]].
    + exists (t "No "), (t " found. Please run " ++ dquote ++ t "m launch_cvd" ++
                         dquote ++ t " first"); reflexivity.
    + exists (t "No launch_cvd found. "), (t " first"); reflexivity.
Qed.

(** C9: every successful deletion of the local instance reports exactly
    the item [local-instance] of type [instance], with status SUCCESS and
    command [delete]; deletion succeeds in particular when the resolved
    stop path is empty, provided the stop command itself exits with 0. *)
Theorem delete_local_instance_report :
  (forall w r tr,
      run (DeleteLocalInstance AddUserGroupsToCmd) w = (Return r, tr) ->
      r = deleted_report) /\
  (forall w,
      stop_cvd_path w = [] ->
      returncode w (AddUserGroupsToCmd []) = 0%Z ->
      run (DeleteLocalInstance AddUserGroupsToCmd) w
      = (Return deleted_report, [CheckCall (AddUserGroupsToCmd []) true])).
Proof.
  split.
  - intros w r tr.
    cbv [run DeleteLocalInstance _GetStopCvd check_call bind ask emit ret raise].
    destruct (Z.eqb _ 0); cbv beta iota; intros H; inv H; reflexivity.
  - intros w Hs Hr.
    cbv [run DeleteLocalInstance _GetStopCvd check_call bind ask emit ret raise].
    rewrite Hs, Hr; reflexivity.
Qed.

End WithUtils.

(** The image is rejected in the first world; the launch command is
    missing in the second. *)
Lemma missing_artifacts_fail_first_witness :
  (exists tr,
     run (_CreateAVD no_groups sample_spec)
       (sample_world (Some (t "No image found.")) true true true 0)
     = (Raise (GetLocalImageError (t "No image found.")), tr) /\
     no_subprocess tr = true) /\
  (exists tr,
     run (_CreateAVD no_groups sample_spec)
       (sample_world None false true true 0)
     = (Raise (GetCvdLocalHostPackageError no_launch_cvd_message), tr) /\
     no_subprocess tr = true).
Proof.
  split.
  - destruct (proj1 (@missing_artifacts_fail_first no_groups
                       (sample_world (Some (t "No image found.")) true true true 0)
                       sample_spec)
                (t "No image found.") eq_refl) as (tr & E & _ & N).
    exists tr; split; assumption.
  - destruct (proj2 (@missing_artifacts_fail_first no_groups
                       (sample_world None false true true 0) sample_spec)
                (t "/out/host") eq_refl eq_refl eq_refl)
      as (tr & E & _ & _ & _ & N).
    exists tr; split; assumption.
Defined.

(** C7: the host package is absent and creation does not say so.  On a
    host where [ANDROID_HOST_OUT] is not set and no launch command
    exists, the image being in place, [GetImageArtifactsPath] hands [None]
    to [os.path.join]: creation ends with an [AttributeError] that names
    neither the missing launch command nor the build command to run, and
    is none of the errors for missing artifacts.  Nothing but the
    disclaimer has happened by then, so no subprocess was started. *)
Theorem missing_host_package_not_reported :
  let w := create_views.host_without_package in
  verify_local_image w (local_image_dir sample_spec) = None /\
  environ_get w _ENV_ANDROID_HOST_OUT = None /\
  (forall p, path_exists w p = false) /\
  run (_CreateAVD no_groups sample_spec) w
  = (Raise AttributeError, [disclaimer]) /\
  is_MissingArtifactsError AttributeError = false /\
  AttributeError <> GetCvdLocalHostPackageError no_launch_cvd_message /\
  no_subprocess [disclaimer] = true.
Proof.
  cbv zeta; repeat split; try reflexivity.
  discriminate.
Qed.

(** Nothing runs, the stop path is empty, the stop command exits with 0. *)
Lemma delete_local_instance_report_witness :
  run (DeleteLocalInstance no_groups) (sample_world None false false false 0)
  = (Return deleted_report, [CheckCall [] true]) /\
  data deleted_report
  = [(t "deleted",
      VList [VDict [(t "type", VStr (t "instance"));
                    (t "name", VStr (t "local-instance"))]])].
Proof.
  split.
  - exact (proj2 (@delete_local_instance_report no_groups)
             (sample_world None false false false 0) eq_refl eq_refl).
  - reflexivity.
Defined.

End lifecycle_facts.

(* ================================================================= *)
(** ** Paths of the host package *)

Module path_facts.

Import constants proc create_scenario.

Lemma drop_to_slash_app u s :
  forallb (fun c => negb (Ascii.eqb c slash)) u = true ->
  drop_to_slash (u ++ slash :: s) = slash :: s.
Proof.
  induction u as [|c u IH]; simpl.
  - reflexivity.
  - intros H; apply andb_prop in H; destruct H as [Hc Hu].
    apply negb_true_iff in Hc; rewrite Hc; auto.
Qed.

Lemma forallb_rev {A} (f : A -> bool) l : forallb f (rev l) = forallb f l.
Proof.
  induction l as [|a l IH]; simpl; auto.
  rewrite forallb_app, IH; simpl.
  rewrite andb_true_r; apply andb_comm.
Qed.

(** [os.path.dirname] undoes [os.path.join] with a plain name, for a
    directory that does not end in a slash. *)
Lemma dirname_path_join d b :
  d <> [] ->
  starts_with_slash (rev d) = false ->
  forallb (fun c => negb (Ascii.eqb c slash)) b = true ->
  path_join d b = d ++ slash :: b /\ dirname (path_join d b) = d.
Proof.
  intros Hd Hlast Hb.
  assert (E : path_join d b = d ++ slash :: b).
  { unfold path_join.
    destruct b as [|c b]; simpl in *.
    - destruct d; [contradiction|]; rewrite Hlast; reflexivity.
    - apply andb_prop in Hb; destruct Hb as [Hc _].
      apply negb_true_iff in Hc; rewrite Hc.
      destruct d; [contradiction|]; rewrite Hlast; reflexivity. }
  split; [exact E|].
  rewrite E; unfold dirname.
  assert (E1 : rev (d ++ slash :: b) = rev b ++ slash :: rev d).
  { rewrite rev_app_distr; simpl; rewrite <- app_assoc; reflexivity. }
  rewrite E1, drop_to_slash_app by (rewrite forallb_rev; exact Hb).
  assert (E2 : rev (slash :: rev d) = d ++ [slash]).
  { simpl; rewrite rev_involutive; reflexivity. }
  rewrite E2.
  assert (E3 : drop_slashes (rev d) = rev d).
  { destruct (rev d) as [|x r]; simpl in *; [reflexivity|].
    rewrite Hlast; reflexivity. }
  assert (E4 : forallb (fun c => Ascii.eqb c slash) (d ++ [slash]) = false).
  { rewrite forallb_app, <- (forallb_rev _ d).
    destruct (rev d) as [|x r] eqn:Er; simpl in *.
    - apply (f_equal (@rev ascii)) in Er; rewrite rev_involutive in Er.
      contradiction.
    - rewrite Hlast; reflexivity. }
  rewrite E4, rev_app_distr.
  change (rev [slash] ++ rev d) with (slash :: rev d).
  change (drop_slashes (slash :: rev d)) with (drop_slashes (rev d)).
  rewrite E3, rev_involutive; reflexivity.
Qed.

(** Whatever the host directory, [bin] joined to it gives a directory that
    ends in [bin]. *)
Lemma path_join_bin h :
  path_join h (t "bin") <> [] /\
  starts_with_slash (rev (path_join h (t "bin"))) = false.
Proof.
  unfold path_join; simpl starts_with_slash.
  destruct h as [|c h]; [split; [discriminate|reflexivity]|].
  destruct (starts_with_slash (rev (c :: h)));
    (split; [discriminate|]).
  - rewrite rev_app_distr; reflexivity.
  - change (c :: h ++ slash :: t "bin") with ((c :: h) ++ slash :: t "bin").
    rewrite rev_app_distr; reflexivity.
Qed.


End path_facts.

(* ================================================================= *)
(** ** Runs of creation *)

Module creation_facts.

Import constants proc local_image_local_instance create_scenario create_views.

Section WithUtils.

Variable AddUserGroupsToCmd : text -> text.

(** Every case of a run of creation, by the answers of the world. *)
Ltac run_cases w avd_spec :=
  cbv [run _CreateAVD GetImageArtifactsPath CheckLaunchCVD check_call
         PrintDisclaimer bind ask emit ret raise];
  destruct (verify_local_image w (local_image_dir avd_spec)) as [message|];
    [|destruct (environ_get w _ENV_ANDROID_HOST_OUT) as [host_out|];
      [destruct (path_exists w
                   (path_join (path_join host_out (t "bin")) CMD_LAUNCH_CVD));
       cbv beta iota delta [negb];
       [destruct (command_running w CMD_LAUNCH_CVD);
        [destruct (answer_yes w _CONFIRM_RELAUNCH);
         [destruct (Z.eqb (returncode w _) 0) eqn:Estop|]|];
        cbv beta iota;
        try (destruct (Z.eqb (returncode w (PrepareLaunchCVDCmd _ _ _ _)) 0)
               eqn:Elaunch);
        cbv beta iota;
        try (destruct (autoconnect avd_spec) eqn:Eauto)
       |]
      |]];
  cbv beta iota.

(** X2: creation returns a report only after the launch command has run
    and exited with 0.  The report is then the success report with the
    default ports, the launch command was run exactly once, nothing but
    the VNC client follows it, and the VNC client is started exactly when
    [autoconnect] is set. *)
Theorem create_returns_after_launch w avd_spec r :
  fst (run (_CreateAVD AddUserGroupsToCmd avd_spec) w) = Return r ->
  let tr := snd (run (_CreateAVD AddUserGroupsToCmd avd_spec) w) in
  r = created_report /\
  exists host_out before after,
    environ_get w _ENV_ANDROID_HOST_OUT = Some host_out /\
    returncode w (launch_cmd_for AddUserGroupsToCmd host_out avd_spec) = 0%Z /\
    tr = before ++
         CheckOutput (launch_cmd_for AddUserGroupsToCmd host_out avd_spec)
         :: after /\
    count is_launch before = 0 /\
    after = (if autoconnect avd_spec then [LaunchVNC] else []).
Proof.
  run_cases w avd_spec; cbn [fst snd app]; intros H; try discriminate;
    inv H; (split; [reflexivity|]);
    exists host_out;
    apply Z.eqb_eq in Elaunch;
    match goal with
    | |- exists before after,
          _ /\ _ /\ (?a :: ?b :: CheckOutput ?c :: ?rest) = _ /\ _ =>
        exists [a; b], rest
    | |- exists before after,
          _ /\ _ /\ (?a :: ?b :: ?c0 :: ?d :: CheckOutput ?c :: ?rest) = _ /\ _ =>
        exists [a; b; c0; d], rest
    end;
    repeat split; try exact Elaunch; rewrite ?Eauto; reflexivity.
Qed.

Ltac counts :=
  cbv [count filter is_launch is_stop is_vnc is_prompt List.length app fst snd].

(** X3: when the launch command exits with another status than 0 (nothing
    was running, or the user agreed to stop it and the stop command
    succeeded), creation raises [LaunchCVDFail].  The message carries the
    text of the process error and points to the launcher log; the launch
    command is the last thing that ran, and no VNC client is started. *)
Theorem launch_failure_raises w avd_spec host_out :
  verify_local_image w (local_image_dir avd_spec) = None ->
  environ_get w _ENV_ANDROID_HOST_OUT = Some host_out ->
  path_exists w (launch_cvd_path_in host_out) = true ->
  command_running w CMD_LAUNCH_CVD = false \/
  (answer_yes w _CONFIRM_RELAUNCH = true /\
   returncode w (stop_cmd_for AddUserGroupsToCmd host_out) = 0%Z) ->
  returncode w (launch_cmd_for AddUserGroupsToCmd host_out avd_spec) <> 0%Z ->
  let launch_cmd := launch_cmd_for AddUserGroupsToCmd host_out avd_spec in
  let tr := snd (run (_CreateAVD AddUserGroupsToCmd avd_spec) w) in
  fst (run (_CreateAVD AddUserGroupsToCmd avd_spec) w)
  = Raise (LaunchCVDFail (launch_fail_message (error_message w launch_cmd))) /\
  Contains (error_message w launch_cmd)
    (launch_fail_message (error_message w launch_cmd)) /\
  Contains (t "~/cuttlefish_runtime/launcher.log")
    (launch_fail_message (error_message w launch_cmd)) /\
  (exists before, tr = before ++ [CheckOutput launch_cmd]) /\
  count is_vnc tr = 0.
Proof.
  intros Hv He Hp Hrun Hrc launch_cmd.
  assert (Hlm : forall e,
             Contains e (launch_fail_message e) /\
             Contains (t "~/cuttlefish_runtime/launcher.log")
               (launch_fail_message e)).
  { intros e; split.
    - exists (t "Can't launch cuttlefish AVD."); eexists; reflexivity.
    - exists (t "Can't launch cuttlefish AVD." ++ e ++ t ". " ++
              newline :: t "For more detail: "), [].
      unfold launch_fail_message.
      repeat (rewrite <- app_assoc || rewrite <- app_comm_cons).
      reflexivity. }
  destruct (Hlm (error_message w launch_cmd)) as [Hc1 Hc2].
  apply Z.eqb_neq in Hrc.
  subst launch_cmd.
  cbv [run _CreateAVD GetImageArtifactsPath CheckLaunchCVD check_call
         PrintDisclaimer bind ask emit ret raise].
  rewrite Hv, He.
  fold (launch_cvd_path_in host_out).
  rewrite Hp; cbv beta iota delta [negb].
  fold (stop_cmd_for AddUserGroupsToCmd host_out)
       (launch_cmd_for AddUserGroupsToCmd host_out avd_spec).
  destruct Hrun as [Hr|[Hy Hs]].
  - rewrite Hr; cbv beta iota; rewrite Hrc; cbv beta iota zeta.
    cbn [fst snd app].
    split; [reflexivity|]; split; [exact Hc1|]; split; [exact Hc2|].
    split; [eexists [_; _]; reflexivity|reflexivity].
  - destruct (command_running w CMD_LAUNCH_CVD); cbv beta iota.
    + rewrite Hy; cbv beta iota; rewrite Hs; cbv beta iota.
      rewrite Hrc; cbv beta iota zeta.
      cbn [fst snd app].
      split; [reflexivity|]; split; [exact Hc1|]; split; [exact Hc2|].
      split; [eexists [_; _; _; _]; reflexivity|reflexivity].
    + rewrite Hrc; cbv beta iota zeta.
      cbn [fst snd app].
      split; [reflexivity|]; split; [exact Hc1|]; split; [exact Hc2|].
      split; [eexists [_; _]; reflexivity|reflexivity].
Qed.

(** X4: what creation does in every world.  It prints the disclaimer
    first; it runs the launch command at most once; it neither asks the
    user nor runs the stop command unless the launch command was found
    running; it runs the stop command only after the user said yes; and
    it starts the VNC client only when [autoconnect] is set and creation
    returns its report. *)
Theorem create_trace_discipline w avd_spec :
  let res := fst (run (_CreateAVD AddUserGroupsToCmd avd_spec) w) in
  let tr := snd (run (_CreateAVD AddUserGroupsToCmd avd_spec) w) in
  (exists rest, tr = disclaimer :: rest) /\
  count is_launch tr <= 1 /\
  (command_running w CMD_LAUNCH_CVD = false ->
   count is_prompt tr = 0 /\ count is_stop tr = 0) /\
  (count is_stop tr <> 0 ->
   command_running w CMD_LAUNCH_CVD = true /\
   answer_yes w _CONFIRM_RELAUNCH = true) /\
  (count is_vnc tr <> 0 ->
   autoconnect avd_spec = true /\ res = Return created_report).
Proof.
  run_cases w avd_spec; (split; [eexists; reflexivity|]); counts;
    repeat split; auto; try discriminate; try congruence; try lia.
Qed.

(** X5: with the image in place and [ANDROID_HOST_OUT] not set,
    [os.path.join] receives [None]: creation ends with an
    [AttributeError] right after the disclaimer, which is none of the
    errors for missing artifacts. *)
Theorem unset_host_out_raises w avd_spec :
  verify_local_image w (local_image_dir avd_spec) = None ->
  environ_get w _ENV_ANDROID_HOST_OUT = None ->
  run (_CreateAVD AddUserGroupsToCmd avd_spec) w
  = (Raise AttributeError, [disclaimer]) /\
  is_MissingArtifactsError AttributeError = false.
Proof.
  intros Hv He.
  cbv [run _CreateAVD GetImageArtifactsPath PrintDisclaimer bind ask emit
         ret raise].
  rewrite Hv, He; split; reflexivity.
Qed.

End WithUtils.
(** Nothing is running and every command exits with 0. *)
Lemma create_returns_after_launch_witness :
  let w := sample_world None true false false 0 in
  fst (run (_CreateAVD no_groups sample_spec) w) = Return created_report /\
  exists before,
    snd (run (_CreateAVD no_groups sample_spec) w)
    = before ++ [CheckOutput (launch_cmd_for no_groups (t "/out/host") sample_spec)] /\
    count is_launch before = 0.
Proof.
  split; [reflexivity|].
  destruct (@create_returns_after_launch no_groups
              (sample_world None true false false 0) sample_spec
              created_report eq_refl)
    as (_ & host_out & before & after & Hh & _ & Htr & Hc & Ha).
  injection Hh as <-.
  exists before; split; [|exact Hc].
  rewrite Htr, Ha; reflexivity.
Defined.

(** Nothing is running and the launch command exits with 1. *)
Lemma launch_failure_raises_witness :
  let w := sample_world None true false false 1 in
  fst (run (_CreateAVD no_groups sample_spec) w)
  = Raise (LaunchCVDFail (launch_fail_message [])) /\
  count is_vnc (snd (run (_CreateAVD no_groups sample_spec) w)) = 0.
Proof.
  destruct (@launch_failure_raises no_groups
              (sample_world None true false false 1) sample_spec
              (t "/out/host") eq_refl eq_refl eq_refl (or_introl eq_refl)
              ltac:(discriminate))
    as (Hr & _ & _ & _ & Hc).
  split; [exact Hr|exact Hc].
Defined.

(** The image is there, the variable is not. *)
Lemma unset_host_out_raises_witness :
  run (_CreateAVD no_groups sample_spec) sample_world_no_env
  = (Raise AttributeError, [disclaimer]).
Proof.
  exact (proj1 (@unset_host_out_raises no_groups
                  sample_world_no_env sample_spec eq_refl eq_refl)).
Defined.

End creation_facts.

(* ================================================================= *)
(** ** Building derivations, and the lines of a process listing *)

Module matcher_intro.

Import instance constants path_facts.

Lemma matches_star_one_intro c u : forall pos s g,
  forallb (accepts c) u = true ->
  matches (Star (One c)) pos (u ++ s) g (pos + len u) s g.
Proof.
  induction u as [|x u IH]; intros pos s g H; simpl in *.
  - rewrite Nat.add_0_r; apply M_Star_stop.
  - apply andb_prop in H; destruct H as [Hx Hu].
    eapply M_Star_step.
    + apply M_One; exact Hx.
    + simpl; lia.
    + replace (pos + S (len u)) with (S pos + len u) by lia.
      apply IH; exact Hu.
Qed.

Lemma matches_plus_one_intro c x u pos s g :
  forallb (accepts c) (x :: u) = true ->
  matches (Plus (One c)) pos ((x :: u) ++ s) g (pos + len (x :: u)) s g.
Proof.
  intros H; simpl in *; apply andb_prop in H; destruct H as [Hx Hu].
  eapply M_Plus.
  - apply M_One; exact Hx.
  - replace (pos + S (len u)) with (S pos + len u) by lia.
    apply matches_star_one_intro; exact Hu.
Qed.

Lemma matches_lit_intro l : forall pos s g,
  matches (Lit l) pos (l ++ s) g (pos + len l) s g.
Proof.
  induction l as [|x l IH]; intros pos s g; simpl.
  - rewrite Nat.add_0_r; apply M_Eps.
  - eapply M_Seq.
    + apply M_One; simpl; apply Ascii.eqb_refl.
    + replace (pos + S (len l)) with (S pos + len l) by lia; apply IH.
Qed.

Lemma matches_src_intro l : forall y pos s g,
  src_reads l y = true ->
  matches (Src l) pos (y ++ s) g (pos + len y) s g.
Proof.
  induction l as [|c l IH]; intros [|a y] pos s g H; simpl in *;
    try discriminate.
  - rewrite Nat.add_0_r; apply M_Eps.
  - apply andb_prop in H; destruct H as [Ha Hy].
    eapply M_Seq.
    + apply M_One. destruct (Ascii.eqb c "."); exact Ha.
    + replace (pos + S (len y)) with (S pos + len y) by lia.
      apply IH; exact Hy.
Qed.

Lemma matches_plus r pos s g p2 s2 g2 :
  matches (Plus r) pos s g p2 s2 g2 ->
  exists p1 s1 g1,
    matches r pos s g p1 s1 g1 /\ matches (Star r) p1 s1 g1 p2 s2 g2.
Proof.
  intros H; remember (Plus r) as e eqn:E.
  destruct H; try discriminate.
  injection E as ->; eauto.
Qed.


Lemma splitlines_from_in_line n : forall s cur line,
  len s <= n ->
  forallb in_line cur = true ->
  In line (splitlines_from cur s) ->
  forallb in_line line = true.
Proof.
  induction n as [|n IH]; intros s cur line Hn Hcur Hin.
  - destruct s; [|simpl in Hn; lia].
    simpl in Hin; destruct cur; [contradiction|].
    destruct Hin as [<-|[]].
    rewrite forallb_rev; exact Hcur.
  - destruct s as [|c s].
    + simpl in Hin; destruct cur; [contradiction|].
      destruct Hin as [<-|[]].
      rewrite forallb_rev; exact Hcur.
    + simpl in Hn, Hin.
      destruct (Ascii.eqb c newline) eqn:En.
      * destruct Hin as [<-|Hin].
        -- rewrite forallb_rev; exact Hcur.
        -- apply (IH s [] line); [lia|reflexivity|exact Hin].
      * destruct (Ascii.eqb c cr) eqn:Ec.
        -- destruct s as [|d s].
           ++ destruct Hin as [<-|[]].
              rewrite forallb_rev; exact Hcur.
           ++ destruct (Ascii.eqb d newline);
                (destruct Hin as [<-|Hin];
                 [rewrite forallb_rev; exact Hcur|]).
              ** apply (IH s [] line); [simpl in Hn; lia|reflexivity|exact Hin].
              ** apply (IH (d :: s) [] line); [lia|reflexivity|exact Hin].
        -- apply (IH s (c :: cur) line); [lia| |exact Hin].
           simpl; unfold in_line at 1; rewrite En, Ec; exact Hcur.
Qed.

End matcher_intro.

(* ================================================================= *)
(** ** When a local instance is found *)

Module local_facts.

Import instance constants matcher_intro.

Lemma splitlines_in_line out line :
  In line (splitlines out) -> forallb in_line line = true.
Proof.
  intros H.
  apply (@splitlines_from_in_line (len out) out [] line); auto.
Qed.

Lemma in_line_dot u : forallb in_line u = true -> forallb (accepts Dot) u = true.
Proof.
  induction u as [|c u IH]; simpl; auto.
  intros H; apply andb_prop in H; destruct H as [Hc Hu].
  unfold in_line in Hc; apply andb_prop in Hc; destruct Hc as [Hc _].
  rewrite Hc; auto.
Qed.

Lemma LocalInstance_scan_some ty lines :
  LocalInstance_scan ty lines <> None <->
  exists line, In line lines /\ re_match _RE_LAUNCH_CVD line <> None.
Proof.
  induction lines as [|l lines IH]; simpl.
  - split; [congruence|intros (? & [] & _)].
  - destruct (re_match _RE_LAUNCH_CVD l) eqn:E.
    + split; [|discriminate].
      intros _; exists l; split; [auto|congruence].
    + rewrite IH; split.
      * intros (line & Hin & Hm); eauto.
      * intros (line & [->|Hin] & Hm); [congruence|eauto].
Qed.

(** The lines on which the launch pattern matches. *)
Lemma launch_match_iff line :
  forallb (accepts Dot) line = true ->
  re_match _RE_LAUNCH_CVD line <> None <->
  exists c w rest, line = c :: w ++ launch_token ++ rest /\ c <> "/"%char.
Proof.
  intros Hline; split.
  - intros Hm.
    destruct (re_match _RE_LAUNCH_CVD line) as [m|] eqn:E; [clear Hm|congruence].
    unfold re_match in E; apply rmatch_sound in E.
    destruct E as (p1 & s1 & g1 & Hmatch & _).
    unfold _RE_LAUNCH_CVD in Hmatch.
    apply matches_seq in Hmatch; destruct Hmatch as (p & s & g & Hd & Hr).
    apply matches_seq in Hr; destruct Hr as (p' & s' & g' & Htok & _).
    apply matches_grp in Hd; destruct Hd as (u & g0 & -> & Hd & ->).
    apply matches_seq in Hd; destruct Hd as (pb & sb & gb & Hb & Hd).
    apply matches_plus_one in Hd.
    destruct Hd as (a & u' & Hd & Hnot & ->).
    assert (Hsb : sb = u ++ s) by (inv Hb; reflexivity).
    rewrite Hsb in Hd.
    rewrite app_comm_cons in Hd; apply app_inv_tail in Hd; subst u.
    apply matches_plus in Htok; destruct Htok as (p2 & s2 & g2 & Htok & _).
    apply matches_seq in Htok; destruct Htok as (p3 & s3 & g3 & Hx & Hl).
    apply matches_star_one in Hx; destruct Hx as (x & -> & _ & ->).
    apply matches_lit in Hl; destruct Hl as (-> & _).
    exists a, (u' ++ x), s2; split.
    + simpl; rewrite <- app_assoc; reflexivity.
    + simpl in Hnot; apply andb_prop in Hnot; destruct Hnot as [Ha _].
      intros ->; discriminate.
  - intros (c & w & rest & -> & Hc).
    simpl in Hline; apply andb_prop in Hline; destruct Hline as [_ Hline].
    rewrite forallb_app in Hline; apply andb_prop in Hline.
    destruct Hline as [Hw _].
    assert (M : matches _RE_LAUNCH_CVD 0 (c :: w ++ launch_token ++ rest) []
                  (1 + len w + len launch_token) rest
                  [("date_str"%string, [c])]).
    { unfold _RE_LAUNCH_CVD.
      eapply M_Seq.
      - apply (@M_Grp "date_str" _ 0 (c :: w ++ launch_token ++ rest) [] 1
                 (w ++ launch_token ++ rest) []).
        eapply M_Seq; [apply M_Bol|].
        eapply M_Plus; [|apply M_Star_stop].
        apply M_One; simpl.
        destruct (Ascii.eqb_spec c "/"); [contradiction|reflexivity].
      - eapply M_Seq.
        + eapply M_Plus; [|apply M_Star_stop].
          eapply M_Seq.
          * apply matches_star_one_intro; exact Hw.
          * apply matches_lit_intro.
        + repeat (eapply M_Seq; [apply M_Opt_skip|]); apply M_Opt_skip. }
    destruct (@rmatch_complete _ _ _ _ _ _ _ M (fun _ _ g => Some g) _ eq_refl)
      as (b & Hb).
    unfold re_match; rewrite Hb; discriminate.
Qed.

(** X6: when a local instance is found.  On a supported platform
    [LocalInstance] returns an instance exactly when some line of the
    process listing starts with a character other than a slash and
    contains the text [launch_cvd --daemon ] further on; on an unsupported
    platform it returns [None] whatever the listing. *)
Theorem local_instance_found_iff ty out :
  (LocalInstance ty true out <> None <->
   exists line c w rest,
     In line (splitlines out) /\
     line = c :: w ++ launch_token ++ rest /\ c <> "/"%char) /\
  LocalInstance ty false out = None.
Proof.
  split; [|reflexivity].
  unfold LocalInstance; simpl negb; cbv iota.
  rewrite LocalInstance_scan_some; split.
  - intros (line & Hin & Hm).
    apply launch_match_iff in Hm.
    + destruct Hm as (c & w & rest & E & Hc); exists line, c, w, rest; auto.
    + apply in_line_dot, (splitlines_in_line out); exact Hin.
  - intros (line & c & w & rest & Hin & E & Hc).
    exists line; split; [exact Hin|].
    apply launch_match_iff.
    + apply in_line_dot, (splitlines_in_line out); exact Hin.
    + eauto.
Qed.

End local_facts.

(* ================================================================= *)
(** ** What a discovered local instance holds *)

Module local_shape.

Import instance constants path_facts matcher_intro local_facts instance_print.

Lemma lstrip_split s :
  exists u, s = u ++ lstrip s /\ forallb is_space u = true /\
            stops Space (lstrip s).
Proof.
  induction s as [|c s IH]; simpl.
  - exists []; repeat split.
  - destruct (is_space c) eqn:E.
    + destruct IH as (u & E1 & E2 & E3).
      exists (c :: u); simpl; rewrite E; repeat split; auto.
      f_equal; exact E1.
    + exists []; repeat split; exact E.
Qed.

(** [strip] cuts whitespace, and only whitespace, from both ends. *)
Lemma strip_split s :
  exists a b,
    s = a ++ strip s ++ b /\
    forallb is_space a = true /\ forallb is_space b = true /\
    stops Space (strip s) /\ stops Space (rev (strip s)).
Proof.
  unfold strip.
  destruct (lstrip_split s) as (a & Ea & Ha & Hhead).
  destruct (lstrip_split (rev (lstrip s))) as (u & Eu & Hu & Hlast).
  set (R := lstrip (rev (lstrip s))) in *.
  assert (EL : lstrip s = rev R ++ rev u).
  { rewrite <- (rev_involutive (lstrip s)), Eu, rev_app_distr; reflexivity. }
  exists a, (rev u); repeat split.
  - rewrite <- EL; exact Ea.
  - exact Ha.
  - rewrite forallb_rev; exact Hu.
  - rewrite EL in Hhead.
    destruct (rev R) as [|x r]; simpl in *; auto.
  - rewrite rev_involutive; exact Hlast.
Qed.

Lemma matches_star_keeps r :
  (forall pos s g p1 s1 g1, matches r pos s g p1 s1 g1 -> g1 = g) ->
  forall pos s g p1 s1 g1, matches (Star r) pos s g p1 s1 g1 -> g1 = g.
Proof.
  intros Hr pos s g p1 s1 g1 H.
  remember (Star r) as e eqn:E.
  induction H; try discriminate.
  - reflexivity.
  - injection E as ->.
    apply Hr in H; subst g1.
    apply IHmatches2; reflexivity.
Qed.

Lemma matches_token_keeps token pos s g p1 s1 g1 :
  matches (Plus (Star (One Dot) >> Lit token)) pos s g p1 s1 g1 -> g1 = g.
Proof.
  assert (Hr : forall pos s g p1 s1 g1,
             matches (Star (One Dot) >> Lit token) pos s g p1 s1 g1 -> g1 = g).
  { clear; intros pos s g p1 s1 g1 H.
    apply matches_seq in H; destruct H as (p & s' & g' & H1 & H2).
    apply matches_star_one in H1; destruct H1 as (_ & _ & _ & ->).
    apply matches_lit in H2; destruct H2 as (_ & ->); reflexivity. }
  intros H; apply matches_plus in H; destruct H as (p & s' & g' & H1 & H2).
  apply Hr in H1; subst g'.
  apply (matches_star_keeps Hr) in H2; exact H2.
Qed.

Lemma matches_flag_clause flag grp pos s g p1 s1 g1 :
  matches (flag_clause flag grp) pos s g p1 s1 g1 ->
  exists v, value_ok v = true /\ g1 = bound grp v g.
Proof.
  intros H; apply matches_opt in H; destruct H as [[_ ->]|H].
  - exists None; split; reflexivity.
  - apply matches_seq in H; destruct H as (p & s' & g' & H1 & H2).
    apply matches_seq in H1; destruct H1 as (pa & sa & ga & Ha & H1).
    apply matches_seq in H1; destruct H1 as (pb & sb & gb & Hb & H1).
    apply matches_seq in H1; destruct H1 as (pc & sc & gc & Hc & Hd).
    apply matches_star_one in Ha; destruct Ha as (_ & _ & _ & ->).
    apply matches_star_one in Hb; destruct Hb as (_ & _ & _ & ->).
    apply matches_lit in Hc; destruct Hc as (_ & ->).
    apply matches_one in Hd; destruct Hd as (_ & _ & _ & ->).
    apply matches_grp in H2; destruct H2 as (u & g0 & -> & H2 & ->).
    apply matches_plus_one in H2; destruct H2 as (a & d & E & Hdig & ->).
    rewrite app_comm_cons in E; apply app_inv_tail in E; subst u.
    exists (Some (a :: d)); split; [exact Hdig|reflexivity].
Qed.

(** The bindings of a match of the launch pattern. *)
Lemma launch_groups line m :
  re_match _RE_LAUNCH_CVD line = Some m ->
  exists date rest cpu x_res y_res dpi memory disk,
    line = date ++ rest /\ date <> [] /\
    forallb (accepts (NotChr "/")) date = true /\
    value_ok cpu = true /\ value_ok x_res = true /\ value_ok y_res = true /\
    value_ok dpi = true /\ value_ok memory = true /\ value_ok disk = true /\
    m = bound "disk" disk
          (bound "memory" memory
             (bound "dpi" dpi
                (bound "y_res" y_res
                   (bound "x_res" x_res
                      (bound "cpu" cpu [("date_str"%string, date)]))))).
Proof.
  intros E; unfold re_match in E; apply rmatch_sound in E.
  destruct E as (p1 & s1 & g1 & H & E); injection E as <-.
  unfold _RE_LAUNCH_CVD in H.
  apply matches_seq in H; destruct H as (p & s & g & Hd & H).
  apply matches_grp in Hd; destruct Hd as (u & g0 & -> & Hd & ->).
  apply matches_seq in Hd; destruct Hd as (pb & sb & gb & Hb & Hd).
  apply matches_plus_one in Hd; destruct Hd as (a & u' & Hd & Hnot & ->).
  assert (Hsb : sb = u ++ s /\ gb = []) by (inv Hb; auto).
  destruct Hsb as [Hsb ->]; rewrite Hsb in Hd.
  rewrite app_comm_cons in Hd; apply app_inv_tail in Hd; subst u.
  apply matches_seq in H; destruct H as (p2 & s2 & g2 & Htok & H).
  apply matches_token_keeps in Htok; subst g2.
  apply matches_seq in H; destruct H as (p3 & s3 & g3 & H3 & H).
  apply matches_flag_clause in H3; destruct H3 as (cpu & Hcpu & ->).
  apply matches_seq in H; destruct H as (p4 & s4 & g4 & H4 & H).
  apply matches_flag_clause in H4; destruct H4 as (x_res & Hx & ->).
  apply matches_seq in H; destruct H as (p5 & s5 & g5 & H5 & H).
  apply matches_flag_clause in H5; destruct H5 as (y_res & Hy & ->).
  apply matches_seq in H; destruct H as (p6 & s6 & g6 & H6 & H).
  apply matches_flag_clause in H6; destruct H6 as (dpi & Hdpi & ->).
  apply matches_seq in H; destruct H as (p7 & s7 & g7 & H7 & H).
  apply matches_flag_clause in H7; destruct H7 as (memory & Hmem & ->).
  apply matches_flag_clause in H; destruct H as (disk & Hdisk & ->).
  exists (a :: u'), s, cpu, x_res, y_res, dpi, memory, disk.
  repeat split; auto; discriminate.
Qed.

Lemma LocalInstance_scan_found ty lines i :
  LocalInstance_scan ty lines = Some i ->
  exists line m,
    In line lines /\ re_match _RE_LAUNCH_CVD line = Some m /\
    i = local_instance_of_match ty m.
Proof.
  induction lines as [|l lines IH]; simpl; [discriminate|].
  destruct (re_match _RE_LAUNCH_CVD l) as [m|] eqn:E.
  - intros H; injection H as <-; exists l, m; auto.
  - intros H; destruct (IH H) as (line & m & Hin & Hm & Hi).
    exists line, m; auto.
Qed.

Lemma forallb_part {A} (f : A -> bool) a s b :
  forallb f (a ++ s ++ b) = true -> forallb f s = true.
Proof.
  rewrite !forallb_app; intros H.
  apply andb_prop in H; destruct H as [_ H].
  apply andb_prop in H; tauto.
Qed.

(** Every local instance that is found, field by field. *)
Lemma LocalInstance_fields ty supported out i :
  LocalInstance ty supported out = Some i ->
  exists line date rest x_res y_res dpi,
    In line (splitlines out) /\ line = date ++ rest /\
    date <> [] /\ forallb (accepts (NotChr "/")) date = true /\
    value_ok x_res = true /\ value_ok y_res = true /\ value_ok dpi = true /\
    i = {| _name := Some LOCAL_INS_NAME;
           _fullname := Some (t "device serial: 127.0.0.1:6520 (local-instance)");
           _status := Some INS_STATUS_RUNNING;
           _display := Some (fmt_s x_res ++ t "x" ++ fmt_s y_res ++
                             t " (" ++ fmt_s dpi ++ t ")");
           _ip := Some (t "127.0.0.1");
           _adb_port := Some DEFAULT_ADB_PORT;
           _vnc_port := Some DEFAULT_VNC_PORT;
           _ssh_tunnel_is_connected := Some true;
           _createtime := Some (strip date);
           _avd_type := Some ty;
           _avd_flavor := None;
           _is_local := Some true |}.
Proof.
  unfold LocalInstance; destruct supported; simpl negb; cbv iota;
    [|discriminate].
  intros H; apply LocalInstance_scan_found in H.
  destruct H as (line & m & Hin & Hm & ->).
  apply launch_groups in Hm.
  destruct Hm as (date & rest & cpu & x_res & y_res & dpi & memory & disk &
                  El & Hne & Hdate & _ & Hx & Hy & Hdpi & _ & _ & ->).
  exists line, date, rest, x_res, y_res, dpi.
  repeat (split; [assumption|]).
  destruct cpu, x_res, y_res, dpi, memory, disk; reflexivity.
Qed.

(** X7: what a found local instance holds.  The platform is supported;
    name, full name, address, status, type and locality are fixed; the
    display is [<x>x<y> (<dpi>)] where each part is a non-empty run of
    digits or the text [None]; the creation time is cut out of the head of
    a line of the listing, contains no slash and neither starts nor ends
    with white space. *)
Theorem local_instance_shape ty supported out i :
  LocalInstance ty supported out = Some i ->
  supported = true /\
  _name i = Some LOCAL_INS_NAME /\
  _fullname i = Some (t "device serial: 127.0.0.1:6520 (local-instance)") /\
  _ip i = Some (t "127.0.0.1") /\
  _status i = Some INS_STATUS_RUNNING /\
  _avd_type i = Some ty /\ _avd_flavor i = None /\ _is_local i = Some true /\
  (exists x_res y_res dpi,
     _display i = Some (fmt_s x_res ++ t "x" ++ fmt_s y_res ++
                        t " (" ++ fmt_s dpi ++ t ")") /\
     value_ok x_res = true /\ value_ok y_res = true /\ value_ok dpi = true) /\
  (exists line before createtime after,
     In line (splitlines out) /\
     line = before ++ createtime ++ after /\
     _createtime i = Some createtime /\
     forallb is_space before = true /\
     forallb (accepts (NotChr "/")) createtime = true /\
     stops Space createtime /\ stops Space (rev createtime)).
Proof.
  intros H.
  assert (Hs : supported = true) by (destruct supported; [auto|discriminate]).
  apply LocalInstance_fields in H.
  destruct H as (line & date & rest & x_res & y_res & dpi & Hin & El & Hne &
                 Hdate & Hx & Hy & Hdpi & ->).
  cbn [_name _fullname _ip _status _avd_type _avd_flavor _is_local _display
         _createtime].
  repeat (split; [reflexivity || assumption|]).
  split.
  - exists x_res, y_res, dpi; auto.
  - destruct (strip_split date) as (a & b & Ed & Ha & Hb & Hhead & Hlast).
    exists line, a, (strip date), (b ++ rest).
    repeat split; auto.
    + rewrite El, Ed at 1. rewrite <- !app_assoc; reflexivity.
    + rewrite Ed in Hdate; apply forallb_part in Hdate; exact Hdate.
Qed.

(** X8: the summary of a found local instance has eight lines, of which
    only the creation time, the type and the display vary; its last line
    is the serial of the default ADB port.  [repr] of the instance is its
    full name. *)
Theorem local_instance_summary ty supported out i :
  LocalInstance ty supported out = Some i ->
  Summary i =
  t " name: local-instance" ++ newline ::
  t "    IP: 127.0.0.1" ++ newline ::
  t "    create time: " ++ fmt_s (_createtime i) ++ newline ::
  t "    status: RUNNING" ++ newline ::
  t "    avd type: " ++ ty ++ newline ::
  t "    display: " ++ fmt_s (_display i) ++ newline ::
  t "    vnc: 127.0.0.1:6444" ++ newline ::
  t "    adb serial: 127.0.0.1:6520" /\
  repr i = Ok (t "device serial: 127.0.0.1:6520 (local-instance)").
Proof.
  intros H; apply LocalInstance_fields in H.
  destruct H as (line & date & rest & x_res & y_res & dpi & _ & _ & _ &
                 _ & _ & _ & _ & ->).
  split; [|reflexivity].
  unfold Summary; cbn [_name _ip _createtime _status _avd_type _display
                         _vnc_port _adb_port fmt_s fmt_s_int truthy_int].
  rewrite fmt_d_vnc, fmt_d_adb.
  change (negb (DEFAULT_ADB_PORT =? 0)%Z) with true; cbv iota.
  cbn [app join repeat].
  repeat (rewrite <- app_assoc || rewrite <- app_comm_cons).
  reflexivity.
Qed.

(** The process table of a host on which creation has run. *)
Lemma local_instance_shape_witness :
  exists i,
    LocalInstance (t "cuttlefish") true
      (ps_output [ps_header; ps_line_launch "Mon Jan  1 00:00:00 2024"])
    = Some i /\
    _createtime i = Some (t "Mon Jan  1 00:00:00 2024") /\
    (exists x_res y_res dpi,
       _display i = Some (fmt_s x_res ++ t "x" ++ fmt_s y_res ++
                          t " (" ++ fmt_s dpi ++ t ")") /\
       value_ok x_res = true /\ value_ok y_res = true /\ value_ok dpi = true).
Proof.
  eexists; split; [vm_compute; reflexivity|].
  split; [reflexivity|].
  refine (proj1 (proj2 (proj2 (proj2 (proj2 (proj2 (proj2 (proj2 (proj2
            (@local_instance_shape (t "cuttlefish") true
               (ps_output [ps_header; ps_line_launch "Mon Jan  1 00:00:00 2024"])
               _ _)))))))))).
  vm_compute; reflexivity.
Defined.

(** The summary of the instance found in that process table. *)
Lemma local_instance_summary_witness :
  exists i,
    LocalInstance (t "cuttlefish") true
      (ps_output [ps_header; ps_line_launch "Mon Jan  1 00:00:00 2024"])
    = Some i /\
    Summary i =
    t " name: local-instance" ++ newline ::
    t "    IP: 127.0.0.1" ++ newline ::
    t "    create time: Mon Jan  1 00:00:00 2024" ++ newline ::
    t "    status: RUNNING" ++ newline ::
    t "    avd type: cuttlefish" ++ newline ::
    t "    display: 720x1280 (320)" ++ newline ::
    t "    vnc: 127.0.0.1:6444" ++ newline ::
    t "    adb serial: 127.0.0.1:6520".
Proof.
  eexists; split; [vm_compute; reflexivity|].
  refine (proj1 (@local_instance_summary (t "cuttlefish") true
                   (ps_output [ps_header;
                               ps_line_launch "Mon Jan  1 00:00:00 2024"])
                   _ _)).
  vm_compute; reflexivity.
Defined.

End local_shape.

(* ================================================================= *)
(** ** Construction of a remote instance *)

Module remote_facts.

Import instance constants instance_print matcher_intro local_facts.

Lemma text_eqb_eq a : forall b, text_eqb a b = true <-> a = b.
Proof.
  induction a as [|x a IH]; intros [|y b]; simpl; split; intros H;
    try discriminate; auto.
  - apply andb_prop in H; destruct H as [Hx Hb].
    apply Ascii.eqb_eq in Hx; apply IH in Hb; congruence.
  - injection H as -> ->.
    rewrite Ascii.eqb_refl; simpl; apply IH; reflexivity.
Qed.

Lemma text_eqb_neq a b : a <> b -> text_eqb a b = false.
Proof.
  intros H; destruct (text_eqb a b) eqn:E; auto.
  apply text_eqb_eq in E; contradiction.
Qed.

Lemma scan_interfaces_raises nis : forall ip,
  scan_interfaces ip nis = TypeError _ <->
  exists ni, In ni nis /\ accessConfigs ni = None.
Proof.
  induction nis as [|ni nis IH]; intros ip; simpl.
  - split; [discriminate|intros (? & [] & _)].
  - destruct (accessConfigs ni) as [cfgs|] eqn:E.
    + rewrite IH; split.
      * intros (x & Hin & Hx); eauto.
      * intros (x & [<-|Hin] & Hx); [congruence|eauto].
    + split; [|reflexivity].
      intros _; exists ni; auto.
Qed.

Lemma RemoteInstance_raises kd kt kf out gce :
  RemoteInstance kd kt kf out gce = TypeError _ <->
  extract_ip gce = TypeError _.
Proof.
  unfold RemoteInstance, _ProcessGceInstance.
  destruct (extract_ip gce); split; intros H; try discriminate; reflexivity.
Qed.

(** X9: a description without [networkInterfaces], or with an interface
    that has no [accessConfigs], makes the construction of a remote
    instance raise [TypeError], whatever the process listing, the metadata
    and the keys: the address loop runs before anything else that can
    raise.  These are the only cases in which the address loop itself
    raises. *)
Theorem missing_configs_raise_type_error gce :
  let missing :=
    networkInterfaces gce = None \/
    exists nis ni,
      networkInterfaces gce = Some nis /\ In ni nis /\ accessConfigs ni = None in
  (missing ->
   forall kd kt kf out, RemoteInstance kd kt kf out gce = TypeError _) /\
  (extract_ip gce = TypeError _ <-> missing).
Proof.
  assert (H : extract_ip gce = TypeError _ <->
              networkInterfaces gce = None \/
              exists nis ni,
                networkInterfaces gce = Some nis /\ In ni nis /\
                accessConfigs ni = None).
  { unfold extract_ip.
    destruct (networkInterfaces gce) as [nis|].
    - rewrite scan_interfaces_raises; split.
      + intros (ni & Hin & Hni); right; exists nis, ni; auto.
      + intros [H|(nis' & ni & E & Hin & Hni)]; [discriminate|].
        injection E as <-; eauto.
    - split; auto. }
  cbv zeta; split; [|exact H].
  intros Hm kd kt kf out.
  apply RemoteInstance_raises, H, Hm.
Qed.

Section Metadata.

Variables INS_KEY_DISPLAY INS_KEY_AVD_TYPE INS_KEY_AVD_FLAVOR : text.

Let set_md := set_metadata INS_KEY_DISPLAY INS_KEY_AVD_TYPE INS_KEY_AVD_FLAVOR.

(** The field written by the items whose key passes [hit] holds the value
    of the last such item. *)
Lemma metadata_loop_last (get : Instance -> option text) (hit : text -> bool) :
  (forall self k v, hit k = true -> get (set_md self (k, v)) = Some v) ->
  (forall self k v, hit k = false -> get (set_md self (k, v)) = get self) ->
  forall items self,
    (forall pre k v post,
        items = pre ++ (k, v) :: post -> hit k = true ->
        (forall k' v', In (k', v') post -> hit k' = false) ->
        get (fold_left set_md items self) = Some v) /\
    ((forall k v, In (k, v) items -> hit k = false) ->
     get (fold_left set_md items self) = get self).
Proof.
  intros Hhit Hmiss.
  induction items as [|[k0 v0] items IH]; intros self.
  - split; [|reflexivity].
    intros [|? ?] k v post E; discriminate.
  - destruct (IH (set_md self (k0, v0))) as [IH1 IH2].
    split.
    + intros [|[k1 v1] pre] k v post E Hk Hpost; simpl in E.
      * injection E as -> -> ->.
        cbn [fold_left]; rewrite IH2 by exact Hpost.
        apply Hhit; exact Hk.
      * injection E as -> -> ->.
        cbn [fold_left]; apply (IH1 pre k v post); auto.
    + intros Hnone; cbn [fold_left].
      rewrite IH2.
      * apply Hmiss, (Hnone k0 v0); simpl; auto.
      * intros k v Hin; apply (Hnone k v); simpl; auto.
Qed.

(** A list of items has a last item whose key passes [hit], or none. *)
Lemma last_hit (hit : text -> bool) (items : list (text * text)) :
  (forall k v, In (k, v) items -> hit k = false) \/
  exists pre k v post,
    items = pre ++ (k, v) :: post /\ hit k = true /\
    forall k' v', In (k', v') post -> hit k' = false.
Proof.
  induction items as [|[k0 v0] items IH].
  - left; intros k v [].
  - destruct IH as [Hnone|(pre & k & v & post & -> & Hk & Hpost)].
    + destruct (hit k0) eqn:E.
      * right; exists [], k0, v0, items; auto.
      * left; intros k v [H|H]; [congruence|eauto].
    + right; exists ((k0, v0) :: pre), k, v, post; auto.
Qed.

Lemma metadata_field (get : Instance -> option text) (hit : text -> bool)
    items self :
  (forall self k v, hit k = true -> get (set_md self (k, v)) = Some v) ->
  (forall self k v, hit k = false -> get (set_md self (k, v)) = get self) ->
  get self = None ->
  forall v,
    get (fold_left set_md items self) = Some v <->
    exists pre k post,
      items = pre ++ (k, v) :: post /\ hit k = true /\
      forall k' v', In (k', v') post -> hit k' = false.
Proof.
  intros Hhit Hmiss Hinit v.
  destruct (metadata_loop_last get hit Hhit Hmiss items self) as [H1 H2].
  split.
  - intros Hv.
    destruct (last_hit hit items) as [Hnone|(pre & k & v' & post & E & Hk & Hpost)].
    + rewrite H2, Hinit in Hv by exact Hnone; discriminate.
    + rewrite (H1 pre k v' post E Hk Hpost) in Hv.
      injection Hv as ->; exists pre, k, post; auto.
  - intros (pre & k & post & E & Hk & Hpost); eauto.
Qed.

End Metadata.

(** The instance before the metadata is read. *)
Lemma RemoteInstance_unfold kd kt kf out gce i :
  RemoteInstance kd kt kf out gce = Ok i ->
  exists ip,
    extract_ip gce = Ok ip /\
    i = set_is_local (Some false)
          (fold_left (set_metadata kd kt kf) (metadata_items gce)
             (find_tunnel out ip
                (set_status (gce_status gce)
                   (set_createtime (gce_creationTimestamp gce)
                      (set_name (gce_name gce) Instance__init__))))).
Proof.
  unfold RemoteInstance, _ProcessGceInstance.
  destruct (extract_ip gce) as [ip|]; [|discriminate].
  intros H; injection H as <-; exists ip; auto.
Qed.

Lemma find_tunnel_keeps out ip self :
  let self' := find_tunnel out ip self in
  _name self' = _name self /\ _createtime self' = _createtime self /\
  _status self' = _status self /\ _display self' = _display self /\
  _avd_type self' = _avd_type self /\ _avd_flavor self' = _avd_flavor self.
Proof.
  unfold find_tunnel; destruct (truthy_str ip); [|repeat split].
  cbv zeta; destruct (truthy_int _); repeat split.
Qed.

Lemma metadata_loop_untouched kd kt kf (get : Instance -> option text) :
  (forall self item, get (set_metadata kd kt kf self item) = get self) ->
  forall items self,
    get (fold_left (set_metadata kd kt kf) items self) = get self.
Proof.
  intros H; induction items as [|item items IH]; intros self; simpl; auto.
  rewrite IH; apply H.
Qed.

Ltac by_key :=
  intros self [k v]; unfold set_metadata;
  repeat match goal with
  | |- context [text_eqb ?a ?b] => destruct (text_eqb a b)
  end; reflexivity.

(** From the test of a key to the key itself. *)
Lemma last_of_key (hit : text -> bool) key (items : list (text * text)) v :
  (forall k, hit k = true <-> k = key) ->
  (exists pre k post,
      items = pre ++ (k, v) :: post /\ hit k = true /\
      forall k' v', In (k', v') post -> hit k' = false) <->
  (exists pre post,
      items = pre ++ (key, v) :: post /\ forall v', ~ In (key, v') post).
Proof.
  intros Hkey; split.
  - intros (pre & k & post & E & Hk & Hpost).
    apply Hkey in Hk; subst k.
    exists pre, post; split; [exact E|].
    intros v' Hin; apply Hpost in Hin.
    assert (hit key = true) by (apply Hkey; reflexivity); congruence.
  - intros (pre & post & E & Hpost).
    exists pre, key, post; split; [exact E|]; split; [apply Hkey; reflexivity|].
    intros k' v' Hin.
    destruct (hit k') eqn:Ek; [|reflexivity].
    apply Hkey in Ek; subst k'; exfalso; exact (Hpost v' Hin).
Qed.

(** X10: name, creation time and status of a remote instance are copied
    from the description, and the instance is not local.  The display is
    the value of the last metadata item under the display key, and absent
    without such an item; likewise the type and the flavor, as long as
    their keys differ from the keys tested before them. *)
Theorem remote_metadata_last_wins kd kt kf out gce i :
  RemoteInstance kd kt kf out gce = Ok i ->
  _name i = gce_name gce /\
  _createtime i = gce_creationTimestamp gce /\
  _status i = gce_status gce /\
  _is_local i = Some false /\
  (forall v,
      _display i = Some v <->
      exists pre post,
        metadata_items gce = pre ++ (kd, v) :: post /\
        forall v', ~ In (kd, v') post) /\
  (kt <> kd ->
   forall v,
     _avd_type i = Some v <->
     exists pre post,
       metadata_items gce = pre ++ (kt, v) :: post /\
       forall v', ~ In (kt, v') post) /\
  (kf <> kd -> kf <> kt ->
   forall v,
     _avd_flavor i = Some v <->
     exists pre post,
       metadata_items gce = pre ++ (kf, v) :: post /\
       forall v', ~ In (kf, v') post).
Proof.
  intros H; apply RemoteInstance_unfold in H; destruct H as (ip & _ & ->).
  set (base := set_status _ _).
  destruct (find_tunnel_keeps out ip base) as (En & Ec & Es & Ed & Et & Ef).
  cbv zeta in *.
  cbn [_name _createtime _status _is_local _display _avd_type _avd_flavor
         set_is_local].
  split.
  { rewrite (metadata_loop_untouched kd kt kf _name) by by_key; exact En. }
  split.
  { rewrite (metadata_loop_untouched kd kt kf _createtime) by by_key; exact Ec. }
  split.
  { rewrite (metadata_loop_untouched kd kt kf _status) by by_key; exact Es. }
  split; [reflexivity|].
  split; [|split].
  - intros v.
    rewrite (@metadata_field kd kt kf _display (fun k => text_eqb k kd)).
    + apply last_of_key; intros k; apply text_eqb_eq.
    + intros self k v0 Hk; unfold set_metadata; rewrite Hk; reflexivity.
    + intros self k v0 Hk; unfold set_metadata; rewrite Hk.
      repeat match goal with
      | |- context [text_eqb ?a ?b] => destruct (text_eqb a b)
      end; reflexivity.
    + rewrite Ed; reflexivity.
  - intros Htd v.
    rewrite (@metadata_field kd kt kf _avd_type
               (fun k => negb (text_eqb k kd) && text_eqb k kt)).
    + apply last_of_key; intros k; split.
      * intros Hk; apply andb_prop in Hk; destruct Hk as [_ Hk].
        apply text_eqb_eq; exact Hk.
      * intros ->; rewrite (text_eqb_neq Htd).
        simpl; apply text_eqb_eq; reflexivity.
    + intros self k v0 Hk; apply andb_prop in Hk; destruct Hk as [Hk1 Hk2].
      apply negb_true_iff in Hk1.
      unfold set_metadata; rewrite Hk1, Hk2; reflexivity.
    + intros self k v0 Hk; unfold set_metadata.
      destruct (text_eqb k kd); [reflexivity|].
      simpl in Hk; rewrite Hk.
      destruct (text_eqb k kf); reflexivity.
    + rewrite Et; reflexivity.
  - intros Hfd Hft v.
    rewrite (@metadata_field kd kt kf _avd_flavor
               (fun k => negb (text_eqb k kd) && negb (text_eqb k kt) &&
                         text_eqb k kf)).
    + apply last_of_key; intros k; split.
      * intros Hk; apply andb_prop in Hk; destruct Hk as [_ Hk].
        apply text_eqb_eq; exact Hk.
      * intros ->; rewrite (text_eqb_neq Hfd), (text_eqb_neq Hft).
        simpl; apply text_eqb_eq; reflexivity.
    + intros self k v0 Hk; apply andb_prop in Hk; destruct Hk as [Hk Hk3].
      apply andb_prop in Hk; destruct Hk as [Hk1 Hk2].
      apply negb_true_iff in Hk1, Hk2.
      unfold set_metadata; rewrite Hk1, Hk2, Hk3; reflexivity.
    + intros self k v0 Hk; unfold set_metadata.
      destruct (text_eqb k kd); [reflexivity|].
      destruct (text_eqb k kt); [reflexivity|].
      simpl in Hk; rewrite Hk; reflexivity.
    + rewrite Ef; reflexivity.
Qed.

(** The last line of a summary. *)
Lemma Summary_last self :
  exists head,
    Summary self =
    head ++ newline :: t "    adb serial: " ++
    (if truthy_int (_adb_port self)
     then t "127.0.0.1:" ++ fmt_s_int (_adb_port self)
     else t "disconnected").
Proof.
  exists (join [newline]
            [t " name: " ++ fmt_s (_name self);
             t "    IP: " ++ fmt_s (_ip self);
             t "    create time: " ++ fmt_s (_createtime self);
             t "    status: " ++ fmt_s (_status self);
             t "    avd type: " ++ fmt_s (_avd_type self);
             t "    display: " ++ fmt_s (_display self);
             t "    vnc: 127.0.0.1:" ++ fmt_s_int (_vnc_port self)]).
  unfold Summary; destruct (truthy_int (_adb_port self));
    cbn [join app repeat];
    repeat (rewrite <- app_assoc || rewrite <- app_comm_cons);
    reflexivity.
Qed.

(** X11: the last line of the summary of a remote instance shows the
    serial [127.0.0.1:<adb port>] exactly when the instance counts as
    connected, and [disconnected] otherwise.  [repr] of the instance
    raises [TypeError] exactly when the instance has no address, since
    its full name is then [None]. *)
Theorem remote_summary_follows_connection kd kt kf out gce i :
  RemoteInstance kd kt kf out gce = Ok i ->
  (exists head,
     Summary i =
     head ++ newline :: t "    adb serial: " ++
     match _ssh_tunnel_is_connected i with
     | Some true => t "127.0.0.1:" ++ fmt_d (the 0%Z (_adb_port i))
     | _ => t "disconnected"
     end) /\
  (repr i = TypeError _ <-> _ip i = None).
Proof.
  intros H.
  assert (Hraise : extract_ip gce <> TypeError _).
  { intros E; apply (RemoteInstance_raises kd kt kf out) in E; congruence. }
  destruct (extract_ip gce) as [ip|] eqn:Eip; [clear Hraise|congruence].
  destruct (@RemoteInstance_connection kd kt kf out gce ip Eip)
    as (i' & Hi' & Hconn).
  rewrite H in Hi'; injection Hi' as <-.
  cbv zeta in Hconn.
  destruct (Summary_last i) as (head & Es).
  unfold repr, __repr__.
  destruct (truthy_str ip) eqn:Et.
  - destruct Hconn as (Hip & Ha & Hv & Hconn).
    rewrite <- Ha in Hconn.
    destruct (truthy_int (_adb_port i)) eqn:Ea;
      destruct Hconn as [Hc Hf]; rewrite Hc, Hf.
    + split.
      * exists head; rewrite Es.
        destruct (_adb_port i); [reflexivity|discriminate].
      * rewrite Hip; destruct ip; [|discriminate].
        split; discriminate.
    + split; [exists head; exact Es|].
      rewrite Hip; destruct ip; [|discriminate].
      split; discriminate.
  - destruct Hconn as (Hip & Ha & Hv & Hc & Hf).
    rewrite Hc, Hf; split; [|tauto].
    exists head; rewrite Es, Ha; reflexivity.
Qed.

Lemma int_of_digits_from_nonneg d : forall acc,
  (0 <= acc)%Z -> forallb is_digit d = true ->
  (0 <= fold_left
          (fun acc c => (10 * acc + (Z.of_nat (nat_of_ascii c) - 48))%Z) d acc)%Z.
Proof.
  induction d as [|c d IH]; intros acc Hacc Hd; cbn [fold_left forallb] in *;
    [exact Hacc|].
  apply andb_prop in Hd; destruct Hd as [Hc Hd].
  apply IH; [|exact Hd].
  unfold is_digit in Hc; apply andb_prop in Hc; destruct Hc as [Hlo _].
  apply Nat.leb_le in Hlo; lia.
Qed.

Lemma int_of_digits_nonneg d :
  forallb is_digit d = true -> (0 <= int_of_digits d)%Z.
Proof. apply int_of_digits_from_nonneg; lia. Qed.

Lemma first_tunnel_found re_pattern lines :
  first_tunnel re_pattern lines = mkForwardedPorts None None \/
  exists line m,
    In line lines /\ re_match re_pattern line = Some m /\
    first_tunnel re_pattern lines =
    mkForwardedPorts (option_map int_of_digits (group m _RE_GROUP_VNC))
                     (option_map int_of_digits (group m _RE_GROUP_ADB)).
Proof.
  induction lines as [|l lines IH]; simpl; auto.
  destruct (re_match re_pattern l) as [m|] eqn:E.
  - right; exists l, m; auto.
  - destruct IH as [IH|(line & m & Hin & Hm & IH)]; auto.
    right; exists line, m; auto.
Qed.

(** The line behind a match of the tunnel pattern. *)
Lemma tunnel_match_line ip line m :
  re_match (tunnel_pattern ip) line = Some m ->
  exists pre sp1 v c1 c2 c3 mid sp2 a e1 e2 e3 post y rest,
    line =
      pre ++ t "-L" ++ sp1 :: v ++
      (t ":127" ++ c1 :: "0"%char :: c2 :: "0"%char :: c3 :: t "1:") ++
      t "6444" ++
      mid ++ t "-L" ++ sp2 :: a ++
      (t ":127" ++ e1 :: "0"%char :: e2 :: "0"%char :: e3 :: t "1:") ++
      t "6520" ++
      post ++ y ++ rest /\
    v <> [] /\ forallb is_digit v = true /\
    a <> [] /\ forallb is_digit a = true /\
    post <> [] /\ src_reads ip y = true /\
    m = [(_RE_GROUP_ADB, a); (_RE_GROUP_VNC, v)].
Proof.
  unfold re_match; intros H.
  apply rmatch_sound in H.
  destruct H as (p1 & s1 & g1 & Hm & H).
  injection H as <-.
  unfold tunnel_pattern, _RE_SSH_TUNNEL_PATTERN in Hm.
  apply matches_seq in Hm; destruct Hm as (pa & sa & ga & Ha & Hm).
  apply matches_seq in Hm; destruct Hm as (pb & sb & gb & Hb & Hm).
  apply matches_forward_clause in Ha, Hb.
  destruct Ha as (x1 & sp1 & d1 & y1 & z1 & E1 & Hd1 & Hdig1 & Hy1 & Hz1 & ->).
  destruct Hb as (x2 & sp2 & d2 & y2 & z2 & E2 & Hd2 & Hdig2 & Hy2 & Hz2 & ->).
  rewrite fmt_d_vnc in Hz1; rewrite fmt_d_adb in Hz2.
  destruct (@src_reads_loopback y1 z1 (t "6444") sa Hy1 Hz1
              (@no_dot_in_port (t "6444") eq_refl)) as (c1 & c2 & c3 & Ey1).
  destruct (@src_reads_loopback y2 z2 (t "6520") sb Hy2 Hz2
              (@no_dot_in_port (t "6520") eq_refl)) as (e1 & e2 & e3 & Ey2).
  apply matches_seq in Hm; destruct Hm as (pc & sc & gc & Hp & Hs).
  apply matches_plus_one in Hp; destruct Hp as (q & u & Eb & _ & ->).
  apply matches_src in Hs; destruct Hs as (y & Ec & Hy & ->).
  exists x1, sp1, d1, c1, c2, c3, x2, sp2, d2, e1, e2, e3, (q :: u), y, s1.
  repeat split; auto; [|discriminate].
  rewrite E1, Ey1, E2, Ey2, Eb, Ec.
  repeat (rewrite <- app_assoc || rewrite <- app_comm_cons).
  reflexivity.
Qed.

(** X12: where forwarded ports come from.  For an address of letters,
    digits, [:], [-], [_] and [.], the tunnel lookup returns no
    ports at all, or both ports, read from one line of the listing: that
    line holds [-L], a run of digits and the loopback clause of port 6444,
    later [-L], a run of digits and the loopback clause of port 6520,
    then at least one character and a text read by the address pattern.
    The ports are the values of the two runs of digits, hence never
    negative. *)
Theorem tunnel_ports_source out ip :
  src_plain ip = true ->
  let fp := GetAdbVncPortFromSSHTunnel out ip in
  fp = mkForwardedPorts None None \/
  exists line pre sp1 v c1 c2 c3 mid sp2 a e1 e2 e3 post y rest,
    In line (splitlines out) /\
    line =
      pre ++ t "-L" ++ sp1 :: v ++
      (t ":127" ++ c1 :: "0"%char :: c2 :: "0"%char :: c3 :: t "1:") ++
      t "6444" ++
      mid ++ t "-L" ++ sp2 :: a ++
      (t ":127" ++ e1 :: "0"%char :: e2 :: "0"%char :: e3 :: t "1:") ++
      t "6520" ++
      post ++ y ++ rest /\
    v <> [] /\ forallb is_digit v = true /\
    a <> [] /\ forallb is_digit a = true /\
    post <> [] /\ src_reads ip y = true /\
    fp = mkForwardedPorts (Some (int_of_digits v)) (Some (int_of_digits a)) /\
    (0 <= int_of_digits v)%Z /\ (0 <= int_of_digits a)%Z.
Proof.
  intros _ fp; subst fp; unfold GetAdbVncPortFromSSHTunnel.
  destruct (first_tunnel_found (tunnel_pattern ip) (splitlines out))
    as [H|(line & m & Hin & Hm & H)]; [left; exact H|right].
  apply tunnel_match_line in Hm.
  destruct Hm as (pre & sp1 & v & c1 & c2 & c3 & mid & sp2 & a & e1 & e2 & e3 &
                  post & y & rest & El & Hv & Hdv & Ha & Hda & Hpost & Hy & ->).
  exists line, pre, sp1, v, c1, c2, c3, mid, sp2, a, e1, e2, e3, post, y, rest.
  repeat (split; [assumption|]).
  split; apply int_of_digits_nonneg; assumption.
Qed.

(** The tunnel line of 35.1.2.3 after the header of the process table. *)
Lemma tunnel_ports_source_witness :
  let fp :=
    GetAdbVncPortFromSSHTunnel
      (ps_output [ps_header; ps_line_tunnel "5901" "5555" "35.1.2.3"])
      (t "35.1.2.3") in
  fp = mkForwardedPorts (Some 5901%Z) (Some 5555%Z) /\
  (fp = mkForwardedPorts None None \/
   exists line pre sp1 v c1 c2 c3 mid sp2 a e1 e2 e3 post y rest,
     In line (splitlines
                (ps_output [ps_header; ps_line_tunnel "5901" "5555" "35.1.2.3"])) /\
     line =
       pre ++ t "-L" ++ sp1 :: v ++
       (t ":127" ++ c1 :: "0"%char :: c2 :: "0"%char :: c3 :: t "1:") ++
       t "6444" ++
       mid ++ t "-L" ++ sp2 :: a ++
       (t ":127" ++ e1 :: "0"%char :: e2 :: "0"%char :: e3 :: t "1:") ++
       t "6520" ++
       post ++ y ++ rest /\
     v <> [] /\ forallb is_digit v = true /\
     a <> [] /\ forallb is_digit a = true /\
     post <> [] /\ src_reads (t "35.1.2.3") y = true /\
     fp = mkForwardedPorts (Some (int_of_digits v)) (Some (int_of_digits a)) /\
     (0 <= int_of_digits v)%Z /\ (0 <= int_of_digits a)%Z).
Proof.
  split; [vm_compute; reflexivity|].
  exact (@tunnel_ports_source
           (ps_output [ps_header; ps_line_tunnel "5901" "5555" "35.1.2.3"])
           (t "35.1.2.3") eq_refl).
Defined.

(** The second display entry is the one that is kept. *)
Lemma remote_metadata_last_wins_witness :
  exists i,
    RemoteInstance_example [] gce_with_metadata = Ok i /\
    _createtime i = Some (t "2018-12-01T10:00:00.000-07:00") /\
    (forall v,
        _display i = Some v <->
        exists pre post,
          metadata_items gce_with_metadata = pre ++ (t "display", v) :: post /\
          forall v', ~ In (t "display", v') post) /\
    _display i = Some (t "720x1280 (320)").
Proof.
  eexists; split; [vm_compute; reflexivity|].
  split; [reflexivity|]; split; [|reflexivity].
  refine (proj1 (proj2 (proj2 (proj2 (proj2
            (@remote_metadata_last_wins (t "display")
               (t "avd_type") (t "flavor") [] gce_with_metadata _ _)))))).
  vm_compute; reflexivity.
Defined.

(** A tunnel to the instance is up. *)
Lemma remote_summary_follows_connection_witness :
  exists i,
    RemoteInstance_example
      (ps_output [ps_header; ps_line_tunnel "5901" "5555" "35.1.2.3"])
      (gce_with_ip "35.1.2.3") = Ok i /\
    (exists head,
       Summary i = head ++ newline :: t "    adb serial: 127.0.0.1:5555") /\
    (repr i = TypeError _ <-> _ip i = None).
Proof.
  eexists; split; [vm_compute; reflexivity|].
  refine (@remote_summary_follows_connection (t "display")
            (t "avd_type") (t "flavor")
            (ps_output [ps_header; ps_line_tunnel "5901" "5555" "35.1.2.3"])
            (gce_with_ip "35.1.2.3") _ _).
  vm_compute; reflexivity.
Defined.

End remote_facts.

(* ================================================================= *)
(** ** Lines on which the tunnel lookup succeeds *)

Module tunnel_facts.

Import instance constants matcher_intro remote_facts.

Lemma src_reads_refl l : src_reads l l = true.
Proof.
  induction l as [|c l IH]; simpl; auto.
  rewrite IH, andb_true_r.
  destruct (Ascii.eqb_spec c ".") as [->|_]; [reflexivity|].
  apply Ascii.eqb_refl.
Qed.

Lemma matches_forward_clause_intro grp port pre d rest pos g :
  forallb (accepts Dot) pre = true ->
  d <> [] -> forallb is_digit d = true ->
  exists p1 g1,
    matches (forward_clause grp port) pos
      (pre ++ t "-L" ++ " "%char :: d ++ t ":127.0.0.1:" ++ port ++ rest) g
      p1 rest g1.
Proof.
  intros Hpre Hd Hdig.
  destruct d as [|x d]; [contradiction|].
  do 2 eexists; unfold forward_clause.
  eapply M_Seq.
  - eapply M_Seq; [apply matches_star_one_intro; exact Hpre|].
    eapply M_Seq; [apply M_Star_stop|].
    eapply M_Seq; [apply matches_lit_intro|].
    apply M_One; reflexivity.
  - eapply M_Seq.
    + apply M_Grp.
      apply (@matches_plus_one_intro Digit x d); exact Hdig.
    + eapply M_Seq.
      * apply matches_src_intro, src_reads_refl.
      * apply matches_src_intro, src_reads_refl.
Qed.

Lemma cons_eq_inv {A} (a b : A) l l' : a :: l = b :: l' -> a = b /\ l = l'.
Proof. intros H; injection H; auto. Qed.

(** Strip the characters on which the two sides of an equation agree. *)
Ltac behead E :=
  repeat match type of E with
  | _ :: _ = _ :: _ => apply cons_eq_inv in E; destruct E as [_ E]
  end.

Lemma first_tunnel_skip re_pattern before rest :
  (forall l, In l before -> re_match re_pattern l = None) ->
  first_tunnel re_pattern (before ++ rest) = first_tunnel re_pattern rest.
Proof.
  induction before as [|l before IH]; intros H; simpl; auto.
  rewrite (H l) by (simpl; auto).
  apply IH; intros l' Hl'; apply H; simpl; auto.
Qed.

(** A line with the two clauses in the order of the pattern is matched. *)
Lemma tunnel_line_matched ip pre v mid a post rest :
  v <> [] -> forallb is_digit v = true ->
  a <> [] -> forallb is_digit a = true ->
  forallb (accepts Dot) pre = true ->
  forallb (accepts Dot) mid = true ->
  post <> [] -> forallb (accepts Dot) post = true ->
  exists m,
    re_match (tunnel_pattern ip)
      (pre ++ vnc_clause v ++ mid ++ adb_clause a ++ post ++ ip ++ rest)
    = Some m.
Proof.
  intros Hv Hdv Ha Hda Hpre Hmid Hpost Hdpost.
  pose (s2 := post ++ ip ++ rest).
  pose (s1 := mid ++ t "-L" ++ " "%char :: a ++ t ":127.0.0.1:" ++ t "6520" ++ s2).
  assert (E : pre ++ vnc_clause v ++ mid ++ adb_clause a ++ post ++ ip ++ rest
              = pre ++ t "-L" ++ " "%char :: v ++ t ":127.0.0.1:" ++
                t "6444" ++ s1).
  { unfold vnc_clause, adb_clause, s1, s2.
    repeat (rewrite <- app_assoc || rewrite <- app_comm_cons).
    reflexivity. }
  rewrite E.
  destruct (@matches_forward_clause_intro _RE_GROUP_VNC (t "6444") pre v s1 0 []
              Hpre Hv Hdv) as (p1 & g1 & M1).
  destruct (@matches_forward_clause_intro _RE_GROUP_ADB (t "6520") mid a s2 p1 g1
              Hmid Ha Hda) as (p2 & g2 & M2).
  fold s1 in M2.
  destruct post as [|q post]; [contradiction|].
  assert (M3 : matches (Plus (One Dot) >> Src ip) p2 s2 g2
                 (p2 + len (q :: post) + len ip) rest g2).
  { eapply M_Seq.
    - apply (@matches_plus_one_intro Dot q post); exact Hdpost.
    - apply matches_src_intro, src_reads_refl. }
  assert (M : matches (tunnel_pattern ip) 0
                (pre ++ t "-L" ++ " "%char :: v ++ t ":127.0.0.1:" ++
                 t "6444" ++ s1) []
                (p2 + len (q :: post) + len ip) rest g2).
  { unfold tunnel_pattern, _RE_SSH_TUNNEL_PATTERN.
    rewrite fmt_d_vnc, fmt_d_adb.
    eapply M_Seq; [exact M1|].
    eapply M_Seq; [exact M2|exact M3]. }
  destruct (@rmatch_complete _ _ _ _ _ _ _ M (fun _ _ g => Some g) _ eq_refl)
    as (b & Hb).
  exists b; exact Hb.
Qed.

(** ... and only with the local ports of its two clauses. *)
Lemma tunnel_line_ports ip pre v mid a tail m :
  forallb is_digit v = true -> forallb is_digit a = true ->
  occurs dashL pre = false -> occurs dashL mid = false ->
  occurs dashL tail = false ->
  re_match (tunnel_pattern ip)
    (pre ++ vnc_clause v ++ mid ++ adb_clause a ++ tail) = Some m ->
  m = [(_RE_GROUP_ADB, a); (_RE_GROUP_VNC, v)].
Proof.
  intros Hdv Hda Hpre Hmid Htail Hm.
  apply tunnel_match_line in Hm.
  destruct Hm as (x1 & sp1 & v' & c1 & c2 & c3 & x2 & sp2 & a' & e1 & e2 & e3 &
                  post' & y & rest' & El & _ & Hdv' & _ & Hda' & _ & _ & ->).
  set (R2 := " "%char :: a ++ t ":127.0.0.1:6520" ++ tail).
  set (M1 := " "%char :: v ++ t ":127.0.0.1:6444" ++ mid).
  assert (Eline : pre ++ vnc_clause v ++ mid ++ adb_clause a ++ tail
                  = pre ++ t "-L" ++ M1 ++ t "-L" ++ R2).
  { unfold adb_clause, vnc_clause, M1, R2.
    repeat (rewrite <- app_assoc || rewrite <- app_comm_cons).
    reflexivity. }
  assert (HM1 : occurs dashL M1 = false).
  { unfold M1; simpl. unfold dashL. rewrite occurs_skip_digits by auto.
    exact Hmid. }
  assert (HR2 : occurs dashL R2 = false).
  { unfold R2; simpl. unfold dashL. rewrite occurs_skip_digits by auto.
    exact Htail. }
  assert (Hocc : forall x r,
             occurs dashL (x ++ "-"%char :: "L"%char :: r) = true).
  { intros x r; apply occurs_later, occurs_here; reflexivity. }
  rewrite Eline in El; symmetry in El.
  apply dashL_unique in El; [|exact Hpre].
  destruct El as [[_ E1]|(z & _ & E1)].
  - (* the first clause of the pattern read at the first clause of the line *)
    unfold M1 in E1.
    repeat (rewrite <- app_assoc in E1 || rewrite <- app_comm_cons in E1).
    simpl in E1.
    behead E1.
    apply (@digits_end_unique v' v ":"%char ":"%char) in E1; auto.
    destruct E1 as (-> & _ & E1).
    behead E1.
    apply dashL_unique in E1; [|exact Hmid].
    destruct E1 as [[_ E2]|(z & _ & E2)].
    + unfold R2 in E2; simpl in E2.
      behead E2.
      apply (@digits_end_unique a' a ":"%char ":"%char) in E2; auto.
      destruct E2 as (-> & _ & _); reflexivity.
    + exfalso.
      simpl in E2; rewrite E2, Hocc in HR2; discriminate.
  - exfalso.
    symmetry in E1.
    apply dashL_unique in E1; [|exact HM1].
    destruct E1 as [[_ E1]|(z' & _ & E1)].
    + rewrite <- E1 in HR2.
      match type of HR2 with
      | occurs dashL (sp1 :: v' ++ ?A ++ ?B ++ x2 ++ ?C ++ ?rr) = false =>
          assert (Ex : sp1 :: v' ++ A ++ B ++ x2 ++ C ++ rr
                       = (sp1 :: v' ++ A ++ B ++ x2) ++
                         "-"%char :: "L"%char :: rr)
            by (repeat (rewrite <- app_assoc || rewrite <- app_comm_cons);
                reflexivity)
      end.
      rewrite Ex, Hocc in HR2; discriminate.
    + simpl in E1; rewrite E1, Hocc in HR2; discriminate.
Qed.

(** X13: for an address of letters, digits, [:], [-], [_] and [.], the
    tunnel lookup succeeds on the first line that carries the
    VNC clause, then the ADB clause, then the address ([-L] occurring
    nowhere else in the line, no line break inside it): the pattern binds
    the two local ports, and the lookup returns them as numbers whatever
    follows in the listing. *)
Theorem tunnel_lookup_finds_ports ip before pre v mid a post rest after :
  src_plain ip = true ->
  (forall l, In l before -> re_match (tunnel_pattern ip) l = None) ->
  v <> [] -> forallb is_digit v = true ->
  a <> [] -> forallb is_digit a = true ->
  forallb (accepts Dot) pre = true ->
  forallb (accepts Dot) mid = true ->
  post <> [] -> forallb (accepts Dot) post = true ->
  occurs dashL pre = false -> occurs dashL mid = false ->
  occurs dashL (post ++ ip ++ rest) = false ->
  let line := pre ++ vnc_clause v ++ mid ++ adb_clause a ++ post ++ ip ++ rest in
  re_match (tunnel_pattern ip) line
  = Some [(_RE_GROUP_ADB, a); (_RE_GROUP_VNC, v)] /\
  first_tunnel (tunnel_pattern ip) (before ++ line :: after)
  = mkForwardedPorts (Some (int_of_digits v)) (Some (int_of_digits a)).
Proof.
  intros _ Hbefore Hv Hdv Ha Hda Hpre Hmid Hpost Hdpost Hnpre Hnmid Hntail
    line.
  destruct (@tunnel_line_matched ip pre v mid a post rest
              Hv Hdv Ha Hda Hpre Hmid Hpost Hdpost) as (m & Hm).
  fold line in Hm.
  pose proof (@tunnel_line_ports ip pre v mid a (post ++ ip ++ rest) m
                Hdv Hda Hnpre Hnmid Hntail Hm) as Em.
  subst m; split; [exact Hm|].
  rewrite first_tunnel_skip by exact Hbefore.
  simpl; rewrite Hm; reflexivity.
Qed.


(** The tunnel line of 35.1.2.3 after the header of the process table. *)
Lemma tunnel_lookup_finds_ports_witness :
  let line :=
    t "Mon Jan  1 00:00:00 2024 ssh -i /home/u/.ssh/acloud_rsa -q " ++
    vnc_clause (t "5901") ++ t " " ++ adb_clause (t "5555") ++
    t " -N -f -l vsoc-01 " ++ t "35.1.2.3" ++ [] in
  re_match (tunnel_pattern (t "35.1.2.3")) line
  = Some [(_RE_GROUP_ADB, t "5555"); (_RE_GROUP_VNC, t "5901")] /\
  first_tunnel (tunnel_pattern (t "35.1.2.3")) ([ps_header] ++ line :: [])
  = mkForwardedPorts (Some 5901%Z) (Some 5555%Z).
Proof.
  apply (@tunnel_lookup_finds_ports (t "35.1.2.3") [ps_header]
           (t "Mon Jan  1 00:00:00 2024 ssh -i /home/u/.ssh/acloud_rsa -q ")
           (t "5901") (t " ") (t "5555") (t " -N -f -l vsoc-01 ") [] []);
    try reflexivity; try discriminate.
  intros l [<-|[]]; vm_compute; reflexivity.
Defined.

End tunnel_facts.

(* ================================================================= *)
(** ** Decimal notation *)

Module decimal_facts.

Import instance constants remote_facts.

Lemma digits_from_pos u : forall p,
  fold_left step (t (NilEmpty.string_of_uint u)) (Zpos p)
  = Zpos (Pos.of_uint_acc u p).
Proof.
  induction u; intros p; cbn [NilEmpty.string_of_uint t list_ascii_of_string
                               fold_left Pos.of_uint_acc];
    try reflexivity;
    match goal with
    | |- fold_left step _ (step (Zpos p) ?c) = _ =>
        let z := eval cbv in (Z.of_nat (nat_of_ascii c) - 48)%Z in
        change (step (Zpos p) c) with (10 * Zpos p + z)%Z
    end;
    rewrite <- IHu; f_equal; lia.
Qed.

Lemma digits_from_zero u :
  fold_left step (t (NilEmpty.string_of_uint u)) 0%Z = Z.of_N (Pos.of_uint u).
Proof.
  induction u; cbn [NilEmpty.string_of_uint t list_ascii_of_string fold_left
                      Pos.of_uint];
    try reflexivity;
    match goal with
    | |- fold_left step _ (step 0%Z ?c) = _ =>
        let z := eval cbv in (step 0%Z c) in
        change (step 0%Z c) with z
    end;
    [exact IHu|..]; apply digits_from_pos.
Qed.

Lemma string_of_uint_digits u :
  forallb is_digit (t (NilEmpty.string_of_uint u)) = true.
Proof.
  induction u; cbn [NilEmpty.string_of_uint t list_ascii_of_string forallb];
    try reflexivity; exact IHu.
Qed.

(** [int] reads back what [%d] writes, and [%d] writes digits only. *)
Lemma int_of_fmt_d n :
  (0 <= n)%Z ->
  int_of_digits (fmt_d n) = n /\
  fmt_d n <> [] /\ forallb is_digit (fmt_d n) = true.
Proof.
  intros Hn; unfold int_of_digits, fmt_d.
  fold step.
  destruct n as [|p|p]; [repeat split; discriminate| |lia].
  cbn [Z.to_int NilZero.string_of_int].
  assert (E : NilZero.string_of_uint (Pos.to_uint p)
              = NilEmpty.string_of_uint (Pos.to_uint p)).
  { unfold NilZero.string_of_uint.
    destruct (Pos.to_uint p) eqn:Ep; try reflexivity.
    exfalso; apply (DecimalPos.Unsigned.to_uint_nonnil p); exact Ep. }
  rewrite E, digits_from_zero, DecimalPos.Unsigned.of_to.
  repeat split.
  - destruct (Pos.to_uint p); discriminate.
  - apply string_of_uint_digits.
Qed.

(** X14: a connected remote instance has both ports, a positive ADB port
    and a VNC port that is not negative.  Its full name shows the ADB
    port in decimal digits, from which [int] reads the same port back. *)
Theorem connected_serial_reads_back kd kt kf out gce i :
  RemoteInstance kd kt kf out gce = Ok i ->
  _ssh_tunnel_is_connected i = Some true ->
  exists a v,
    _adb_port i = Some a /\ _vnc_port i = Some v /\
    (0 < a)%Z /\ (0 <= v)%Z /\
    _fullname i =
      Some (t "device serial: 127.0.0.1:" ++ fmt_d a ++ t " (" ++
            fmt_s (gce_name gce) ++ t ")") /\
    forallb is_digit (fmt_d a) = true /\
    int_of_digits (fmt_d a) = a.
Proof.
  intros H Hc.
  assert (Hraise : extract_ip gce <> TypeError _).
  { intros E; apply (RemoteInstance_raises kd kt kf out) in E; congruence. }
  destruct (extract_ip gce) as [ip|] eqn:Eip; [clear Hraise|congruence].
  destruct (@RemoteInstance_connection kd kt kf out gce ip Eip)
    as (i' & Hi' & Hconn).
  rewrite H in Hi'; injection Hi' as <-.
  cbv zeta in Hconn.
  destruct (truthy_str ip).
  - destruct Hconn as (_ & Ha & Hv & Hconn).
    unfold GetAdbVncPortFromSSHTunnel in Ha, Hv, Hconn.
    destruct (first_tunnel_found (tunnel_pattern (the [] ip)) (splitlines out))
      as [Hnone|(line & m & _ & Hm & Hfp)].
    + rewrite Hnone in Ha, Hv, Hconn.
      cbn [adb_port truthy_int] in Hconn.
      destruct Hconn as [Hconn _]; congruence.
    + apply tunnel_match_line in Hm.
      destruct Hm as (pre & sp1 & v & c1 & c2 & c3 & mid & sp2 & a &
                      e1 & e2 & e3 & post & y & rest & _ & _ & Hdv & _ & Hda &
                      _ & _ & ->).
      pose proof (int_of_digits_nonneg v Hdv) as Hv0.
      pose proof (int_of_digits_nonneg a Hda) as Ha0.
      change (first_tunnel (tunnel_pattern (the [] ip)) (splitlines out)
              = mkForwardedPorts (Some (int_of_digits v))
                                 (Some (int_of_digits a))) in Hfp.
      rewrite Hfp in Ha, Hv, Hconn.
      cbn [adb_port vnc_port truthy_int the] in Ha, Hv, Hconn.
      destruct (Z.eqb_spec (int_of_digits a) 0) as [E0|N0];
        cbn [negb] in Hconn; destruct Hconn as [Hconn Hf]; [congruence|].
      exists (int_of_digits a), (int_of_digits v).
      destruct (@int_of_fmt_d (int_of_digits a) Ha0) as (Hr & _ & Hd).
      repeat split; auto; lia.
  - destruct Hconn as (_ & _ & _ & Hconn & _); congruence.
Qed.

(** A tunnel to the instance is up, with local ADB port 5555. *)
Lemma connected_serial_reads_back_witness :
  exists i,
    RemoteInstance_example
      (ps_output [ps_header; ps_line_tunnel "5901" "5555" "35.1.2.3"])
      (gce_with_ip "35.1.2.3") = Ok i /\
    exists a v,
      _adb_port i = Some a /\ _vnc_port i = Some v /\
      (0 < a)%Z /\ (0 <= v)%Z /\
      _fullname i =
        Some (t "device serial: 127.0.0.1:" ++ fmt_d a ++ t " (" ++
              fmt_s (Some (t "ins-1234-cf")) ++ t ")") /\
      forallb is_digit (fmt_d a) = true /\
      int_of_digits (fmt_d a) = a.
Proof.
  eexists; split; [vm_compute; reflexivity|].
  refine (@connected_serial_reads_back (t "display")
            (t "avd_type") (t "flavor")
            (ps_output [ps_header; ps_line_tunnel "5901" "5555" "35.1.2.3"])
            (gce_with_ip "35.1.2.3") _ _ _).
  - vm_compute; reflexivity.
  - reflexivity.
Defined.

End decimal_facts.

(* ================================================================= *)
(** ** From creation to discovery *)

Module round_trip.

Import instance constants proc local_image_local_instance path_facts
  matcher_intro local_facts local_shape.

(** The bindings on a command line with the flags in the order of the
    pattern. *)
Lemma launch_line_match date path cpu x_res y_res dpi memory disk tail :
  date <> [] ->
  forallb (accepts (NotChr "/")) date = true ->
  forallb (accepts Dot) ("/"%char :: path) = true ->
  value_ok cpu = true -> value_ok x_res = true -> value_ok y_res = true ->
  value_ok dpi = true -> value_ok memory = true -> value_ok disk = true ->
  tail_ok tail = true ->
  re_match _RE_LAUNCH_CVD
    (launch_line date ("/"%char :: path) cpu x_res y_res dpi memory disk tail)
  = Some (bound "disk" disk
            (bound "memory" memory
               (bound "dpi" dpi
                  (bound "y_res" y_res
                     (bound "x_res" x_res
                        (bound "cpu" cpu [("date_str"%string, date)])))))).
Proof.
  intros Hne Hdate Hpath Hcpu Hx Hy Hdpi Hmem Hdisk Htail.
  apply tail_ok_facts in Htail; destruct Htail as [Htok Hflags].
  unfold re_match, _RE_LAUNCH_CVD, launch_line.
  rewrite rmatch_seq.
  apply launch_head_read; auto.
  - skip_args; exact Htok.
  - intros p0.
    flag_next (t "cpus") "cpu"%string Hcpu.
    flag_next (t "x_res") "x_res"%string Hx.
    flag_next (t "y_res") "y_res"%string Hy.
    flag_next (t "dpi") "dpi"%string Hdpi.
    flag_next (t "memory_mb") "memory"%string Hmem.
    flag_next (t "blank_data_image_mb") "disk"%string Hdisk.
    reflexivity.
Qed.

Lemma lstrip_snoc s c :
  is_space c = true ->
  lstrip (s ++ [c]) = match lstrip s with [] => [] | l => l ++ [c] end.
Proof.
  intros Hc; induction s as [|x s IH]; simpl.
  - rewrite Hc; reflexivity.
  - destruct (is_space x); [exact IH|reflexivity].
Qed.

Lemma strip_snoc s c : is_space c = true -> strip (s ++ [c]) = strip s.
Proof.
  intros Hc; unfold strip; rewrite lstrip_snoc by exact Hc.
  destruct (lstrip s) as [|x l]; [reflexivity|].
  rewrite rev_app_distr; simpl rev at 2; cbn [app lstrip].
  rewrite Hc; reflexivity.
Qed.

(** The directory of the launch command under an absolute host path. *)
Lemma bin_of_absolute h :
  forallb (accepts Dot) h = true ->
  exists path,
    launch_cvd_path_in ("/"%char :: h) = "/"%char :: path ++ t "launch_cvd" /\
    forallb (accepts Dot) ("/"%char :: path) = true.
Proof.
  intros Hh.
  destruct (path_join_bin ("/"%char :: h)) as [Hne Hlast].
  destruct (@dirname_path_join (path_join ("/"%char :: h) (t "bin"))
              CMD_LAUNCH_CVD Hne Hlast eq_refl) as [E _].
  unfold launch_cvd_path_in; rewrite E.
  unfold path_join; cbn [starts_with_slash t list_ascii_of_string].
  change (Ascii.eqb "b" slash) with false; cbv iota.
  destruct (starts_with_slash (rev ("/"%char :: h))).
  - exists (h ++ t "bin/"); split.
    + cbn [app]; repeat (rewrite <- app_assoc || rewrite <- app_comm_cons).
      reflexivity.
    + cbn [forallb]; rewrite forallb_app, Hh; reflexivity.
  - exists (h ++ t "/bin/"); split.
    + cbn [app]; repeat (rewrite <- app_assoc || rewrite <- app_comm_cons).
      reflexivity.
    + cbn [forallb]; rewrite forallb_app, Hh; reflexivity.
Qed.

(** X15: from creation to discovery.  The process line of the command
    built by [PrepareLaunchCVDCmd] (no group wrapper, absolute host
    directory, hardware values that are runs of digits, an image directory
    that repeats neither the launch token nor a flag) is matched by the
    launch pattern: the instance found has the start time of the process
    as creation time and the display [<x_res>x<y_res> (<dpi>)] of the
    hardware properties. *)
Theorem created_instance_is_discovered ty out before after lstart h avd_spec :
  let hw := avd_hw_property avd_spec in
  splitlines out =
    before ++
    (lstart ++ " "%char :: launch_cmd_for no_groups ("/"%char :: h) avd_spec)
    :: after ->
  (forall l, In l before -> re_match _RE_LAUNCH_CVD l = None) ->
  forallb (accepts (NotChr "/")) lstart = true ->
  forallb (accepts Dot) h = true ->
  value_ok (Some (hw_cpu hw)) = true ->
  value_ok (Some (hw_x_res hw)) = true ->
  value_ok (Some (hw_y_res hw)) = true ->
  value_ok (Some (hw_dpi hw)) = true ->
  value_ok (Some (hw_memory hw)) = true ->
  value_ok (Some (hw_disk hw)) = true ->
  tail_ok (t "--data_policy always_create --system_image_dir " ++
           local_image_dir avd_spec ++ t " --vnc_server_port 6444") = true ->
  exists i,
    LocalInstance ty true out = Some i /\
    _createtime i = Some (strip lstart) /\
    _display i = Some (hw_x_res hw ++ t "x" ++ hw_y_res hw ++
                       t " (" ++ hw_dpi hw ++ t ")").
Proof.
  intros hw Hout Hbefore Hlstart Hh Hcpu Hx Hy Hdpi Hmem Hdisk Htail.
  destruct (bin_of_absolute h Hh) as (path & Epath & Hpath).
  assert (Eline :
            lstart ++ " "%char :: launch_cmd_for no_groups ("/"%char :: h) avd_spec
            = launch_line (lstart ++ [" "%char]) ("/"%char :: path)
                (Some (hw_cpu hw)) (Some (hw_x_res hw)) (Some (hw_y_res hw))
                (Some (hw_dpi hw)) (Some (hw_memory hw)) (Some (hw_disk hw))
                (t "--data_policy always_create --system_image_dir " ++
                 local_image_dir avd_spec ++ t " --vnc_server_port 6444")).
  { unfold launch_cmd_for, PrepareLaunchCVDCmd, no_groups, _CMD_LAUNCH_CVD_ARGS,
      launch_line, flag_arg, launch_token.
    rewrite Epath, fmt_d_vnc; fold hw.
    repeat (rewrite <- app_assoc || rewrite <- app_comm_cons).
    reflexivity. }
  assert (Hm := @launch_line_match (lstart ++ [" "%char]) path
                  (Some (hw_cpu hw)) (Some (hw_x_res hw)) (Some (hw_y_res hw))
                  (Some (hw_dpi hw)) (Some (hw_memory hw)) (Some (hw_disk hw))
                  (t "--data_policy always_create --system_image_dir " ++
                   local_image_dir avd_spec ++ t " --vnc_server_port 6444")).
  rewrite <- Eline in Hm.
  eexists; split.
  - unfold LocalInstance; simpl negb; cbv iota.
    rewrite Hout, LocalInstance_scan_skip by exact Hbefore.
    cbn [LocalInstance_scan].
    rewrite Hm; auto.
    + destruct lstart; discriminate.
    + rewrite forallb_app, Hlstart; reflexivity.
  - split.
    + change (Some (strip (lstart ++ [" "%char])) = Some (strip lstart)).
      rewrite strip_snoc by reflexivity; reflexivity.
    + reflexivity.
Qed.

(** X16: the flags are read in the order of the pattern only.  When the
    flag for the CPUs stands after other text behind the launch token,
    the CPU clause consumes that text: the CPUs are bound, every flag
    written before is left unbound, and the display of the instance is
    [NonexNone (None)]. *)
Theorem late_cpus_flag_hides_earlier_flags ty date path junk c tail :
  date <> [] ->
  forallb (accepts (NotChr "/")) date = true ->
  forallb (accepts Dot) ("/"%char :: path) = true ->
  forallb (accepts Dot) junk = true ->
  value_ok (Some c) = true ->
  occurs (map Chr launch_token) (junk ++ flag_arg (t "cpus") (Some c) ++ tail)
  = false ->
  tail_ok tail = true ->
  let line :=
    date ++ ("/"%char :: path) ++ launch_token ++
    junk ++ flag_arg (t "cpus") (Some c) ++ tail in
  re_match _RE_LAUNCH_CVD line
  = Some [("cpu"%string, c); ("date_str"%string, date)] /\
  LocalInstance_scan ty [line]
  = Some (local_instance_of_match ty
            [("cpu"%string, c); ("date_str"%string, date)]) /\
  _display (local_instance_of_match ty
              [("cpu"%string, c); ("date_str"%string, date)])
  = Some (t "NonexNone (None)").
Proof.
  intros Hne Hdate Hpath Hjunk Hc Htoken Htail line.
  apply tail_ok_facts in Htail; destruct Htail as [_ Hflags].
  apply value_ok_some in Hc; destruct Hc as [Hcne Hcd].
  assert (Hblank : forall name,
             In name launch_flags ->
             occurs (flag_items ("-"%char :: name)) (" "%char :: tail) = false).
  { intros name Hin; unfold flag_items; cbn [map app].
    change (" "%char :: tail) with ([" "%char] ++ tail).
    rewrite occurs_skip_without by reflexivity.
    apply (Hflags name Hin). }
  assert (Hm : re_match _RE_LAUNCH_CVD line
               = Some [("cpu"%string, c); ("date_str"%string, date)]).
  { unfold re_match, _RE_LAUNCH_CVD, line.
    rewrite rmatch_seq.
    apply launch_head_read; auto.
    intros p0; cbn [blank_if app].
    rewrite rmatch_seq.
    replace (junk ++ flag_arg (t "cpus") (Some c) ++ tail)
      with ((junk ++ ["-"%char]) ++
            t "-cpus" ++ " "%char :: c ++ " "%char :: tail).
    2:{ unfold flag_arg.
        repeat (rewrite <- app_assoc || rewrite <- app_comm_cons).
        reflexivity. }
    apply flag_clause_present;
      [rewrite forallb_app, Hjunk; reflexivity | discriminate | reflexivity
      | reflexivity | exact Hcne | exact Hcd | reflexivity | | ].
    - cbn [app tl t list_ascii_of_string].
      unfold flag_items; cbn [map app t list_ascii_of_string].
      change ("c"%char :: "p"%char :: "u"%char :: "s"%char :: " "%char ::
              c ++ " "%char :: tail)
        with (t "cpus " ++ c ++ [" "%char] ++ tail).
      rewrite occurs_skip_without by reflexivity.
      rewrite occurs_skip_without by (apply digits_no_dash; exact Hcd).
      rewrite occurs_skip_without by reflexivity.
      apply (Hflags (t "cpus")); simpl; tauto.
    - cbv beta.
      rewrite rmatch_seq, flag_clause_absent
        by (apply (Hblank (t "x_res")); simpl; tauto).
      rewrite rmatch_seq, flag_clause_absent
        by (apply (Hblank (t "y_res")); simpl; tauto).
      rewrite rmatch_seq, flag_clause_absent
        by (apply (Hblank (t "dpi")); simpl; tauto).
      rewrite rmatch_seq, flag_clause_absent
        by (apply (Hblank (t "memory_mb")); simpl; tauto).
      rewrite flag_clause_absent
        by (apply (Hblank (t "blank_data_image_mb")); simpl; tauto).
      reflexivity. }
  split; [exact Hm|]; split; [|reflexivity].
  cbn [LocalInstance_scan]; rewrite Hm; reflexivity.
Qed.

(** The process table after creation with the sample specification. *)
Lemma created_instance_is_discovered_witness :
  exists i,
    LocalInstance (t "cuttlefish") true
      (ps_output [ps_header;
                  t "Mon Jan  1 00:00:00 2024 /usr/sbin/sshd -D";
                  t "Mon Jan  1 00:00:05 2024" ++ " "%char ::
                  launch_cmd_for no_groups (t "/out/host") sample_spec])
    = Some i /\
    _createtime i = Some (t "Mon Jan  1 00:00:05 2024") /\
    _display i = Some (t "720x1280 (320)").
Proof.
  apply (@created_instance_is_discovered (t "cuttlefish")
           (ps_output [ps_header;
                       t "Mon Jan  1 00:00:00 2024 /usr/sbin/sshd -D";
                       t "Mon Jan  1 00:00:05 2024" ++ " "%char ::
                       launch_cmd_for no_groups (t "/out/host") sample_spec])
           [ps_header; t "Mon Jan  1 00:00:00 2024 /usr/sbin/sshd -D"] []
           (t "Mon Jan  1 00:00:05 2024") (t "out/host") sample_spec).
  - vm_compute; reflexivity.
  - intros l [<-|[<-|[]]]; vm_compute; reflexivity.
  - vm_compute; reflexivity.
  - vm_compute; reflexivity.
  - vm_compute; reflexivity.
  - vm_compute; reflexivity.
  - vm_compute; reflexivity.
  - vm_compute; reflexivity.
  - vm_compute; reflexivity.
  - vm_compute; reflexivity.
  - vm_compute; reflexivity.
Defined.

(** The resolution and the density are given before the number of CPUs. *)
Lemma late_cpus_flag_hides_earlier_flags_witness :
  re_match _RE_LAUNCH_CVD
    (t "Mon Jan  1 00:00:00 2024 /out/host/bin/launch_cvd --daemon --x_res 720 --y_res 1280 --dpi 320 --cpus 2 --data_policy always_create")
  = Some [("cpu"%string, t "2");
          ("date_str"%string, t "Mon Jan  1 00:00:00 2024 ")].
Proof.
  exact (proj1 (@late_cpus_flag_hides_earlier_flags (t "cuttlefish")
                  (t "Mon Jan  1 00:00:00 2024 ") (t "out/host/bin/")
                  (t "--x_res 720 --y_res 1280 --dpi 320 ") (t "2")
                  (t "--data_policy always_create")
                  ltac:(discriminate) eq_refl eq_refl eq_refl eq_refl eq_refl
                  eq_refl)).
Defined.

End round_trip.
